(** * Geometry processing of offshore-wind-turbine support structures

    A shallow embedding of the geometry core of [owi.metadatabase]:
    the building-block domain model of [geometry/structures.py] and the
    single-turbine ([OWT]) and fleet ([OWTs]) engines of
    [geometry/processing.py], followed by the properties checked on them.

    Conventions of the embedding.
    - A [numpy.float64] is a rational or one of the IEEE special values.
      The engines are embedded over exact arithmetic on the finite values,
      where a decimal literal of the source ([1e-3], [1e9],
      [numpy.pi = 3.141592653589793]) denotes the rational it spells; this
      serves the properties of tables, labels, flags and errors.  The
      numerical methods ([BuildingBlock.volume], [OWT.can_adjust_properties],
      [OWT.can_modification]) are embedded a second time over an arithmetic
      given as a parameter, and their numerical properties are stated on
      IEEE 754 binary64 with rounding to nearest ([Binary64], [Numeric]).
      The sign of zero is outside the model.
    - A Python exception is a value of [exn]; a computation that may raise
      returns a [result].
    - Methods that mutate [self] are state transformers that also return
      the warnings they emit; the state reached when an exception
      propagates is kept, as the mutation of a Python object is. *)

From Stdlib Require Import QArith Qround Qabs Qpower Lqa Lia ZArith Ascii String List Bool.
From Stdlib Require Import DecimalString.
From stdpp Require Import gmap strings.
Import ListNotations.

Local Open Scope Q_scope.
Local Open Scope string_scope.

(* ===================================================================== *)
(** ** Floating-point values *)
(* ===================================================================== *)

Module Float64.

Inductive float64 : Type :=
| Fin (q : Q)
| PInf
| NInf
| NaN.

Definition isnan (x : float64) : bool :=
  match x with NaN => true | _ => false end.

Definition is_finite (x : float64) : bool :=
  match x with Fin _ => true | _ => false end.

Definition fopp (x : float64) : float64 :=
  match x with
  | Fin q => Fin (- q)
  | PInf => NInf
  | NInf => PInf
  | NaN => NaN
  end.

Definition fadd (x y : float64) : float64 :=
  match x, y with
  | NaN, _ | _, NaN => NaN
  | PInf, NInf | NInf, PInf => NaN
  | PInf, _ | _, PInf => PInf
  | NInf, _ | _, NInf => NInf
  | Fin a, Fin b => Fin (a + b)
  end.

Definition fsub (x y : float64) : float64 := fadd x (fopp y).

(** Sign of a rational as an infinity, for [inf * q] and [q / 0]. *)
Definition signed_inf (positive : bool) : float64 :=
  if positive then PInf else NInf.

Definition fmul (x y : float64) : float64 :=
  match x, y with
  | NaN, _ | _, NaN => NaN
  | Fin a, Fin b => Fin (a * b)
  | PInf, PInf | NInf, NInf => PInf
  | PInf, NInf | NInf, PInf => NInf
  | PInf, Fin q | Fin q, PInf =>
      if Qeq_bool q 0 then NaN else signed_inf (Qle_bool 0 q)
  | NInf, Fin q | Fin q, NInf =>
      if Qeq_bool q 0 then NaN else signed_inf (negb (Qle_bool 0 q))
  end.

(** numpy division: a zero divisor gives an infinity or NaN (with a
    RuntimeWarning), never an exception. *)
Definition fdiv (x y : float64) : float64 :=
  match x, y with
  | NaN, _ | _, NaN => NaN
  | Fin a, Fin b =>
      if Qeq_bool b 0
      then (if Qeq_bool a 0 then NaN else signed_inf (Qle_bool 0 a))
      else Fin (a / b)
  | Fin _, (PInf | NInf) => Fin 0
  | (PInf | NInf), (PInf | NInf) => NaN
  | PInf, Fin q => signed_inf (Qle_bool 0 q)
  | NInf, Fin q => signed_inf (negb (Qle_bool 0 q))
  end.

(** [x ** 2]. *)
Definition fsqr (x : float64) : float64 := fmul x x.

(** Comparisons; every comparison with NaN is false, except [!=]. *)
Definition feqb (x y : float64) : bool :=
  match x, y with
  | Fin a, Fin b => Qeq_bool a b
  | PInf, PInf | NInf, NInf => true
  | _, _ => false
  end.

Definition fneb (x y : float64) : bool := negb (feqb x y).

Definition fltb (x y : float64) : bool :=
  match x, y with
  | NaN, _ | _, NaN => false
  | Fin a, Fin b => negb (Qle_bool b a)
  | NInf, NInf | PInf, _ => false
  | NInf, _ => true
  | Fin _, PInf => true
  | Fin _, NInf => false
  end.

Definition fgtb (x y : float64) : bool := fltb y x.

Definition fleb (x y : float64) : bool :=
  match x, y with
  | NaN, _ | _, NaN => false
  | _, _ => negb (fltb y x)
  end.

(** [bool(x)]: every float but zero is true, NaN included. *)
Definition ftruthy (x : float64) : bool :=
  match x with
  | Fin q => negb (Qeq_bool q 0)
  | _ => true
  end.

(** Round half to even, the rule of Python's [round] and of [numpy.round]. *)
Definition round_half_even (q : Q) : Z :=
  let f := Qfloor q in
  let r := q - inject_Z f in
  if Qeq_bool r (1 # 2)
  then (if Z.even f then f else (f + 1)%Z)
  else if Qle_bool r (1 # 2) then f else (f + 1)%Z.

(** [numpy.round(x, n)] for [n] decimals; special values are kept. *)
Definition fround (n : nat) (x : float64) : float64 :=
  match x with
  | Fin q =>
      let s := inject_Z (10 ^ Z.of_nat n) in
      Fin (inject_Z (round_half_even (q * s)) / s)
  | _ => x
  end.

(** [numpy.pi]. *)
Definition pi : Q := 3.141592653589793.

End Float64.
Export Float64.

(* ===================================================================== *)
(** ** Exceptions and results *)
(* ===================================================================== *)

Inductive exn : Type :=
| ValueError (msg : string)
| TypeError (msg : string)
| KeyError (key : string)
| IndexError (msg : string)
| AttributeError (name : string)
| OverflowError (msg : string).

Inductive result (A : Type) : Type :=
| Ok (a : A)
| Raise (e : exn).
Arguments Ok {A} a.
Arguments Raise {A} e.

#[global] Instance result_ret : MRet result := fun _ a => Ok a.
#[global] Instance result_bind : MBind result := fun _ _ f m =>
  match m with
  | Ok a => f a
  | Raise e => Raise e
  end.

#[global] Instance result_fmap : FMap result := fun _ _ f m =>
  match m with
  | Ok a => Ok (f a)
  | Raise e => Raise e
  end.

Definition is_ok {A} (r : result A) : bool :=
  match r with Ok _ => true | Raise _ => false end.

(** Values a raw record holds under a numeric key: a float, or [None]. *)
Inductive pyval : Type :=
| PyNone
| PyFloat (f : float64).

(** [bool(v)]. *)
Definition truthy (v : pyval) : bool :=
  match v with
  | PyNone => false
  | PyFloat f => ftruthy f
  end.

(** Operand of an arithmetic operator: [None] raises [TypeError]. *)
Definition as_float (v : pyval) : result float64 :=
  match v with
  | PyFloat f => Ok f
  | PyNone => Raise (TypeError "unsupported operand type(s): 'NoneType'")
  end.

(* ===================================================================== *)
(** ** geometry/structures.py *)
(* ===================================================================== *)

Module Structures.

(** [DataBB]: the raw record, a dictionary from field names to values. *)
Abbreviation DataBB := (gmap string pyval).

Record Material : Type := {
  mat_title : string;
  mat_description : string;
  mat_density : float64;
  mat_poisson_ratio : float64;
  mat_young_modulus : float64;
  mat_id : Z
}.

Record Position : Type := {
  pos_x : float64;
  pos_y : float64;
  pos_z : float64;
  pos_alpha : float64;
  pos_beta : float64;
  pos_gamma : float64;
  reference_system : string
}.

Record BuildingBlock : Type := {
  bb_id : Z;
  bb_title : string;
  bb_description : string;
  bb_position : Position;
  bb_material : option Material;
  json : DataBB
}.

Inductive bbtype : Type :=
| tubular_section
| lumped_mass
| distributed_mass.

(** [self.json[k]]. *)
Definition getitem (d : DataBB) (k : string) : result pyval :=
  match d !! k with
  | Some v => Ok v
  | None => Raise (KeyError k)
  end.

(** The table [cond] of [BuildingBlock.type], in its iteration order. *)
Definition cond : list (string * bbtype) :=
  [ ("bottom_outer_diameter", tubular_section);
    ("mass", lumped_mass);
    ("mass_distribution", distributed_mass) ].

(** [k in self.json and self.json[k] is not None and not np.isnan(self.json[k])]. *)
Definition populated (d : DataBB) (k : string) : bool :=
  match d !! k with
  | None => false
  | Some PyNone => false
  | Some (PyFloat f) => negb (isnan f)
  end.

Fixpoint type_loop (d : DataBB) (ks : list (string * bbtype)) : result bbtype :=
  match ks with
  | [] => Raise (ValueError "Could not find supported building block type.")
  | (k, t) :: ks' => if populated d k then Ok t else type_loop d ks'
  end.

(** [BuildingBlock.type]. *)
Definition type (bb : BuildingBlock) : result bbtype :=
  type_loop (json bb) cond.

(** [BuildingBlock.wall_thickness], and the two diameters likewise. *)
Definition tubular_field (k : string) (bb : BuildingBlock) : result pyval :=
  t ← type bb;
  match t with
  | tubular_section => getitem (json bb) k
  | _ => Ok PyNone
  end.

Definition wall_thickness := tubular_field "wall_thickness".
Definition bottom_outer_diameter := tubular_field "bottom_outer_diameter".
Definition top_outer_diameter := tubular_field "top_outer_diameter".

(** [BuildingBlock.height]. *)
Definition height (bb : BuildingBlock) : pyval :=
  match json bb !! "height" with
  | Some v => v
  | None => PyNone
  end.

(** [_calc_cone_volume]: [pi * height / 3 * (r_bottom**2 + r_bottom * r_top + r_top**2)]. *)
Definition _calc_cone_volume (r_bottom r_top h : float64) : float64 :=
  fmul (fdiv (fmul (Fin pi) h) (Fin 3))
       (fadd (fadd (fsqr r_bottom) (fmul r_bottom r_top)) (fsqr r_top)).

Definition height_missing : exn := ValueError "Height data is missing.".

(** [round(x)] of a float to an integer, as a float again. *)
Definition py_round (x : float64) : result float64 :=
  match x with
  | Fin q => Ok (Fin (inject_Z (round_half_even q)))
  | NaN => Raise (ValueError "cannot convert float NaN to integer")
  | _ => Raise (OverflowError "cannot convert float infinity to integer")
  end.

(** The two frustum volumes of a tubular section, outer then inner, mm3. *)
Definition cone_volumes (bb : BuildingBlock) : result (float64 * float64) :=
  let d := json bb in
  bod ← getitem d "bottom_outer_diameter" ≫= as_float;
  wt ← getitem d "wall_thickness" ≫= as_float;
  let r_bottom_inner := fsub (fdiv bod (Fin 2)) wt in
  bod' ← getitem d "bottom_outer_diameter" ≫= as_float;
  let r_bottom_outer := fdiv bod' (Fin 2) in
  tod ← getitem d "top_outer_diameter" ≫= as_float;
  wt' ← getitem d "wall_thickness" ≫= as_float;
  let r_top_inner := fsub (fdiv tod (Fin 2)) wt' in
  tod' ← getitem d "top_outer_diameter" ≫= as_float;
  let r_top_outer := fdiv tod' (Fin 2) in
  h ← getitem d "height" ≫= as_float;
  let volume_inner_cone := _calc_cone_volume r_bottom_inner r_top_inner h in
  let volume_outer_cone := _calc_cone_volume r_bottom_outer r_top_outer h in
  Ok (volume_outer_cone, volume_inner_cone).

(** [BuildingBlock.volume]; [Ok None] is Python's [None]. *)
Definition volume (bb : BuildingBlock) : result (option float64) :=
  t ← type bb;
  match t with
  | tubular_section =>
      if truthy (height bb)
      then
        '(volume_outer_cone, volume_inner_cone) ← cone_volumes bb;
        Ok (Some (fdiv (fsub volume_outer_cone volume_inner_cone) (Fin 1e9)))
      else Raise height_missing
  | distributed_mass =>
      if truthy (height bb)
      then
        vd ← getitem (json bb) "volume_distribution" ≫= as_float;
        h ← as_float (height bb);
        v ← py_round (fdiv (fmul vd h) (Fin 1000));
        Ok (Some v)
      else Raise height_missing
  | lumped_mass => Ok None
  end.

End Structures.

(* ===================================================================== *)
(** ** Tables of geometry/processing.py *)
(* ===================================================================== *)

(** A pandas frame is a list of rows in order, each with its index label.
    Numeric columns hold floats: a [None] stored in a numeric column has
    become NaN when the frame was built. *)
Module Frames.

Definition frame (R : Type) : Type := list (string * R).

(** [pd.concat] of frames with the same columns. *)
Definition concat {R} (fs : list (frame R)) : frame R := List.concat fs.

(** [df[mask]] for a mask computed row by row. *)
Definition select {R} (p : R -> bool) (df : frame R) : frame R :=
  List.filter (fun lr => p (snd lr)) df.

(** [df.loc[mask]] for a mask computed on the index. *)
Definition select_index {R} (p : string -> bool) (df : frame R) : frame R :=
  List.filter (fun lr => p (fst lr)) df.

(** [df.loc[label, cols] = ...]: every row carrying the label is set. *)
Definition loc_set {R} (label : string) (f : R -> R) (df : frame R) : frame R :=
  map (fun lr => if String.eqb (fst lr) label then (fst lr, f (snd lr)) else lr) df.

(** Assignment of a column computed row by row. *)
Definition map_rows {R R'} (f : R -> R') (df : frame R) : frame R' :=
  map (fun lr => (fst lr, f (snd lr))) df.

(** Positional access [df.index[ind]] / [df.iloc[ind]] for [ind] in
    {0, -1}; out of range on an empty frame. *)
Inductive position : Type := first_row | last_row.

Definition at_position {R} (ind : position) (df : frame R) : result (string * R) :=
  match ind, df with
  | _, [] => Raise (IndexError "index out of bounds")
  | first_row, lr :: _ => Ok lr
  | last_row, lr :: rest => Ok (List.last rest lr)
  end.

(** [Series.sum()]: NaN entries are skipped. *)
Definition nansum (xs : list float64) : float64 :=
  fold_left (fun acc x => if isnan x then acc else fadd acc x) xs (Fin 0).

Definition column {R} (f : R -> float64) (df : frame R) : list float64 :=
  map (fun lr => f (snd lr)) df.

(** [s.str.contains(sub)] for a plain pattern: substring search. *)
Fixpoint contains (sub s : string) : bool :=
  String.prefix sub s ||
  match s with
  | EmptyString => false
  | String _ s' => contains sub s'
  end.

(** Rows of the processed tubular tables ([tower], [transition_piece],
    [monopile], [substructure], [tp_skirt], [full_structure]). *)
Record Can : Type := {
  elevation_from : float64;     (* "Elevation from [mLAT]" *)
  elevation_to : float64;       (* "Elevation to [mLAT]" *)
  height_m : float64;           (* "Height [m]" *)
  diameter_from : float64;      (* "Diameter from [m]" *)
  diameter_to : float64;        (* "Diameter to [m]" *)
  volume_m3 : float64;          (* "Volume [m3]" *)
  wall_thickness_mm : float64;  (* "Wall thickness [mm]" *)
  youngs_modulus : float64;     (* "Youngs modulus [GPa]" *)
  poissons_ratio : float64;     (* "Poissons ratio [-]" *)
  mass_t : float64;             (* "Mass [t]" *)
  rho_tm : float64;             (* "rho [t/m]" *)
  can_subassembly : option string  (* "Subassembly", once tagged *)
}.

(** The series returned by [can_adjust_properties]. *)
Record CanProperties : Type := {
  cp_height : float64;
  cp_volume : float64;
  cp_mass : float64;
  cp_rho : float64
}.

(** Rows of the lumped-mass tables. *)
Record Lumped : Type := {
  lm_x : float64;
  lm_y : float64;
  lm_z : float64;               (* "Z [mLAT]" *)
  lm_mass : float64;            (* "Mass [t]" *)
  lm_description : string;
  lm_subassembly : option string
}.

(** Rows of the distributed-mass tables. *)
Record Distributed : Type := {
  dm_x : float64;
  dm_y : float64;
  dm_z : float64;
  dm_height : float64;
  dm_mass : float64;
  dm_volume : float64;
  dm_description : string;
  dm_subassembly : option string
}.

(** Rows of the RNA table. *)
Record Rna : Type := {
  rna_x : float64;
  rna_y : float64;
  rna_z : float64;
  rna_mass : float64;
  rna_ixx : float64;
  rna_iyy : float64;
  rna_izz : float64;
  rna_description : string;
  rna_subassembly : option string
}.

(** The dictionary a building block reports as its moment of inertia. *)
Record Inertia : Type := {
  i_x : pyval;
  i_y : pyval;
  i_z : pyval
}.

(** Rows of [SubAssembly.as_df()], indexed by building-block title. *)
Record Block : Type := {
  b_x : float64;
  b_y : float64;
  b_z : float64;
  b_OD : string;
  b_wall_thickness : float64;
  b_height : float64;
  b_volume : float64;
  b_mass : float64;
  b_moment_of_inertia : Inertia;
  b_description : string
}.

(** Rows returned by [set_df_structure]. *)
Record Structure : Type := {
  s_OD : string;
  s_height : float64;
  s_mass : float64;
  s_volume : float64;
  s_wall_thickness : float64;
  s_x : float64;
  s_y : float64;
  s_z : float64;
  s_elevation_from : float64;
  s_elevation_to : float64
}.

(** Rows returned by [set_df_appurtenances] and
    [set_df_distributed_appurtenances]. *)
Record Appurtenance : Type := {
  a_mass : float64;
  a_x : float64;
  a_y : float64;
  a_z : float64;
  a_height : float64;
  a_volume : float64;
  a_description : string;
  a_Z : float64                 (* "Z [mLAT]" *)
}.

End Frames.
Export Frames.

(* ===================================================================== *)
(** ** State, exceptions and warnings of a method call *)
(* ===================================================================== *)

(** The warning of [__getattribute__]: "Attribute '<attr>' accessed before
    processing. Run <advice> first if you want to process values." *)
Record warning : Type := Warn {
  w_attr : string;
  w_advice : string
}.

Module Method.
Section Method.
Context {S : Type}.

(** What a call leaves behind: its result, the object as mutated so
    far, and the warnings emitted. *)
Record outcome (A : Type) : Type := Outcome {
  res : result A;
  st : S;
  log : list warning
}.
Arguments Outcome {A} res st log.
Arguments res {A} o.
Arguments st {A} o.
Arguments log {A} o.

Definition M (A : Type) : Type := S -> outcome A.

Definition ret {A} (a : A) : M A := fun s => Outcome (Ok a) s [].

Definition bind {A B} (m : M A) (f : A -> M B) : M B := fun s =>
  let o := m s in
  match res o with
  | Ok a => let o' := f a (st o) in Outcome (res o') (st o') (log o ++ log o')
  | Raise e => Outcome (Raise e) (st o) (log o)
  end.

Definition raise {A} (e : exn) : M A := fun s => Outcome (Raise e) s [].

(** A pure computation that may raise. *)
Definition lift {A} (r : result A) : M A := fun s => Outcome r s [].

Definition get : M S := fun s => Outcome (Ok s) s [].
Definition modify (f : S -> S) : M unit := fun s => Outcome (Ok tt) (f s) [].
Definition warn (ws : list warning) : M unit := fun s => Outcome (Ok tt) s ws.

(** [for x in xs: body(x)], stopping at the first exception. *)
Fixpoint for_each {A} (xs : list A) (body : A -> M unit) : M unit :=
  match xs with
  | [] => ret tt
  | x :: xs' => bind (body x) (fun _ => for_each xs' body)
  end.

(** A list comprehension whose element expression may raise. *)
Fixpoint collect {A B} (xs : list A) (f : A -> M B) : M (list B) :=
  match xs with
  | [] => ret []
  | x :: xs' => bind (f x) (fun y => bind (collect xs' f) (fun ys => ret (y :: ys)))
  end.
End Method.

Arguments outcome S A : clear implicits.
Arguments M S A : clear implicits.
Arguments Outcome {S A} res st log.
Arguments res {S A} o.
Arguments st {S A} o.
Arguments log {S A} o.
End Method.
Export Method.

Declare Scope method_scope.
Delimit Scope method_scope with method.
Notation "x <- m ;; k" := (Method.bind m (fun x => k))
  (at level 100, m at next level, right associativity) : method_scope.
Notation "m ;; k" := (Method.bind m (fun _ => k))
  (at level 100, right associativity) : method_scope.

(** [mapM] in [result], for list comprehensions of pure fallible code. *)
Fixpoint traverse {A B} (f : A -> result B) (xs : list A) : result (list B) :=
  match xs with
  | [] => Ok []
  | x :: xs' => y ← f x; ys ← traverse f xs'; Ok (y :: ys)
  end.

(** The numpy routines the engine calls and this development does not
    define: [numpy.interp(x, xp, fp)], called on sample points that need
    not be increasing, and the conversion of a string to a float done by
    [numpy.array(..., dtype=float)]. *)
Class Numpy : Type := {
  np_interp : float64 -> list float64 -> list float64 -> float64;
  np_float : string -> result float64
}.

(** Python dictionaries keep insertion order; a later value for a key
    replaces the earlier one in place. *)
Module Dict.
Definition dict (V : Type) : Type := list (string * V).

Fixpoint lookup {V} (k : string) (d : dict V) : option V :=
  match d with
  | [] => None
  | (k', v) :: d' => if String.eqb k k' then Some v else lookup k d'
  end.

Definition mem {V} (k : string) (d : dict V) : bool :=
  match lookup k d with Some _ => true | None => false end.

Fixpoint insert {V} (k : string) (v : V) (d : dict V) : dict V :=
  match d with
  | [] => [(k, v)]
  | (k', v') :: d' =>
      if String.eqb k k' then (k, v) :: d' else (k', v') :: insert k v d'
  end.

(** [dict(zip(keys, values))]. *)
Definition of_list {V} (kvs : list (string * V)) : dict V :=
  fold_left (fun d kv => insert (fst kv) (snd kv) d) kvs [].

Definition keys {V} (d : dict V) : list string := List.map fst d.
Definition values {V} (d : dict V) : list V := List.map snd d.

(** [d[k]]. *)
Definition getitem {V} (k : string) (d : dict V) : result V :=
  match lookup k d with
  | Some v => Ok v
  | None => Raise (KeyError k)
  end.
End Dict.

(* ===================================================================== *)
(** ** geometry/processing.py: the single-turbine engine *)
(* ===================================================================== *)

Definition ATTR_PROC : list string :=
  [ "pile_toe"; "rna"; "tower"; "transition_piece"; "monopile";
    "tw_lumped_mass"; "tp_lumped_mass"; "mp_lumped_mass";
    "tp_distributed_mass"; "mp_distributed_mass"; "grout" ].
Definition ATTR_SPEC : list string := [ "full_structure"; "tp_skirt"; "substructure" ].
Definition ATTR_FULL : list string :=
  [ "all_tubular_structures"; "all_distributed_mass"; "all_lumped_mass"; "all_turbines" ].

(** [name in names]. *)
Definition mem (name : string) (names : list string) : bool :=
  existsb (String.eqb name) names.

(** Rows of the fleet summary [all_turbines]; a [None] entry of a numeric
    column is NaN. *)
Record Turbine : Type := {
  turbine_name : string;
  t_water_depth : float64;
  t_monopile_toe : float64;
  t_monopile_head : float64;
  t_tower_base : float64;
  t_monopile_height : float64;
  t_monopile_mass : float64;
  t_transition_piece_height : float64;
  t_transition_piece_mass : float64;
  t_tower_height : float64;
  t_tower_mass : float64;
  t_rna_mass : float64
}.

(** A sub-assembly as the engine sees it: its vertical position and the
    table [as_df()] returns (rows by descending [z]), or the exception
    fetching its building blocks raises. *)
Record SubAssembly : Type := {
  sa_position_z : float64;
  as_df : result (frame Block)
}.

(** What an attribute of an engine may hold. *)
#[warnings="-register-all"]
Inductive value : Type :=
| VNone
| VFloat (f : float64)
| VCans (df : frame Can)
| VLumped (df : frame Lumped)
| VDistributed (df : frame Distributed)
| VRna (df : frame Rna)
| VSummary (rows : list Turbine)
| VBool (b : bool)
| VBlocks (df : frame Block)
| VSubAssemblies (d : list (string * SubAssembly))
| VStr (s : string)
| VList (l : list value)
| VDict (d : list (string * value)).

Definition of_option {A} (inj : A -> value) (o : option A) : value :=
  match o with Some a => inj a | None => VNone end.

(** Any NaN in the numeric cells of a row, as [dropna(how="any")] tests. *)
Definition block_has_nan (b : Block) : bool :=
  existsb isnan
    [ b_x b; b_y b; b_z b; b_wall_thickness b; b_height b; b_volume b; b_mass b ].

(** [SubAssembly.absolute_bottom]. *)
Definition absolute_bottom (sa : SubAssembly) : result float64 :=
  temp_df ← as_df sa;
  '(_, b) ← at_position last_row temp_df;
  Ok (fdiv (fadd (b_z b) (sa_position_z sa)) (Fin 1000)).

(** [SubAssembly.absolute_top]. *)
Definition absolute_top (sa : SubAssembly) : result float64 :=
  temp_df ← as_df sa;
  let absolute b := fdiv (fadd (b_z b) (sa_position_z sa)) (Fin 1000) in
  let temp_df := select (fun b => negb (block_has_nan b || isnan (absolute b))) temp_df in
  '(_, b) ← at_position first_row temp_df;
  Ok (fround 3 (fadd (absolute b) (fdiv (b_height b) (Fin 1000)))).

(** [None] where a float is expected in a comparison behaves as NaN. *)
Definition float_or_nan (o : option float64) : float64 :=
  match o with Some f => f | None => NaN end.

(** [bool(x)] for an optional float. *)
Definition truthy_opt (o : option float64) : bool :=
  match o with Some f => ftruthy f | None => false end.

(** [scalar op value] with a scalar that may be [None]. *)
Definition scalar (o : option float64) : result float64 :=
  match o with
  | Some f => Ok f
  | None => Raise (TypeError "unsupported operand type(s): 'NoneType'")
  end.

(** [scalar + column]: adding [None] to a column raises as soon as the
    column has an element. *)
Definition add_to_column {R} (o : option float64) (f : R -> float64)
    (df : frame R) : result (list float64) :=
  match o, df with
  | Some base, _ => Ok (List.map (fun lr => fadd base (f (snd lr))) df)
  | None, [] => Ok []
  | None, _ :: _ => Raise (TypeError "unsupported operand type(s): 'NoneType'")
  end.

(** Pairing a frame with a freshly computed column of the same length. *)
Definition with_column {R R'} (g : R -> float64 -> R') (df : frame R)
    (col : list float64) : frame R' :=
  List.map (fun '(lr, c) => (fst lr, g (snd lr) c)) (combine df col).

(** [d.split("/", 1)]. *)
Fixpoint split_slash (d : string) : string * option string :=
  match d with
  | EmptyString => (EmptyString, None)
  | String c d' =>
      if Ascii.eqb c "/"%char then (EmptyString, Some d')
      else let '(a, b) := split_slash d' in (String c a, b)
  end.

(** [pd.concat] of the frames in a list, [None] entries dropped. *)
Definition pd_concat {R} (fs : list (option (frame R))) : result (frame R) :=
  match omap id fs with
  | [] => Raise (ValueError "No objects to concatenate")
  | dfs => Ok (concat dfs)
  end.

Module OWT.

(** The attributes of an [OWT].  The handles [api] and [materials] take
    no part in the processing and are left out. *)
Record t : Type := {
  _init_proc : bool;
  _init_spec_part : bool;
  _init_spec_full : bool;
  sub_assemblies : list (string * SubAssembly);
  tw_sub_assemblies : option (frame Block);
  tp_sub_assemblies : option (frame Block);
  mp_sub_assemblies : option (frame Block);
  tower_base : option float64;
  pile_head : option float64;
  water_depth : float64;
  pile_toe : option float64;
  rna : option (frame Rna);
  tower : option (frame Can);
  transition_piece : option (frame Can);
  monopile : option (frame Can);
  tw_lumped_mass : option (frame Lumped);
  tp_lumped_mass : option (frame Lumped);
  mp_lumped_mass : option (frame Lumped);
  tp_distributed_mass : option (frame Distributed);
  mp_distributed_mass : option (frame Distributed);
  grout : option (frame Distributed);
  full_structure : option (frame Can);
  tp_skirt : option (frame Can);
  substructure : option (frame Can)
}.

(** Attribute assignment [self.<name> = v], one setter per assigned attribute. *)
Definition set_init_proc (v : bool) (s : t) : t :=
  Build_t v (_init_spec_part s) (_init_spec_full s) (sub_assemblies s)
    (tw_sub_assemblies s) (tp_sub_assemblies s) (mp_sub_assemblies s)
    (tower_base s) (pile_head s) (water_depth s) (pile_toe s) (rna s) (tower
    s) (transition_piece s) (monopile s) (tw_lumped_mass s) (tp_lumped_mass
    s) (mp_lumped_mass s) (tp_distributed_mass s) (mp_distributed_mass s)
    (grout s) (full_structure s) (tp_skirt s) (substructure s).
Definition set_init_spec_part (v : bool) (s : t) : t :=
  Build_t (_init_proc s) v (_init_spec_full s) (sub_assemblies s)
    (tw_sub_assemblies s) (tp_sub_assemblies s) (mp_sub_assemblies s)
    (tower_base s) (pile_head s) (water_depth s) (pile_toe s) (rna s) (tower
    s) (transition_piece s) (monopile s) (tw_lumped_mass s) (tp_lumped_mass
    s) (mp_lumped_mass s) (tp_distributed_mass s) (mp_distributed_mass s)
    (grout s) (full_structure s) (tp_skirt s) (substructure s).
Definition set_init_spec_full (v : bool) (s : t) : t :=
  Build_t (_init_proc s) (_init_spec_part s) v (sub_assemblies s)
    (tw_sub_assemblies s) (tp_sub_assemblies s) (mp_sub_assemblies s)
    (tower_base s) (pile_head s) (water_depth s) (pile_toe s) (rna s) (tower
    s) (transition_piece s) (monopile s) (tw_lumped_mass s) (tp_lumped_mass
    s) (mp_lumped_mass s) (tp_distributed_mass s) (mp_distributed_mass s)
    (grout s) (full_structure s) (tp_skirt s) (substructure s).
Definition set_pile_toe (v : option float64) (s : t) : t :=
  Build_t (_init_proc s) (_init_spec_part s) (_init_spec_full s) (sub_assemblies
    s) (tw_sub_assemblies s) (tp_sub_assemblies s) (mp_sub_assemblies s)
    (tower_base s) (pile_head s) (water_depth s) v (rna s) (tower s)
    (transition_piece s) (monopile s) (tw_lumped_mass s) (tp_lumped_mass s)
    (mp_lumped_mass s) (tp_distributed_mass s) (mp_distributed_mass s)
    (grout s) (full_structure s) (tp_skirt s) (substructure s).
Definition set_rna (v : option (frame Rna)) (s : t) : t :=
  Build_t (_init_proc s) (_init_spec_part s) (_init_spec_full s) (sub_assemblies
    s) (tw_sub_assemblies s) (tp_sub_assemblies s) (mp_sub_assemblies s)
    (tower_base s) (pile_head s) (water_depth s) (pile_toe s) v (tower s)
    (transition_piece s) (monopile s) (tw_lumped_mass s) (tp_lumped_mass s)
    (mp_lumped_mass s) (tp_distributed_mass s) (mp_distributed_mass s)
    (grout s) (full_structure s) (tp_skirt s) (substructure s).
Definition set_tower (v : option (frame Can)) (s : t) : t :=
  Build_t (_init_proc s) (_init_spec_part s) (_init_spec_full s) (sub_assemblies
    s) (tw_sub_assemblies s) (tp_sub_assemblies s) (mp_sub_assemblies s)
    (tower_base s) (pile_head s) (water_depth s) (pile_toe s) (rna s) v
    (transition_piece s) (monopile s) (tw_lumped_mass s) (tp_lumped_mass s)
    (mp_lumped_mass s) (tp_distributed_mass s) (mp_distributed_mass s)
    (grout s) (full_structure s) (tp_skirt s) (substructure s).
Definition set_transition_piece (v : option (frame Can)) (s : t) : t :=
  Build_t (_init_proc s) (_init_spec_part s) (_init_spec_full s) (sub_assemblies
    s) (tw_sub_assemblies s) (tp_sub_assemblies s) (mp_sub_assemblies s)
    (tower_base s) (pile_head s) (water_depth s) (pile_toe s) (rna s) (tower
    s) v (monopile s) (tw_lumped_mass s) (tp_lumped_mass s) (mp_lumped_mass
    s) (tp_distributed_mass s) (mp_distributed_mass s) (grout s)
    (full_structure s) (tp_skirt s) (substructure s).
Definition set_monopile (v : option (frame Can)) (s : t) : t :=
  Build_t (_init_proc s) (_init_spec_part s) (_init_spec_full s) (sub_assemblies
    s) (tw_sub_assemblies s) (tp_sub_assemblies s) (mp_sub_assemblies s)
    (tower_base s) (pile_head s) (water_depth s) (pile_toe s) (rna s) (tower
    s) (transition_piece s) v (tw_lumped_mass s) (tp_lumped_mass s)
    (mp_lumped_mass s) (tp_distributed_mass s) (mp_distributed_mass s)
    (grout s) (full_structure s) (tp_skirt s) (substructure s).
Definition set_tw_lumped_mass (v : option (frame Lumped)) (s : t) : t :=
  Build_t (_init_proc s) (_init_spec_part s) (_init_spec_full s) (sub_assemblies
    s) (tw_sub_assemblies s) (tp_sub_assemblies s) (mp_sub_assemblies s)
    (tower_base s) (pile_head s) (water_depth s) (pile_toe s) (rna s) (tower
    s) (transition_piece s) (monopile s) v (tp_lumped_mass s)
    (mp_lumped_mass s) (tp_distributed_mass s) (mp_distributed_mass s)
    (grout s) (full_structure s) (tp_skirt s) (substructure s).
Definition set_tp_lumped_mass (v : option (frame Lumped)) (s : t) : t :=
  Build_t (_init_proc s) (_init_spec_part s) (_init_spec_full s) (sub_assemblies
    s) (tw_sub_assemblies s) (tp_sub_assemblies s) (mp_sub_assemblies s)
    (tower_base s) (pile_head s) (water_depth s) (pile_toe s) (rna s) (tower
    s) (transition_piece s) (monopile s) (tw_lumped_mass s) v
    (mp_lumped_mass s) (tp_distributed_mass s) (mp_distributed_mass s)
    (grout s) (full_structure s) (tp_skirt s) (substructure s).
Definition set_mp_lumped_mass (v : option (frame Lumped)) (s : t) : t :=
  Build_t (_init_proc s) (_init_spec_part s) (_init_spec_full s) (sub_assemblies
    s) (tw_sub_assemblies s) (tp_sub_assemblies s) (mp_sub_assemblies s)
    (tower_base s) (pile_head s) (water_depth s) (pile_toe s) (rna s) (tower
    s) (transition_piece s) (monopile s) (tw_lumped_mass s) (tp_lumped_mass
    s) v (tp_distributed_mass s) (mp_distributed_mass s) (grout s)
    (full_structure s) (tp_skirt s) (substructure s).
Definition set_tp_distributed_mass (v : option (frame Distributed)) (s : t) : t :=
  Build_t (_init_proc s) (_init_spec_part s) (_init_spec_full s) (sub_assemblies
    s) (tw_sub_assemblies s) (tp_sub_assemblies s) (mp_sub_assemblies s)
    (tower_base s) (pile_head s) (water_depth s) (pile_toe s) (rna s) (tower
    s) (transition_piece s) (monopile s) (tw_lumped_mass s) (tp_lumped_mass
    s) (mp_lumped_mass s) v (mp_distributed_mass s) (grout s)
    (full_structure s) (tp_skirt s) (substructure s).
Definition set_mp_distributed_mass (v : option (frame Distributed)) (s : t) : t :=
  Build_t (_init_proc s) (_init_spec_part s) (_init_spec_full s) (sub_assemblies
    s) (tw_sub_assemblies s) (tp_sub_assemblies s) (mp_sub_assemblies s)
    (tower_base s) (pile_head s) (water_depth s) (pile_toe s) (rna s) (tower
    s) (transition_piece s) (monopile s) (tw_lumped_mass s) (tp_lumped_mass
    s) (mp_lumped_mass s) (tp_distributed_mass s) v (grout s)
    (full_structure s) (tp_skirt s) (substructure s).
Definition set_grout (v : option (frame Distributed)) (s : t) : t :=
  Build_t (_init_proc s) (_init_spec_part s) (_init_spec_full s) (sub_assemblies
    s) (tw_sub_assemblies s) (tp_sub_assemblies s) (mp_sub_assemblies s)
    (tower_base s) (pile_head s) (water_depth s) (pile_toe s) (rna s) (tower
    s) (transition_piece s) (monopile s) (tw_lumped_mass s) (tp_lumped_mass
    s) (mp_lumped_mass s) (tp_distributed_mass s) (mp_distributed_mass s) v
    (full_structure s) (tp_skirt s) (substructure s).
Definition set_full_structure (v : option (frame Can)) (s : t) : t :=
  Build_t (_init_proc s) (_init_spec_part s) (_init_spec_full s) (sub_assemblies
    s) (tw_sub_assemblies s) (tp_sub_assemblies s) (mp_sub_assemblies s)
    (tower_base s) (pile_head s) (water_depth s) (pile_toe s) (rna s) (tower
    s) (transition_piece s) (monopile s) (tw_lumped_mass s) (tp_lumped_mass
    s) (mp_lumped_mass s) (tp_distributed_mass s) (mp_distributed_mass s)
    (grout s) v (tp_skirt s) (substructure s).
Definition set_tp_skirt (v : option (frame Can)) (s : t) : t :=
  Build_t (_init_proc s) (_init_spec_part s) (_init_spec_full s) (sub_assemblies
    s) (tw_sub_assemblies s) (tp_sub_assemblies s) (mp_sub_assemblies s)
    (tower_base s) (pile_head s) (water_depth s) (pile_toe s) (rna s) (tower
    s) (transition_piece s) (monopile s) (tw_lumped_mass s) (tp_lumped_mass
    s) (mp_lumped_mass s) (tp_distributed_mass s) (mp_distributed_mass s)
    (grout s) (full_structure s) v (substructure s).
Definition set_substructure (v : option (frame Can)) (s : t) : t :=
  Build_t (_init_proc s) (_init_spec_part s) (_init_spec_full s) (sub_assemblies
    s) (tw_sub_assemblies s) (tp_sub_assemblies s) (mp_sub_assemblies s)
    (tower_base s) (pile_head s) (water_depth s) (pile_toe s) (rna s) (tower
    s) (transition_piece s) (monopile s) (tw_lumped_mass s) (tp_lumped_mass
    s) (mp_lumped_mass s) (tp_distributed_mass s) (mp_distributed_mass s)
    (grout s) (full_structure s) (tp_skirt s) v.

Abbreviation M := (Method.M t).
Local Open Scope method_scope.

(** The guard of [OWT.__getattribute__]. *)
Definition access_warnings (name : string) (s : t) : list warning :=
  if mem name ATTR_PROC && negb (_init_proc s)
  then [Warn name "process_structure()"]
  else if mem name ATTR_SPEC && negb (_init_spec_part s)
  then [Warn name "assembly_tp_mp()"]
  else if mem name ATTR_SPEC && negb (_init_spec_full s)
  then [Warn name "assembly_full_structure()"]
  else [].

(** [object.__getattribute__(self, name)] on the attributes above. *)
Definition slot (name : string) (s : t) : result value :=
  let table := [
    ("_init_proc", VBool (_init_proc s));
    ("_init_spec_part", VBool (_init_spec_part s));
    ("_init_spec_full", VBool (_init_spec_full s));
    ("sub_assemblies", VSubAssemblies (sub_assemblies s));
    ("tw_sub_assemblies", of_option VBlocks (tw_sub_assemblies s));
    ("tp_sub_assemblies", of_option VBlocks (tp_sub_assemblies s));
    ("mp_sub_assemblies", of_option VBlocks (mp_sub_assemblies s));
    ("tower_base", of_option VFloat (tower_base s));
    ("pile_head", of_option VFloat (pile_head s));
    ("water_depth", VFloat (water_depth s));
    ("pile_toe", of_option VFloat (pile_toe s));
    ("rna", of_option VRna (rna s));
    ("tower", of_option VCans (tower s));
    ("transition_piece", of_option VCans (transition_piece s));
    ("monopile", of_option VCans (monopile s));
    ("tw_lumped_mass", of_option VLumped (tw_lumped_mass s));
    ("tp_lumped_mass", of_option VLumped (tp_lumped_mass s));
    ("mp_lumped_mass", of_option VLumped (mp_lumped_mass s));
    ("tp_distributed_mass", of_option VDistributed (tp_distributed_mass s));
    ("mp_distributed_mass", of_option VDistributed (mp_distributed_mass s));
    ("grout", of_option VDistributed (grout s));
    ("full_structure", of_option VCans (full_structure s));
    ("tp_skirt", of_option VCans (tp_skirt s));
    ("substructure", of_option VCans (substructure s)) ] in
  match Dict.lookup name table with
  | Some v => Ok v
  | None => Raise (AttributeError name)
  end.

(** [OWT.__getattribute__]: warn when the guard fires, then read. *)
Definition __getattribute__ (name : string) : M value := fun s =>
  Outcome (slot name s) s (access_warnings name s).

(** A read [self.<name>] inside a method, through the same guard. *)
Definition read {A} (name : string) (field : t -> A) : M A := fun s =>
  Outcome (Ok (field s)) s (access_warnings name s).

(** *** Cans *)

(** Column assignments on one row of a tubular table. *)
Definition set_elevation (to_side : bool) (v : float64) (r : Can) : Can :=
  if to_side
  then Build_Can (elevation_from r) v (height_m r) (diameter_from r)
         (diameter_to r) (volume_m3 r) (wall_thickness_mm r)
         (youngs_modulus r) (poissons_ratio r) (mass_t r) (rho_tm r)
         (can_subassembly r)
  else Build_Can v (elevation_to r) (height_m r) (diameter_from r)
         (diameter_to r) (volume_m3 r) (wall_thickness_mm r)
         (youngs_modulus r) (poissons_ratio r) (mass_t r) (rho_tm r)
         (can_subassembly r).

Definition set_diameter (to_side : bool) (v : float64) (r : Can) : Can :=
  if to_side
  then Build_Can (elevation_from r) (elevation_to r) (height_m r)
         (diameter_from r) v (volume_m3 r) (wall_thickness_mm r)
         (youngs_modulus r) (poissons_ratio r) (mass_t r) (rho_tm r)
         (can_subassembly r)
  else Build_Can (elevation_from r) (elevation_to r) (height_m r) v
         (diameter_to r) (volume_m3 r) (wall_thickness_mm r)
         (youngs_modulus r) (poissons_ratio r) (mass_t r) (rho_tm r)
         (can_subassembly r).

Definition set_properties (p : CanProperties) (r : Can) : Can :=
  Build_Can (elevation_from r) (elevation_to r) (cp_height p)
    (diameter_from r) (diameter_to r) (cp_volume p) (wall_thickness_mm r)
    (youngs_modulus r) (poissons_ratio r) (cp_mass p) (cp_rho p)
    (can_subassembly r).

Definition set_subassembly (tag : string) (r : Can) : Can :=
  Build_Can (elevation_from r) (elevation_to r) (height_m r)
    (diameter_from r) (diameter_to r) (volume_m3 r) (wall_thickness_mm r)
    (youngs_modulus r) (poissons_ratio r) (mass_t r) (rho_tm r) (Some tag).

(** [1 / 3 * np.pi * (r1**2 + r1 * r2 + r2**2) * height]. *)
Definition frustum (r1 r2 h : float64) : float64 :=
  fmul (fmul (fmul (fdiv (Fin 1) (Fin 3)) (Fin pi))
             (fadd (fadd (fsqr r1) (fmul r1 r2)) (fsqr r2)))
       h.

(** [OWT.can_adjust_properties]. *)
Definition can_adjust_properties (row : Can) : CanProperties :=
  let density := fdiv (mass_t row) (volume_m3 row) in
  let height := fsub (elevation_from row) (elevation_to row) in
  let r1 := fdiv (diameter_from row) (Fin 2) in
  let r2 := fdiv (diameter_to row) (Fin 2) in
  let volume_out := frustum r1 r2 height in
  let wall_thickness := fmul (wall_thickness_mm row) (Fin 1e-3) in
  let r1 := fsub r1 wall_thickness in
  let r2 := fsub r2 wall_thickness in
  let volume_in := frustum r1 r2 height in
  let volume := fsub volume_out volume_in in
  let mass := fmul volume density in
  let rho_m := fdiv mass height in
  {| cp_height := height; cp_volume := volume; cp_mass := mass; cp_rho := rho_m |}.

(** [OWT.can_modification]; the frame is the caller's private copy. *)
Definition can_modification `{Numpy} (df : frame Can)
    (altitude : option float64) (position : string) : result (frame Can) :=
  let '(ind, to_side) :=
    if String.eqb position "bottom" then (last_row, true) else (first_row, false) in
  let altitude_val := float_or_nan altitude in
  '(row_index, _) ← at_position ind df;
  let df := loc_set row_index (set_elevation to_side altitude_val) df in
  '(_, r) ← at_position ind df;
  let elevation := [elevation_from r; elevation_to r] in
  let diameters := [diameter_from r; diameter_to r] in
  let df :=
    loc_set row_index
      (set_diameter to_side (np_interp altitude_val elevation diameters)) df in
  '(label, r') ← at_position ind df;
  Ok (loc_set label (set_properties (can_adjust_properties r')) df).

(** [df.loc[df.index[0], "Elevation to [mLAT]"] != mp_head] as an [if]
    condition: a label carried by several rows selects a series, whose
    truth value is an error. *)
Definition top_row_off_joint (df : frame Can) (mp_head : option float64) : result bool :=
  '(label, _) ← at_position first_row df;
  match select_index (String.eqb label) df with
  | [(_, r)] =>
      Ok (match mp_head with
          | Some h => fneb (elevation_to r) h
          | None => true
          end)
  | _ => Raise (ValueError "The truth value of a Series is ambiguous.")
  end.

(** [tp[...]] on an attribute that may hold [None]. *)
Definition subscriptable {A} (o : option A) : result A :=
  match o with
  | Some a => Ok a
  | None => Raise (TypeError "'NoneType' object is not subscriptable")
  end.

(** [OWT.assembly_tp_mp]. *)
Definition assembly_tp_mp `{Numpy} : M unit :=
  modify (set_init_spec_part true) ;;
  tp0 <- read "transition_piece" transition_piece ;;
  both <- (if tp0 is Some _
           then (mp0 <- read "monopile" monopile ;; ret (if mp0 is Some _ then true else false))
           else ret false) ;;
  if both : bool
  then
    mp_head <- read "pile_head" pile_head ;;
    tp <- read "transition_piece" transition_piece ;;
    tp <- lift (subscriptable tp) ;;
    let df := select (fun r => fgtb (elevation_from r) (float_or_nan mp_head)) tp in
    off <- lift (top_row_off_joint df mp_head) ;;
    (if off : bool
     then
       (* Not bolted connection (i.e. Rentel) preprocessing needed *)
       tp1 <- lift (can_modification df mp_head "bottom") ;;
       mp <- read "monopile" monopile ;;
       sub <- lift (pd_concat [Some tp1; mp]) ;;
       modify (set_substructure (Some sub))
     else
       (* Bolted connection, nothing to do *)
       mp <- read "monopile" monopile ;;
       sub <- lift (pd_concat [Some df; mp]) ;;
       modify (set_substructure (Some sub))) ;;
    let df := select (fun r => fltb (elevation_to r) (float_or_nan mp_head)) tp in
    skirt <- lift (can_modification df mp_head "top") ;;
    modify (set_tp_skirt (Some skirt))
  else raise (TypeError "TP or MP items need to be processed before!").

(** [OWT.assembly_full_structure]. *)
Definition assembly_full_structure : M unit :=
  modify (set_init_spec_full true) ;;
  sub <- read "substructure" substructure ;;
  if sub is Some _
  then
    tw <- read "tower" tower ;;
    if tw is Some _
    then
      tw <- read "tower" tower ;;
      sub <- read "substructure" substructure ;;
      full <- lift (pd_concat [tw; sub]) ;;
      modify (set_full_structure (Some full))
    else raise (TypeError "Tower needs to be processed before!")
  else raise (TypeError "Substructure needs to be processed before!").

(** *** Geometry of the structural items *)

(** The rows of [set_df_structure] once [depth_to] is known:
    [depth_from = depth_to + df.height * 1e-3], both rounded to mm. *)
Definition with_elevations (df : frame Block) (depth_to : list float64) : frame Structure :=
  with_column
    (fun b d_to =>
       let d_from := fadd d_to (fmul (b_height b) (Fin 1e-3)) in
       {| s_OD := b_OD b; s_height := b_height b; s_mass := b_mass b;
          s_volume := b_volume b; s_wall_thickness := b_wall_thickness b;
          s_x := b_x b; s_y := b_y b; s_z := b_z b;
          s_elevation_from := fround 3 d_from;
          s_elevation_to := fround 3 d_to |})
    df depth_to.

Definition z_m (b : Block) : float64 := fmul (b_z b) (Fin 1e-3).

(** [base - df["height"].sum() * 1e-3]. *)
Definition below (base : option float64) (df : frame Block) : result float64 :=
  b ← scalar base;
  Ok (fsub b (fmul (nansum (column b_height df)) (Fin 1e-3))).

(** [OWT.set_df_structure]. *)
Definition set_df_structure (idx : string) : M (frame Structure) :=
  if String.eqb idx "tw" then
    sa <- read "tw_sub_assemblies" tw_sub_assemblies ;;
    match sa with
    | None => raise (ValueError "Tower subassembly data not found.")
    | Some sa =>
        let df := select_index (contains idx) sa in
        base <- read "tower_base" tower_base ;;
        depth_to <- lift (add_to_column base z_m df) ;;
        ret (with_elevations df depth_to)
    end
  else if String.eqb idx "tp" then
    sa <- read "tp_sub_assemblies" tp_sub_assemblies ;;
    match sa with
    | None => raise (ValueError "Transition piece subassembly data not found.")
    | Some sa =>
        let df :=
          select_index (fun l => contains idx l && negb (contains "grout" l)) sa in
        base <- read "tower_base" tower_base ;;
        bottom_tp <- lift (below base df) ;;
        depth_to <- lift (add_to_column (Some bottom_tp) z_m df) ;;
        ret (with_elevations df depth_to)
    end
  else if String.eqb idx "mp" then
    sa <- read "mp_sub_assemblies" mp_sub_assemblies ;;
    match sa with
    | None => raise (ValueError "Monopile subassembly data not found.")
    | Some sa =>
        let df := select_index (contains idx) sa in
        head <- read "pile_head" pile_head ;;
        toe <- lift (below head df) ;;
        modify (set_pile_toe (Some (fround 3 toe))) ;;
        depth_to <- lift (add_to_column (Some toe) z_m df) ;;
        ret (with_elevations df depth_to)
    end
  else raise (ValueError "Unknown index.").

(** The two halves of an "OD" string: [d_to] then [d_from]. *)
Definition d_to (r : Structure) : string := fst (split_slash (s_OD r)).
Definition d_from (r : Structure) : string :=
  match split_slash (s_OD r) with
  | (_, Some top) => top
  | (bottom, None) => bottom
  end.

(** [OWT.process_structure_geometry]. *)
Definition process_structure_geometry `{Numpy} (idx : string) : M (frame Can) :=
  df <- set_df_structure idx ;;
  diam_from <- lift (traverse np_float (List.map (fun lr => d_from (snd lr)) df)) ;;
  diam_to <- lift (traverse np_float (List.map (fun lr => d_to (snd lr)) df)) ;;
  ret (List.map
         (fun '(lr, (f, t)) =>
            let r := snd lr in
            (fst lr,
             {| elevation_from := s_elevation_from r;
                elevation_to := s_elevation_to r;
                height_m := fmul (s_height r) (Fin 1e-3);
                diameter_from := fmul f (Fin 1e-3);
                diameter_to := fmul t (Fin 1e-3);
                volume_m3 := s_volume r;
                wall_thickness_mm := s_wall_thickness r;
                youngs_modulus := Fin 210;
                poissons_ratio := Fin 0.3;
                mass_t := fmul (s_mass r) (Fin 1e-3);
                rho_tm := fdiv (s_mass r) (s_height r);
                can_subassembly := None |}))
         (combine df (combine diam_from diam_to))).

(** [m["x"] * 1e-3] and its siblings for one row of the RNA selection. *)
Definition inertia_tm2 (b : Block) : result (float64 * float64 * float64) :=
  let m := b_moment_of_inertia b in
  x ← as_float (i_x m);
  y ← as_float (i_y m);
  z ← as_float (i_z m);
  Ok (fmul x (Fin 1e-3), fmul y (Fin 1e-3), fmul z (Fin 1e-3)).

(** [OWT.process_rna]. *)
Definition process_rna : M unit :=
  sa <- read "tw_sub_assemblies" tw_sub_assemblies ;;
  match sa with
  | None => raise (ValueError "Tower subassembly data not found.")
  | Some sa =>
      let rna := select_index (contains "RNA") sa in
      mi <- lift (traverse (fun lr => inertia_tm2 (snd lr)) rna) ;;
      base <- read "tower_base" tower_base ;;
      z_lat <- lift (add_to_column base z_m rna) ;;
      modify (set_rna (Some
        (List.map
           (fun '(lr, (i, z)) =>
              let b := snd lr in
              (fst lr,
               {| rna_x := fmul (b_x b) (Fin 1e-3);
                  rna_y := fmul (b_y b) (Fin 1e-3);
                  rna_z := z;
                  rna_mass := fmul (b_mass b) (Fin 1e-3);
                  rna_ixx := fst (fst i);
                  rna_iyy := snd (fst i);
                  rna_izz := snd i;
                  rna_description := b_description b;
                  rna_subassembly := None |}))
           (combine rna (combine mi z_lat)))))
  end.

(** *** Lumped and distributed masses *)

(** A selected row with its "Z [mLAT]"; a column the selection does not
    carry is NaN. *)
Definition appurtenance (with_height with_volume : bool) (b : Block) (z : float64)
    : Appurtenance :=
  {| a_mass := b_mass b; a_x := b_x b; a_y := b_y b; a_z := b_z b;
     a_height := if with_height then b_height b else NaN;
     a_volume := if with_volume then b_volume b else NaN;
     a_description := b_description b;
     a_Z := z |}.

Definition missing_tw : exn := ValueError "Tower subassembly data not found.".
Definition missing_tp : exn := ValueError "Transition piece subassembly data not found.".
Definition missing_mp : exn := ValueError "Monopile subassembly data not found.".

(** [OWT.set_df_appurtenances]. *)
Definition set_df_appurtenances (idx : string) : M (frame Appurtenance) :=
  if String.eqb idx "TW" then
    sa <- read "tw_sub_assemblies" tw_sub_assemblies ;;
    match sa with
    | None => raise missing_tw
    | Some sa =>
        let df := select_index (contains idx) sa in
        base <- read "tower_base" tower_base ;;
        z <- lift (add_to_column base z_m df) ;;
        ret (with_column (appurtenance false false) df z)
    end
  else if String.eqb idx "TP" then
    sa <- read "tp_sub_assemblies" tp_sub_assemblies ;;
    match sa with
    | None => raise missing_tp
    | Some sa =>
        let df := select_index (contains idx) sa in
        let df := select (fun b => isnan (b_height b)) df in
        subs <- read "sub_assemblies" sub_assemblies ;;
        tp <- lift (Dict.getitem "TP" subs) ;;
        let bottom := fmul (sa_position_z tp) (Fin 1e-3) in
        z <- lift (add_to_column (Some bottom) z_m df) ;;
        ret (with_column (appurtenance true false) df z)
    end
  else if String.eqb idx "MP" then
    sa <- read "mp_sub_assemblies" mp_sub_assemblies ;;
    match sa with
    | None => raise missing_mp
    | Some sa =>
        let df := select_index (contains idx) sa in
        let df := select (fun b => isnan (b_height b)) df in
        bottom <- read "pile_toe" pile_toe ;;
        z <- lift (add_to_column bottom z_m df) ;;
        ret (with_column (appurtenance true false) df z)
    end
  else raise (ValueError "Unknown index.").

(** [OWT.process_lumped_masses]. *)
Definition process_lumped_masses (idx : string) : M (frame Lumped) :=
  df <- set_df_appurtenances idx ;;
  ret (map_rows
         (fun a =>
            {| lm_x := fmul (a_x a) (Fin 1e-3);
               lm_y := fmul (a_y a) (Fin 1e-3);
               lm_z := a_Z a;
               lm_mass := fmul (a_mass a) (Fin 1e-3);
               lm_description := a_description a;
               lm_subassembly := None |})
         df).

(** [self.tower_base - self.tp_sub_assemblies.iloc[0]["z"] * 1e-3]. *)
Definition bottom_of_tp (base : option float64) (sa : frame Block) : result float64 :=
  '(_, b0) ← at_position first_row sa;
  b ← scalar base;
  Ok (fsub b (z_m b0)).

(** The branch of [set_df_distributed_appurtenances] shared, line for
    line, by the indices "TP" and "grout". *)
Definition distributed_on_tp (idx : string) : M (frame Appurtenance) :=
  sa <- read "tp_sub_assemblies" tp_sub_assemblies ;;
  match sa with
  | None => raise missing_tp
  | Some sa =>
      let df := select_index (contains idx) sa in
      let df := select (fun b => negb (isnan (b_height b))) df in
      base <- read "tower_base" tower_base ;;
      bottom_tp <- lift (bottom_of_tp base sa) ;;
      z <- lift (add_to_column (Some bottom_tp) z_m df) ;;
      ret (with_column (appurtenance true true) df z)
  end.

(** [OWT.set_df_distributed_appurtenances]. *)
Definition set_df_distributed_appurtenances (idx : string) : M (frame Appurtenance) :=
  if String.eqb idx "TP" then distributed_on_tp idx
  else if String.eqb idx "MP" then
    sa <- read "mp_sub_assemblies" mp_sub_assemblies ;;
    match sa with
    | None => raise missing_mp
    | Some sa =>
        let df := select_index (contains idx) sa in
        let df := select (fun b => negb (isnan (b_height b))) df in
        bottom <- read "pile_toe" pile_toe ;;
        z <- lift (add_to_column bottom z_m df) ;;
        ret (with_column (appurtenance true true) df z)
    end
  else if String.eqb idx "grout" then distributed_on_tp idx
  else raise (ValueError
    "Unknown index or non distributed lumped masses located outside the transition piece.").

(** [OWT.process_distributed_lumped_masses]. *)
Definition process_distributed_lumped_masses (idx : string) : M (frame Distributed) :=
  df <- set_df_distributed_appurtenances idx ;;
  ret (map_rows
         (fun a =>
            {| dm_x := fmul (a_x a) (Fin 1e-3);
               dm_y := fmul (a_y a) (Fin 1e-3);
               dm_z := a_Z a;
               dm_height := fmul (a_height a) (Fin 1e-3);
               dm_mass := fmul (a_mass a) (Fin 1e-3);
               dm_volume := a_volume a;
               dm_description := a_description a;
               dm_subassembly := None |})
         df).

(** [OWT.process_structure]. *)
Definition process_structure `{Numpy} (option : string) : M unit :=
  modify (set_init_proc true) ;;
  if String.eqb option "full" then
    process_rna ;;
    (df <- process_structure_geometry "tw" ;; modify (set_tower (Some df))) ;;
    (df <- process_structure_geometry "tp" ;; modify (set_transition_piece (Some df))) ;;
    (df <- process_structure_geometry "mp" ;; modify (set_monopile (Some df))) ;;
    (df <- process_lumped_masses "TW" ;; modify (set_tw_lumped_mass (Some df))) ;;
    (df <- process_lumped_masses "TP" ;; modify (set_tp_lumped_mass (Some df))) ;;
    (df <- process_lumped_masses "MP" ;; modify (set_mp_lumped_mass (Some df))) ;;
    (df <- process_distributed_lumped_masses "TP" ;;
     modify (set_tp_distributed_mass (Some df))) ;;
    (df <- process_distributed_lumped_masses "MP" ;;
     modify (set_mp_distributed_mass (Some df))) ;;
    (df <- process_distributed_lumped_masses "grout" ;; modify (set_grout (Some df)))
  else if String.eqb option "TW" then
    process_rna ;;
    (df <- process_structure_geometry "tw" ;; modify (set_tower (Some df))) ;;
    (df <- process_lumped_masses "TW" ;; modify (set_tw_lumped_mass (Some df)))
  else if String.eqb option "TP" then
    (df <- process_structure_geometry "tp" ;; modify (set_transition_piece (Some df))) ;;
    (df <- process_lumped_masses "TP" ;; modify (set_tp_lumped_mass (Some df))) ;;
    (df <- process_distributed_lumped_masses "TP" ;;
     modify (set_tp_distributed_mass (Some df))) ;;
    (df <- process_distributed_lumped_masses "grout" ;; modify (set_grout (Some df)))
  else if String.eqb option "MP" then
    (df <- process_structure_geometry "mp" ;; modify (set_monopile (Some df))) ;;
    (df <- process_lumped_masses "MP" ;; modify (set_mp_lumped_mass (Some df))) ;;
    (df <- process_distributed_lumped_masses "MP" ;;
     modify (set_mp_distributed_mass (Some df)))
  else ret tt.

(** *** Tagging and assembly *)

(** The sub-assembly a derived table belongs to, read off its name. *)
Definition subassembly_tag (attr : string) : option string :=
  if contains "tower" attr || contains "tw_" attr || contains "rna" attr
  then Some "TW"
  else if contains "tp_" attr || contains "transition" attr || contains "grout" attr
  then Some "TP"
  else if contains "mp_" attr || contains "monopile" attr
  then Some "MP"
  else None.

Definition tag_lumped (tag : string) (r : Lumped) : Lumped :=
  Build_Lumped (lm_x r) (lm_y r) (lm_z r) (lm_mass r) (lm_description r) (Some tag).
Definition tag_distributed (tag : string) (r : Distributed) : Distributed :=
  Build_Distributed (dm_x r) (dm_y r) (dm_z r) (dm_height r) (dm_mass r)
    (dm_volume r) (dm_description r) (Some tag).
Definition tag_rna (tag : string) (r : Rna) : Rna :=
  Build_Rna (rna_x r) (rna_y r) (rna_z r) (rna_mass r) (rna_ixx r) (rna_iyy r)
    (rna_izz r) (rna_description r) (Some tag).

(** [df["Subassembly"] = tag] on the table held by attribute [attr]. *)
Definition tag_slot (attr tag : string) (s : t) : t :=
  let cans := option_map (map_rows (set_subassembly tag)) in
  let lumped := option_map (map_rows (tag_lumped tag)) in
  let distributed := option_map (map_rows (tag_distributed tag)) in
  if String.eqb attr "rna" then set_rna (option_map (map_rows (tag_rna tag)) (rna s)) s
  else if String.eqb attr "tower" then set_tower (cans (tower s)) s
  else if String.eqb attr "transition_piece"
  then set_transition_piece (cans (transition_piece s)) s
  else if String.eqb attr "monopile" then set_monopile (cans (monopile s)) s
  else if String.eqb attr "tw_lumped_mass"
  then set_tw_lumped_mass (lumped (tw_lumped_mass s)) s
  else if String.eqb attr "tp_lumped_mass"
  then set_tp_lumped_mass (lumped (tp_lumped_mass s)) s
  else if String.eqb attr "mp_lumped_mass"
  then set_mp_lumped_mass (lumped (mp_lumped_mass s)) s
  else if String.eqb attr "tp_distributed_mass"
  then set_tp_distributed_mass (distributed (tp_distributed_mass s)) s
  else if String.eqb attr "mp_distributed_mass"
  then set_mp_distributed_mass (distributed (mp_distributed_mass s)) s
  else if String.eqb attr "grout" then set_grout (distributed (grout s)) s
  else s.

(** [OWT.extend_dfs]. *)
Definition extend_dfs `{Numpy} : M unit :=
  for_each ATTR_PROC (fun attr =>
    df <- __getattribute__ attr ;;
    match df, subassembly_tag attr with
    | VNone, _ | _, None => ret tt
    | _, Some tag => modify (tag_slot attr tag)
    end) ;;
  subs <- read "sub_assemblies" sub_assemblies ;;
  (if Dict.mem "TP" subs && Dict.mem "MP" subs
   then assembly_tp_mp
   else modify (set_init_spec_part true) ;; modify (set_tp_skirt None)) ;;
  subs <- read "sub_assemblies" sub_assemblies ;;
  if Dict.mem "TW" subs
  then
    modify (set_init_spec_full true) ;;
    sub <- read "substructure" substructure ;;
    if sub is Some _
    then assembly_full_structure
    else modify (set_full_structure None)
  else modify (set_full_structure None) ;; modify (set_init_spec_full true).

(** *** Construction *)

(** [OWT._set_members]: the table of each structural item present. *)
Definition _set_members (subs : Dict.dict SubAssembly)
    : result (option (frame Block) * option (frame Block) * option (frame Block)) :=
  fold_left
    (fun acc kv =>
       '(tw, tp, mp) ← acc;
       tw ← (if String.eqb (fst kv) "TW" then Some <$> as_df (snd kv) else Ok tw);
       tp ← (if String.eqb (fst kv) "TP" then Some <$> as_df (snd kv) else Ok tp);
       mp ← (if String.eqb (fst kv) "MP" then Some <$> as_df (snd kv) else Ok mp);
       Ok (tw, tp, mp))
    subs (Ok (None, None, None)).

(** The two reference elevations the constructor settles on. *)
Definition elevations (subs : Dict.dict SubAssembly)
    (tower_base pile_head : option float64)
    : result (option float64 * option float64) :=
  if negb (truthy_opt tower_base) || negb (truthy_opt pile_head)
  then
    tb ← (if Dict.mem "TW" subs
          then sa ← Dict.getitem "TW" subs; Some <$> absolute_bottom sa
          else if Dict.mem "TP" subs
          then sa ← Dict.getitem "TP" subs; Some <$> absolute_top sa
          else Ok None);
    ph ← (if Dict.mem "MP" subs
          then sa ← Dict.getitem "MP" subs; Some <$> absolute_top sa
          else Ok None);
    Ok (tb, ph)
  else Ok (tower_base, pile_head).

(** [OWT.__init__]: [subassemblies] lists the rows of the sub-assembly
    table as (type, sub-assembly), [location] is its "elevation" column. *)
Definition __init__ (subassemblies : list (string * SubAssembly))
    (location : list float64) (tower_base pile_head : option float64) : result t :=
  let subs := Dict.of_list subassemblies in
  '(tw, tp, mp) ← _set_members subs;
  water_depth ← match location with
                | d :: _ => Ok d
                | [] => Raise (IndexError "index 0 is out of bounds")
                end;
  '(tb, ph) ← elevations subs tower_base pile_head;
  Ok (Build_t false false false subs tw tp mp tb ph water_depth
        None None None None None None None None None None None None None None).

End OWT.

(* ===================================================================== *)
(** ** geometry/processing.py: the fleet engine *)
(* ===================================================================== *)

Module OWTs.

(** The attributes of an [OWTs].  The slots named in [ATTR_PROC],
    [ATTR_SPEC] and [ATTR_FULL] change their kind of content as the
    fleet is processed (a list being filled, then a table, [None] or a
    dictionary) and are kept in [attrs], by name.  The handles [api] and
    [materials] are left out. *)
Record t : Type := {
  owts : Dict.dict OWT.t;
  sub_assemblies : Dict.dict (Dict.dict SubAssembly);
  tower_base : Dict.dict (option float64);
  pile_head : Dict.dict (option float64);
  water_depth : Dict.dict float64;
  tw_sub_assemblies : option (frame Block);
  tp_sub_assemblies : option (frame Block);
  mp_sub_assemblies : option (frame Block);
  attrs : gmap string value;
  _init : bool
}.

Definition set_owts (v : Dict.dict OWT.t) (s : t) : t :=
  Build_t v (sub_assemblies s) (tower_base s) (pile_head s) (water_depth s)
    (tw_sub_assemblies s) (tp_sub_assemblies s) (mp_sub_assemblies s)
    (attrs s) (_init s).
Definition set_attrs (v : gmap string value) (s : t) : t :=
  Build_t (owts s) (sub_assemblies s) (tower_base s) (pile_head s)
    (water_depth s) (tw_sub_assemblies s) (tp_sub_assemblies s)
    (mp_sub_assemblies s) v (_init s).
Definition set_init (v : bool) (s : t) : t :=
  Build_t (owts s) (sub_assemblies s) (tower_base s) (pile_head s)
    (water_depth s) (tw_sub_assemblies s) (tp_sub_assemblies s)
    (mp_sub_assemblies s) (attrs s) v.

Abbreviation M := (Method.M t).
Local Open Scope method_scope.

(** [setattr(self, attr, v)] on a slot. *)
Definition setattr (attr : string) (v : value) : M unit :=
  modify (fun s => set_attrs (<[attr := v]> (attrs s)) s).

(** [pd.concat(sa_turb_list)], or [None] for an empty list. *)
Definition concat_tables (l : list (option (frame Block))) : option (frame Block) :=
  match omap id l with
  | [] => None
  | dfs => Some (concat dfs)
  end.

(** [OWTs.__init__]. *)
Definition __init__ (turbines : list string) (owts : list OWT.t) : result t :=
  let owts := Dict.of_list (combine turbines owts) in
  _ ← match turbines with
      | t0 :: _ => Dict.getitem t0 owts
      | [] => Raise (IndexError "list index out of range")
      end;
  let per_turbine {A} (field : OWT.t -> A) : Dict.dict A :=
    Dict.of_list (combine turbines (List.map field (Dict.values owts))) in
  let tables (field : OWT.t -> option (frame Block)) :=
    concat_tables (List.map field (Dict.values owts)) in
  let slots :=
    fold_left (fun m attr => <[attr := VList []]> m)
      (ATTR_PROC ++ ATTR_SPEC ++ ATTR_FULL) ∅ in
  Ok {| owts := owts;
        sub_assemblies := per_turbine OWT.sub_assemblies;
        tower_base := per_turbine OWT.tower_base;
        pile_head := per_turbine OWT.pile_head;
        water_depth := per_turbine OWT.water_depth;
        tw_sub_assemblies := tables OWT.tw_sub_assemblies;
        tp_sub_assemblies := tables OWT.tp_sub_assemblies;
        mp_sub_assemblies := tables OWT.mp_sub_assemblies;
        attrs := slots;
        _init := false |}.

(** The guard of [OWTs.__getattribute__]. *)
Definition access_warnings (name : string) (s : t) : list warning :=
  if mem name (ATTR_PROC ++ ATTR_SPEC ++ ATTR_FULL) && negb (_init s)
  then [Warn name "process_structures()"]
  else [].

(** [OWTs.__getattribute__] on a slot: warn when the guard fires, then
    read.  The other attributes are read as fields of [t]. *)
Definition __getattribute__ (name : string) : M value := fun s =>
  Outcome
    (match attrs s !! name with
     | Some v => Ok v
     | None => Raise (AttributeError name)
     end)
    s (access_warnings name s).

(** A method call or attribute read on the turbine stored under [k]:
    the object inside [self.owts] is the one mutated. *)
Definition on_turbine {A} (k : string) (m : OWT.M A) : M A := fun s =>
  match Dict.lookup k (owts s) with
  | None => Outcome (Raise (KeyError k)) s []
  | Some o =>
      let r := m o in
      Outcome (res r) (set_owts (Dict.insert k (st r) (owts s)) s) (log r)
  end.

(** The frames of one kind in a list of values. *)
Definition as_cans (v : value) : result (frame Can) :=
  match v with
  | VCans df => Ok df
  | _ => Raise (TypeError "cannot concatenate frames of different tables")
  end.
Definition as_lumped (v : value) : result (frame Lumped) :=
  match v with
  | VLumped df => Ok df
  | _ => Raise (TypeError "cannot concatenate frames of different tables")
  end.
Definition as_distributed (v : value) : result (frame Distributed) :=
  match v with
  | VDistributed df => Ok df
  | _ => Raise (TypeError "cannot concatenate frames of different tables")
  end.
Definition as_rna (v : value) : result (frame Rna) :=
  match v with
  | VRna df => Ok df
  | _ => Raise (TypeError "cannot concatenate frames of different tables")
  end.

Definition is_none (v : value) : bool :=
  match v with VNone => true | _ => false end.

(** [pd.concat(l)]: [None] entries are dropped; the tables of a list
    are of one kind, that of the turbine attribute they come from. *)
Definition pd_concat (l : list value) : result value :=
  match List.filter (fun v => negb (is_none v)) l with
  | [] => Raise (ValueError "All objects passed were None")
  | VCans df :: rest => dfs ← traverse as_cans rest; Ok (VCans (concat (df :: dfs)))
  | VLumped df :: rest => dfs ← traverse as_lumped rest; Ok (VLumped (concat (df :: dfs)))
  | VDistributed df :: rest =>
      dfs ← traverse as_distributed rest; Ok (VDistributed (concat (df :: dfs)))
  | VRna df :: rest => dfs ← traverse as_rna rest; Ok (VRna (concat (df :: dfs)))
  | _ :: _ => Raise (TypeError "cannot concatenate object of this type")
  end.

(** [OWTs._concat_list]. *)
Definition _concat_list (attr_list : list string) : M unit :=
  for_each attr_list (fun attr =>
    attr_val <- __getattribute__ attr ;;
    df <- lift
      match attr_val with
      | VNone => Ok VNone
      | VList l => if forallb is_none l then Ok VNone else pd_concat l
      | VCans _ | VLumped _ | VDistributed _ | VRna _ | VSummary _ =>
          Raise (ValueError "The truth value of a DataFrame is ambiguous.")
      | _ => Raise (TypeError "object is not iterable")
      end ;;
    setattr attr df).

(** A numeric cell of the summary: [None] is NaN. *)
Definition number (o : option float64) : float64 := float_or_nan o.
Definition number_of (v : value) : float64 :=
  match v with VFloat f => f | _ => NaN end.

(** [pile_toe_map[turb]]. *)
Definition subscript (v : value) (k : string) : result value :=
  match v with
  | VDict d => Dict.getitem k d
  | VList _ => Raise (TypeError "list indices must be integers or slices, not str")
  | _ => Raise (TypeError "object is not subscriptable")
  end.

(** [x["Mass [t]"].sum()] on a turbine attribute that may be [None]. *)
Definition total {R} (col : R -> float64) (o : option (frame R)) : result float64 :=
  df ← OWT.subscriptable o; Ok (nansum (column col df)).

(** One row of the summary of [OWTs._assembly_turbine]. *)
Definition summary_row (pile_toe_map : value) (turb : string) : M Turbine :=
  s <- get ;;
  depth <- lift (Dict.getitem turb (water_depth s)) ;;
  toe <- lift (subscript pile_toe_map turb) ;;
  head <- lift (Dict.getitem turb (pile_head s)) ;;
  base <- lift (Dict.getitem turb (tower_base s)) ;;
  let attr {A} name (field : OWT.t -> A) := on_turbine turb (OWT.read name field) in
  mp <- attr "monopile" OWT.monopile ;;
  mp_height <- (if mp is Some _
                then mp <- attr "monopile" OWT.monopile ;;
                     h <- lift (total height_m mp) ;; ret (Some h)
                else ret None) ;;
  mp <- attr "monopile" OWT.monopile ;;
  mp_mass <- (if mp is Some _
              then mp <- attr "monopile" OWT.monopile ;;
                   a <- lift (total mass_t mp) ;;
                   d <- attr "mp_distributed_mass" OWT.mp_distributed_mass ;;
                   b <- lift (total dm_mass d) ;;
                   l <- attr "mp_lumped_mass" OWT.mp_lumped_mass ;;
                   c <- lift (total lm_mass l) ;;
                   ret (Some (fadd (fadd a b) c))
              else ret None) ;;
  tp <- attr "transition_piece" OWT.transition_piece ;;
  tp_height <- (if tp is Some _
                then tp <- attr "transition_piece" OWT.transition_piece ;;
                     h <- lift (total height_m tp) ;; ret (Some h)
                else ret None) ;;
  tp <- attr "transition_piece" OWT.transition_piece ;;
  tp_mass <- (if tp is Some _
              then tp <- attr "transition_piece" OWT.transition_piece ;;
                   a <- lift (total mass_t tp) ;;
                   d <- attr "tp_distributed_mass" OWT.tp_distributed_mass ;;
                   b <- lift (total dm_mass d) ;;
                   l <- attr "tp_lumped_mass" OWT.tp_lumped_mass ;;
                   c <- lift (total lm_mass l) ;;
                   g <- attr "grout" OWT.grout ;;
                   e <- lift (total dm_mass g) ;;
                   ret (Some (fadd (fadd (fadd a b) c) e))
              else ret None) ;;
  tw <- attr "tower" OWT.tower ;;
  tw_height <- (if tw is Some _
                then tw <- attr "tower" OWT.tower ;;
                     h <- lift (total height_m tw) ;; ret (Some h)
                else ret None) ;;
  tw <- attr "tower" OWT.tower ;;
  tw_mass <- (if tw is Some _
              then tw <- attr "tower" OWT.tower ;;
                   a <- lift (total mass_t tw) ;;
                   l <- attr "tw_lumped_mass" OWT.tw_lumped_mass ;;
                   b <- lift (total lm_mass l) ;;
                   ret (Some (fadd a b))
              else ret None) ;;
  rna <- attr "rna" OWT.rna ;;
  rna_mass <- (if rna is Some _
               then rna <- attr "rna" OWT.rna ;;
                    m <- lift (total Frames.rna_mass rna) ;; ret (Some m)
               else ret None) ;;
  ret {| turbine_name := turb;
         t_water_depth := fround 2 depth;
         t_monopile_toe := fround 2 (number_of toe);
         t_monopile_head := fround 2 (number head);
         t_tower_base := fround 2 (number base);
         t_monopile_height := fround 2 (number mp_height);
         t_monopile_mass := fround 2 (number mp_mass);
         t_transition_piece_height := fround 2 (number tp_height);
         t_transition_piece_mass := fround 2 (number tp_mass);
         t_tower_height := fround 2 (number tw_height);
         t_tower_mass := fround 2 (number tw_mass);
         t_rna_mass := fround 2 (number rna_mass) |}.

(** [OWTs._assembly_turbine]. *)
Definition _assembly_turbine : M unit :=
  for_each ATTR_PROC (fun attr => __getattribute__ attr ;; ret tt) ;;
  pile_toe_map <- __getattribute__ "pile_toe" ;;
  s <- get ;;
  df_list <- collect (Dict.keys (owts s)) (summary_row pile_toe_map) ;;
  setattr "all_turbines" (VSummary df_list).

(** [l.append(v)] / [l.extend(vs)] on the list held by a slot. *)
Definition extend (attr : string) (vs : M (list value)) : M unit :=
  attr_val <- __getattribute__ attr ;;
  match attr_val with
  | VList l => vs <- vs ;; setattr attr (VList (l ++ vs))
  | _ => raise (AttributeError "append")
  end.

(** [owt.rna[cols]]: the RNA rows as lumped masses. *)
Definition rna_as_lumped (r : Rna) : Lumped :=
  {| lm_x := rna_x r; lm_y := rna_y r; lm_z := rna_z r; lm_mass := Frames.rna_mass r;
     lm_description := rna_description r; lm_subassembly := rna_subassembly r |}.

(** [list.remove(x)]. *)
Fixpoint remove (x : string) (l : list string) : list string :=
  match l with
  | [] => []
  | y :: l' => if String.eqb x y then l' else y :: remove x l'
  end.

(** The accumulation of one turbine's tables into the fleet slots. *)
Definition accumulate (k attr : string) : M unit :=
  let owt {A} name (field : OWT.t -> A) := on_turbine k (OWT.read name field) in
  if String.eqb attr "pile_toe" then
    extend attr (v <- on_turbine k (OWT.__getattribute__ attr) ;; ret [v])
  else if String.eqb attr "all_tubular_structures" then
    extend attr
      (a <- owt "tower" OWT.tower ;;
       b <- owt "transition_piece" OWT.transition_piece ;;
       c <- owt "monopile" OWT.monopile ;;
       ret (List.map (of_option VCans) [a; b; c]))
  else if String.eqb attr "all_distributed_mass" then
    extend attr
      (a <- owt "tp_distributed_mass" OWT.tp_distributed_mass ;;
       b <- owt "grout" OWT.grout ;;
       c <- owt "mp_distributed_mass" OWT.mp_distributed_mass ;;
       ret (List.map (of_option VDistributed) [a; b; c]))
  else if String.eqb attr "all_lumped_mass" then
    owt "rna" OWT.rna ;;
    rna <- owt "rna" OWT.rna ;;
    let rna_ := of_option VLumped (option_map (map_rows rna_as_lumped) rna) in
    extend attr
      (a <- owt "tw_lumped_mass" OWT.tw_lumped_mass ;;
       b <- owt "tp_lumped_mass" OWT.tp_lumped_mass ;;
       c <- owt "mp_lumped_mass" OWT.mp_lumped_mass ;;
       ret (rna_ :: List.map (of_option VLumped) [a; b; c]))
  else
    attr_val <- __getattribute__ attr ;;
    owt_attr_val <- on_turbine k (OWT.__getattribute__ attr) ;;
    match attr_val with
    | VList l => setattr attr (VList (l ++ [owt_attr_val]))
    | _ => raise (AttributeError "append")
    end.

(** [OWTs.process_structures]. *)
Definition process_structures `{Numpy} : M unit :=
  let attr_list := remove "all_turbines" (ATTR_PROC ++ ATTR_SPEC ++ ATTR_FULL) in
  s <- get ;;
  if _init s then ret tt
  else
    modify (set_init true) ;;
    for_each (Dict.keys (owts s)) (fun k =>
      subs <- on_turbine k (OWT.read "sub_assemblies" OWT.sub_assemblies) ;;
      (if negb (Nat.eqb (length subs) 3)
       then for_each (Dict.keys subs) (fun sa => on_turbine k (OWT.process_structure sa))
       else on_turbine k (OWT.process_structure "full")) ;;
      on_turbine k OWT.extend_dfs ;;
      for_each attr_list (accumulate k)) ;;
    let attr_list := remove "pile_toe" attr_list in
    pile_toe <- __getattribute__ "pile_toe" ;;
    s <- get ;;
    match pile_toe with
    | VList l => setattr "pile_toe" (VDict (Dict.of_list (combine (Dict.keys (owts s)) l)))
    | _ => raise (TypeError "zip argument #2 must support iteration")
    end ;;
    _concat_list attr_list ;;
    _assembly_turbine.

End OWTs.

(* ===================================================================== *)
(** ** The specification's vocabulary and the examples of the source *)
(* ===================================================================== *)

Module Spec.
Import Structures.

(** A field of a raw record is present: a number, not [None], not NaN. *)
Definition present (d : DataBB) (k : string) : Prop :=
  exists f, d !! k = Some (PyFloat f) /\ f <> NaN.

(** The frustum formula: pi * h / 3 * (r_bottom^2 + r_bottom * r_top + r_top^2). *)
Definition frustum_volume (h r_bottom r_top : float64) : float64 :=
  fmul (fdiv (fmul (Fin pi) h) (Fin 3))
       (fadd (fadd (fmul r_bottom r_bottom) (fmul r_bottom r_top))
             (fmul r_top r_top)).

(** Outer minus inner frustum, in cubic metres: the outer radii are the
    outer diameters halved, the inner radii the outer radii minus the
    wall thickness. *)
Definition tubular_volume (bottom_od top_od wall h : float64) : float64 :=
  let r_bottom_outer := fdiv bottom_od (Fin 2) in
  let r_top_outer := fdiv top_od (Fin 2) in
  let r_bottom_inner := fsub r_bottom_outer wall in
  let r_top_inner := fsub r_top_outer wall in
  fdiv (fsub (frustum_volume h r_bottom_outer r_top_outer)
             (frustum_volume h r_bottom_inner r_top_inner))
       (Fin 1e9).

(** The same two quantities on rationals. *)
Definition frustumQ (h r_bottom r_top : Q) : Q :=
  pi * h / 3 * (r_bottom * r_bottom + r_bottom * r_top + r_top * r_top).

(** [height > 0] and [wall_thickness > 0] on a raw record. *)
Definition gt_zero (d : DataBB) (k : string) : bool :=
  match d !! k with
  | Some (PyFloat f) => fgtb f (Fin 0)
  | _ => false
  end.

(** The height is missing: the key is absent, or holds [None] or zero. *)
Definition height_missing_or_zero (bb : BuildingBlock) : Prop :=
  json bb !! "height" = None \/
  json bb !! "height" = Some PyNone \/
  exists q, json bb !! "height" = Some (PyFloat (Fin q)) /\ q == 0.

(** A float is a finite number other than zero. *)
Definition finite_nonzero (x : float64) : Prop :=
  exists q, x = Fin q /\ ~ q == 0.

(** An optional elevation is [None] or 0.0. *)
Definition none_or_zero (o : option float64) : Prop :=
  o = None \/ exists q, o = Some (Fin q) /\ q == 0.

(** Elevations derived from the sub-assemblies. *)
Definition derived_tower_base (subs : Dict.dict SubAssembly) : result (option float64) :=
  match Dict.lookup "TW" subs, Dict.lookup "TP" subs with
  | Some tw, _ => Some <$> absolute_bottom tw
  | None, Some tp => Some <$> absolute_top tp
  | None, None => Ok None
  end.

Definition derived_pile_head (subs : Dict.dict SubAssembly) : result (option float64) :=
  match Dict.lookup "MP" subs with
  | Some mp => Some <$> absolute_top mp
  | None => Ok None
  end.

(** A fleet method never touches the flag [_init]. *)
Definition keeps_init {A} (m : OWTs.M A) : Prop :=
  forall s, OWTs._init (st (m s)) = OWTs._init s.

(** The row of a frame that [can_modification] rewrites. *)
Definition boundary (position : string) : Frames.position :=
  if String.eqb position "bottom" then last_row else first_row.

(** The derived tables of a turbine, each with the field of the object
    its name reads: the slots of ATTR_PROC, then those of ATTR_SPEC. *)
Definition stored_slots : list (string * (OWT.t -> value)) :=
  [ ("pile_toe", fun s => of_option VFloat (OWT.pile_toe s));
    ("rna", fun s => of_option VRna (OWT.rna s));
    ("tower", fun s => of_option VCans (OWT.tower s));
    ("transition_piece", fun s => of_option VCans (OWT.transition_piece s));
    ("monopile", fun s => of_option VCans (OWT.monopile s));
    ("tw_lumped_mass", fun s => of_option VLumped (OWT.tw_lumped_mass s));
    ("tp_lumped_mass", fun s => of_option VLumped (OWT.tp_lumped_mass s));
    ("mp_lumped_mass", fun s => of_option VLumped (OWT.mp_lumped_mass s));
    ("tp_distributed_mass", fun s => of_option VDistributed (OWT.tp_distributed_mass s));
    ("mp_distributed_mass", fun s => of_option VDistributed (OWT.mp_distributed_mass s));
    ("grout", fun s => of_option VDistributed (OWT.grout s));
    ("full_structure", fun s => of_option VCans (OWT.full_structure s));
    ("tp_skirt", fun s => of_option VCans (OWT.tp_skirt s));
    ("substructure", fun s => of_option VCans (OWT.substructure s)) ].

(** A flag that guards the slot of a turbine is unset: [_init_proc] for
    a slot of ATTR_PROC, [_init_spec_part] or [_init_spec_full] for a slot
    of ATTR_SPEC. *)
Definition flag_unset (name : string) (s : OWT.t) : bool :=
  (mem name ATTR_PROC && negb (OWT._init_proc s))
  || (mem name ATTR_SPEC && negb (OWT._init_spec_part s && OWT._init_spec_full s)).

End Spec.

Module Examples.
Import Structures.

Definition origin : Position :=
  {| pos_x := Fin 0; pos_y := Fin 0; pos_z := Fin 0; pos_alpha := Fin 0;
     pos_beta := Fin 0; pos_gamma := Fin 0; reference_system := "LAT" |}.

Definition block (fields : list (string * pyval)) : BuildingBlock :=
  {| bb_id := 1; bb_title := "BB_1"; bb_description := "";
     bb_position := origin; bb_material := None;
     json := list_to_map fields |}.

(** The record of the doctests of [BuildingBlock]: a lumped mass. *)
Definition lumped_bb : BuildingBlock :=
  block [ ("height", PyFloat (Fin 0));
          ("mass_distribution", PyFloat NaN);
          ("volume_distribution", PyFloat NaN);
          ("bottom_outer_diameter", PyFloat NaN);
          ("top_outer_diameter", PyFloat NaN);
          ("wall_thickness", PyFloat NaN);
          ("mass", PyFloat (Fin 100)) ].

Definition tubular (bottom_od top_od wall h : Q) : BuildingBlock :=
  block [ ("height", PyFloat (Fin h));
          ("bottom_outer_diameter", PyFloat (Fin bottom_od));
          ("top_outer_diameter", PyFloat (Fin top_od));
          ("wall_thickness", PyFloat (Fin wall));
          ("mass", PyFloat NaN) ].

(** A 6 m can, 10 m high, with a 10 mm wall (lengths in mm). *)
Definition can_bb : BuildingBlock := tubular 6000 6000 10 10000.

(** The same can with its height in the record negated. *)
Definition upside_down_bb : BuildingBlock := tubular 6000 6000 10 (-10000).

(** A wall thicker than the section is wide. *)
Definition thick_wall_bb : BuildingBlock := tubular 2 2 3 1.

(** The can with its height missing, as a missing number is stored: NaN. *)
Definition nan_height_bb : BuildingBlock :=
  block [ ("height", PyFloat NaN);
          ("bottom_outer_diameter", PyFloat (Fin 6000));
          ("top_outer_diameter", PyFloat (Fin 6000));
          ("wall_thickness", PyFloat (Fin 10));
          ("mass", PyFloat NaN) ].

(** [numpy.interp] on two sample points, and the reading of the decimal
    integers that [diameter_str] writes: an instance to run the examples. *)
Definition interp_two_points (x : float64) (xp fp : list float64) : float64 :=
  match xp, fp with
  | [x0; x1], [y0; y1] =>
      if isnan x then NaN
      else if fgtb x x1 then y1
      else if fltb x x0 then y0
      else if fleb x1 x then y1
      else if feqb x0 x then y0
      else fadd y0 (fmul (fdiv (fsub y1 y0) (fsub x1 x0)) (fsub x x0))
  | _, _ => NaN
  end.

Fixpoint digits (acc : Z) (s : string) : option Z :=
  match s with
  | EmptyString => Some acc
  | String c s' =>
      let n := Ascii.nat_of_ascii c in
      if (48 <=? n)%nat && (n <=? 57)%nat
      then digits (acc * 10 + Z.of_nat (n - 48)) s'
      else None
  end.

Definition decimal_integer (s : string) : result float64 :=
  let bad := Raise (ValueError "could not convert string to float") in
  match s with
  | EmptyString => bad
  | String "-" (String _ _ as s') =>
      match digits 0 s' with Some z => Ok (Fin (inject_Z (- z))) | None => bad end
  | _ =>
      match digits 0 s with Some z => Ok (Fin (inject_Z z)) | None => bad end
  end.

Definition numpy_example : Numpy :=
  {| np_interp := interp_two_points; np_float := decimal_integer |}.

(** Rows in the shape of the doctests of [assembly_tp_mp]: a 6 m
    cylinder with a 10 mm wall, of volume 5 m3 and mass 10 t. *)
Definition can (from to : Q) : Can :=
  {| elevation_from := Fin from; elevation_to := Fin to;
     height_m := Fin (from - to);
     diameter_from := Fin 6; diameter_to := Fin 6;
     volume_m3 := Fin 5; wall_thickness_mm := Fin 10;
     youngs_modulus := Fin 210; poissons_ratio := Fin 0.3;
     mass_t := Fin 10; rho_tm := Fin 1;
     can_subassembly := None |}.

(** The same can with no wall. *)
Definition hollow_can : Can :=
  {| elevation_from := Fin 10; elevation_to := Fin 0; height_m := Fin 10;
     diameter_from := Fin 6; diameter_to := Fin 6;
     volume_m3 := Fin 5; wall_thickness_mm := Fin 0;
     youngs_modulus := Fin 210; poissons_ratio := Fin 0.3;
     mass_t := Fin 10; rho_tm := Fin 1;
     can_subassembly := None |}.

(** A processed turbine holding only the given derived tables. *)
Definition turbine (tw tp mp sub : option (frame Can)) (head : option float64) : OWT.t :=
  OWT.Build_t true false false [] None None None None head (Fin 30)
    None None tw tp mp None None None None None None None None sub.

(** The scenario of the specification: transition piece over [6, 8] and
    [0, 4], monopile over [0, -10], pile head at 5.0. *)
Definition scenario : OWT.t :=
  turbine None
    (Some [("tp_1", can 6 8); ("tp_2", can 0 4)])
    (Some [("mp_1", can 0 (-10))])
    None (Some (Fin 5)).

(** A bolted joint: the transition piece ends on the pile head at 5.0. *)
Definition bolted_tp : frame Can := [("tp_1", can 10 7); ("tp_2", can 7 5)].
Definition bolted : OWT.t :=
  turbine None (Some bolted_tp) (Some [("mp_1", can 5 (-10))]) None (Some (Fin 5)).

(** The same joint with a skirt can hanging below the pile head. *)
Definition bolted_with_skirt : OWT.t :=
  turbine None
    (Some (bolted_tp ++ [("tp_3", can 4 2)])%list)
    (Some [("mp_1", can 5 (-10))])
    None (Some (Fin 5)).

(** A joint where the only can above the pile head ends on it. *)
Definition flanged : OWT.t :=
  turbine None
    (Some [("tp_1", can 10 5); ("tp_2", can 4 2)])
    (Some [("mp_1", can 5 (-10))])
    None (Some (Fin 5)).

(** Sub-assemblies with one block each, for the constructor. *)
Definition one_block (z h : Q) : SubAssembly :=
  {| sa_position_z := Fin 0;
     as_df := Ok [("bb",
       {| b_x := Fin 0; b_y := Fin 0; b_z := Fin z; b_OD := "6000";
          b_wall_thickness := Fin 10; b_height := Fin h; b_volume := Fin 1;
          b_mass := Fin 1;
          b_moment_of_inertia := {| i_x := PyNone; i_y := PyNone; i_z := PyNone |};
          b_description := "" |})] |}.

Definition three_items : list (string * SubAssembly) :=
  [ ("TW", one_block 17000 80000); ("TP", one_block 5000 12000);
    ("MP", one_block (-30000) 35000) ].

(** A turbine with its three structural items, as [as_df] lists them:
    tubular sections (titles with tw, tp, mp), lumped masses (titles with
    TW, TP, RNA) and distributed masses, lengths in mm and masses in kg. *)
Definition no_inertia : Inertia := {| i_x := PyNone; i_y := PyNone; i_z := PyNone |}.

Definition section (z h : Q) (od : string) : Block :=
  {| b_x := Fin 0; b_y := Fin 0; b_z := Fin z; b_OD := od;
     b_wall_thickness := Fin 50; b_height := Fin h; b_volume := Fin 10;
     b_mass := Fin 78500; b_moment_of_inertia := no_inertia; b_description := "" |}.

Definition point_mass (z m : Q) : Block :=
  {| b_x := Fin 0; b_y := Fin 0; b_z := Fin z; b_OD := "";
     b_wall_thickness := NaN; b_height := NaN; b_volume := NaN; b_mass := Fin m;
     b_moment_of_inertia :=
       {| i_x := PyFloat (Fin 1); i_y := PyFloat (Fin 2); i_z := PyFloat (Fin 3) |};
     b_description := "" |}.

Definition line_mass (z h m : Q) : Block :=
  {| b_x := Fin 0; b_y := Fin 0; b_z := Fin z; b_OD := "";
     b_wall_thickness := NaN; b_height := Fin h; b_volume := Fin 3; b_mass := Fin m;
     b_moment_of_inertia := no_inertia; b_description := "" |}.

Definition site_items : list (string * SubAssembly) :=
  [ ("TW", {| sa_position_z := Fin 17000;
              as_df := Ok [ ("T01_RNA", point_mass 80000 400000);
                            ("T01_tw_2", section 40000 40000 "5000/4000");
                            ("T01_TW_flange", point_mass 20000 1000);
                            ("T01_tw_1", section 0 40000 "6000/5000") ] |});
    ("TP", {| sa_position_z := Fin 2000;
              as_df := Ok [ ("T01_tp_2", section 8000 7000 "6000");
                            ("T01_TP_platform", point_mass 7000 5000);
                            ("T01_tp_1", section 0 8000 "6500/6000");
                            ("T01_grout", line_mass 0 3000 9000) ] |});
    ("MP", {| sa_position_z := Fin (-60000);
              as_df := Ok [ ("T01_mp_2", section 30000 35000 "6000");
                            ("T01_mp_1", section 0 30000 "6000") ] |}) ].

Definition site_turbine : result OWT.t := OWT.__init__ site_items [Fin 30] None None.

(** The fleet of that one turbine after its first processing. *)
Definition site_fleet_processed : result (outcome OWTs.t unit) :=
  s ← site_turbine;
  fleet ← OWTs.__init__ ["T01"] [s];
  Ok (@OWTs.process_structures numpy_example fleet).

(** The labels of the table held by a fleet slot. *)
Definition labels (v : option value) : list string :=
  match v with
  | Some (VCans df) => List.map fst df
  | Some (VLumped df) => List.map fst df
  | Some (VDistributed df) => List.map fst df
  | Some (VRna df) => List.map fst df
  | _ => []
  end.

End Examples.

(* ===================================================================== *)
(** ** geometry/structures.py: the other members of a building block *)
(* ===================================================================== *)

Module Blocks.
Import Structures.

(** [np.isnan(v)]: [None] is not an input the ufunc accepts. *)
Definition np_isnan (v : pyval) : result bool :=
  match v with
  | PyFloat f => Ok (isnan f)
  | PyNone => Raise (TypeError "ufunc 'isnan' not supported for the input types")
  end.

(** [round(x)] of a float: a Python [int]. *)
Definition round_int (x : float64) : result Z :=
  match x with
  | Fin q => Ok (round_half_even q)
  | NaN => Raise (ValueError "cannot convert float NaN to integer")
  | _ => Raise (OverflowError "cannot convert float infinity to integer")
  end.

(** [str(n)] of an [int]: its decimal digits, after a minus sign if negative. *)
Definition str_int (n : Z) : string := NilZero.string_of_int (Z.to_int n).

(** [round(v)] of a value read off the record. *)
Definition rounded (v : pyval) : result Z := as_float v ≫= round_int.

(** [BuildingBlock.diameter_str]. *)
Definition diameter_str (bb : BuildingBlock) : result string :=
  tod ← top_outer_diameter bb;
  populated ←
    (if truthy tod then
       bod ← bottom_outer_diameter bb;
       if truthy bod then
         top_nan ← top_outer_diameter bb ≫= np_isnan;
         if negb top_nan then
           bottom_nan ← bottom_outer_diameter bb ≫= np_isnan;
           Ok (negb bottom_nan)
         else Ok false
       else Ok false
     else Ok false);
  if populated : bool then
    tod ← top_outer_diameter bb ≫= as_float;
    bod ← bottom_outer_diameter bb ≫= as_float;
    if fneb tod bod then
      b ← bottom_outer_diameter bb ≫= rounded;
      t ← top_outer_diameter bb ≫= rounded;
      Ok (str_int b ++ "/" ++ str_int t)
    else
      b ← bottom_outer_diameter bb ≫= rounded;
      Ok (str_int b)
  else Ok "".

(** [BuildingBlock.mass]. *)
Definition mass (bb : BuildingBlock) : result pyval :=
  t ← type bb;
  match t with
  | lumped_mass => getitem (json bb) "mass"
  | distributed_mass =>
      if truthy (height bb)
      then
        md ← getitem (json bb) "mass_distribution" ≫= as_float;
        h ← as_float (height bb);
        m ← py_round (fdiv (fmul md h) (Fin 1000));
        Ok (PyFloat m)
      else Raise height_missing
  | tubular_section =>
      match bb_material bb with
      | Some material =>
          let missing := Raise (ValueError "Density or volume data is missing.") in
          if ftruthy (mat_density material)
          then
            v ← volume bb;
            if truthy_opt v
            then
              v ← volume bb ≫= scalar;
              Ok (PyFloat (fround 1 (fmul v (mat_density material))))
            else missing
          else missing
      | None => Raise (ValueError "Material data is missing.")
      end
  end.

(** [BuildingBlock.moment_of_inertia]. *)
Definition moment_of_inertia (bb : BuildingBlock) : result Inertia :=
  t ← type bb;
  match t with
  | lumped_mass =>
      x ← getitem (json bb) "moment_of_inertia_x";
      y ← getitem (json bb) "moment_of_inertia_y";
      z ← getitem (json bb) "moment_of_inertia_z";
      Ok {| i_x := x; i_y := y; i_z := z |}
  | _ => Ok {| i_x := PyNone; i_y := PyNone; i_z := PyNone |}
  end.

(** The dictionary [BuildingBlock.as_dict] returns. *)
Record BlockDict : Type := {
  d_title : string;
  d_x : float64;
  d_y : float64;
  d_z : float64;
  d_OD : string;
  d_wall_thickness : pyval;
  d_height : pyval;
  d_volume : option float64;
  d_mass : pyval;
  d_moment_of_inertia : Inertia;
  d_description : string
}.

(** [BuildingBlock.as_dict]: the entries are evaluated in the order of
    the dictionary display. *)
Definition as_dict (bb : BuildingBlock) : result BlockDict :=
  od ← diameter_str bb;
  wt ← wall_thickness bb;
  let h := height bb in
  v ← volume bb;
  m ← mass bb;
  mi ← moment_of_inertia bb;
  Ok {| d_title := bb_title bb;
        d_x := pos_x (bb_position bb);
        d_y := pos_y (bb_position bb);
        d_z := pos_z (bb_position bb);
        d_OD := od;
        d_wall_thickness := wt;
        d_height := h;
        d_volume := v;
        d_mass := m;
        d_moment_of_inertia := mi;
        d_description := bb_description bb |}.

End Blocks.

(* ===================================================================== *)
(** ** geometry/structures.py: a sub-assembly and its building blocks *)
(* ===================================================================== *)

(** [BuildingBlock.__init__] and the members of [SubAssembly] that go
    through its building blocks. *)
Module Assembly.
Import Structures Blocks.
Local Open Scope method_scope.

(** A raw building-block record, typed as [DataBB] declares it: the
    identifier, the textual fields and the coordinates, and the other
    numeric fields by name, any of which may be absent or [None]. *)
Record Json : Type := {
  j_id : Z;
  j_title : string;
  j_description : option string;
  j_position : Position;
  j_numbers : DataBB
}.

Section Build.

(** [np.int64(x)] of a float: the conversion numpy makes, which the
    development leaves open. *)
Variable np_int64 : float64 -> result Z.

(** The loop of [BuildingBlock.__init__] over [subassembly.materials];
    [mat.id] is an integer already. *)
Fixpoint find_material (material_id : float64) (materials : list Material)
    : result (option Material) :=
  match materials with
  | [] => Ok None
  | mat :: materials' =>
      wanted ← np_int64 material_id;
      if (mat_id mat =? wanted)%Z then Ok (Some mat)
      else find_material material_id materials'
  end.

(** [BuildingBlock.__init__]; [subassembly] is the list of materials of
    the sub-assembly passed, if one is. *)
Definition __init__ (json : Json) (subassembly : option (list Material))
    : result BuildingBlock :=
  let description :=
    match j_description json with
    | Some ((String _ _) as text) => text
    | _ => ""
    end in
  material ←
    match j_numbers json !! "material", subassembly with
    | Some material_id, Some materials =>
        if truthy material_id
        then
          nan ← np_isnan material_id;
          if negb nan
          then material_id ← as_float material_id; find_material material_id materials
          else Ok None
        else Ok None
    | _, _ => Ok None
    end;
  Ok {| bb_id := j_id json; bb_title := j_title json; bb_description := description;
        bb_position := j_position json; bb_material := material;
        json := j_numbers json |}.

(** The sub-assembly object, as far as its building blocks go: the
    cache [bb], the materials, and the answer of the API to
    [get_buildingblocks] for this sub-assembly, if an API is configured:
    the exception the request raises, or "exists" and the rows of "data". *)
Record t : Type := {
  bb : option (list BuildingBlock);
  materials : list Material;
  api : option (result (bool * list Json))
}.

Definition set_bb (v : option (list BuildingBlock)) (s : t) : t :=
  {| bb := v; materials := materials s; api := api s |}.

Abbreviation M := (Method.M t).

(** [SubAssembly.building_blocks]. *)
Definition building_blocks : M (list BuildingBlock) :=
  s <- get ;;
  match bb s with
  | Some ((_ :: _) as cached) => ret cached
  | _ =>
      match api s with
      | None => raise (ValueError "No API configured")
      | Some response =>
          answer <- lift response ;;
          if fst answer : bool
          then
            blocks <- lift (traverse (fun b => __init__ b (Some (materials s)))
                              (snd answer)) ;;
            modify (set_bb (Some blocks)) ;;
            ret blocks
          else raise (ValueError "No building blocks found")
      end
  end.

(** [str.lower] on the letters A to Z.  What it does to other letters
    plays no part in the search for "grout": none of them becomes one of
    g, r, o, u, t. *)
Definition lower_ascii (c : ascii) : ascii :=
  let n := nat_of_ascii c in
  if (65 <=? n)%nat && (n <=? 90)%nat then ascii_of_nat (n + 32) else c.

Fixpoint lower (s : string) : string :=
  match s with
  | EmptyString => EmptyString
  | String c s' => String (lower_ascii c) (lower s')
  end.

(** The test of the loop of [SubAssembly.height] on one block. *)
Definition counts_for_height (b : BuildingBlock) : result bool :=
  t ← type b;
  match t with
  | tubular_section =>
      if negb (contains "grout" (lower (bb_title b)))
      then
        if truthy (Structures.height b)
        then nan ← np_isnan (Structures.height b); Ok (negb nan)
        else Ok false
      else Ok false
  | _ => Ok false
  end.

(** [height += bb.height] over the blocks that count. *)
Fixpoint sum_heights (acc : float64) (blocks : list BuildingBlock) : result float64 :=
  match blocks with
  | [] => Ok acc
  | b :: blocks' =>
      c ← counts_for_height b;
      if c : bool
      then h ← as_float (Structures.height b); sum_heights (fadd acc h) blocks'
      else sum_heights acc blocks'
  end.

(** [SubAssembly.height]. *)
Definition height : M float64 :=
  blocks <- building_blocks ;;
  match blocks with
  | _ :: _ =>
      blocks <- building_blocks ;;
      lift (sum_heights (Fin 0) blocks)
  | [] => raise (ValueError "No building blocks found")
  end.

(** [mass += bb.mass] over the blocks with a mass that is neither zero
    nor NaN. *)
Fixpoint sum_masses (acc : float64) (blocks : list BuildingBlock) : result float64 :=
  match blocks with
  | [] => Ok acc
  | b :: blocks' =>
      m ← Blocks.mass b;
      c ← (if truthy m then nan ← Blocks.mass b ≫= np_isnan; Ok (negb nan) else Ok false);
      if c : bool
      then m ← Blocks.mass b ≫= as_float; sum_masses (fadd acc m) blocks'
      else sum_masses acc blocks'
  end.

(** [SubAssembly.mass]. *)
Definition mass : M float64 :=
  blocks <- building_blocks ;;
  match blocks with
  | _ :: _ =>
      blocks <- building_blocks ;;
      lift (sum_masses (Fin 0) blocks)
  | [] => raise (ValueError "No building blocks found")
  end.

End Build.

(** A block that adds to the height of its sub-assembly: a tubular
    section that is not grout. *)
Definition structural (b : BuildingBlock) : bool :=
  match type b with
  | Ok tubular_section => negb (contains "grout" (lower (bb_title b)))
  | _ => false
  end.

End Assembly.

(* ===================================================================== *)
(** ** geometry/processing.py: the monopile as a table of pile segments *)
(* ===================================================================== *)

(** [OWT.transform_monopile_geometry]: the monopile as a table of pile
    segments, with the mudline as reference. *)
Module Pile.

(** Rows of the table returned; a cell never assigned is missing: NaN,
    and [None] in the text column. *)
Record PileRow : Type := {
  p_elevation_from : float64;   (* "Elevation from [m]" *)
  p_elevation_to : float64;     (* "Elevation to [m]" *)
  p_material : option string;   (* "Pile material" *)
  p_unit_weight : float64;      (* "Pile material submerged unit weight [kN/m3]" *)
  p_wall_thickness : float64;   (* "Wall thickness [mm]" *)
  p_diameter : float64;         (* "Diameter [m]" *)
  p_youngs_modulus : float64;   (* "Youngs modulus [GPa]" *)
  p_poissons_ratio : float64    (* "Poissons ratio [-]" *)
}.

(** The table: rows in order, each with its integer label. *)
Definition pile_frame : Type := list (nat * PileRow).

Section Transform.

(** Python's [float(s)] on a string, and the outcome of reading
    [self.sub_assemblies["MP"].bb[0].material]: the building blocks
    behind a sub-assembly are not part of the engine's state. *)
Variable float : string -> result float64.
Variable material : result Structures.Material.

(** [bot_od] and [top_od]: the first two fields of an "OD" entry split
    at every "/", or the entry twice when it has no "/". *)
Definition outer_diameters (od : string) : string * string :=
  match split_slash od with
  | (bottom, Some rest) => (bottom, fst (split_slash rest))
  | (_, None) => (od, od)
  end.

(** The body of the loop for a row and the row before it. *)
Definition pile_row (penetration : float64) (previous row : Block) : result PileRow :=
  let elevation_from := fsub penetration (fmul (Fin 1e-3) (b_z previous)) in
  let elevation_to := fsub penetration (fmul (Fin 1e-3) (b_z row)) in
  title ← Structures.mat_title <$> material;
  density ← Structures.mat_density <$> material;
  let '(bot_od, top_od) := outer_diameters (b_OD row) in
  bot ← float bot_od;
  top ← float top_od;
  young_modulus ← Structures.mat_young_modulus <$> material;
  poisson_ratio ← Structures.mat_poisson_ratio <$> material;
  Ok {| p_elevation_from := elevation_from;
        p_elevation_to := elevation_to;
        p_material := Some title;
        p_unit_weight := fsub (fmul (Fin 1e-2) density) (Fin 10);
        p_wall_thickness := b_wall_thickness row;
        p_diameter := fmul (fmul (Fin 1e-3) (Fin 0.5)) (fadd bot top);
        p_youngs_modulus := young_modulus;
        p_poissons_ratio := poisson_ratio |}.

(** [for i, row in df.iterrows(): if i != 0: ...], from row [i] on. *)
Fixpoint pile_rows (penetration : float64) (i : nat) (previous : Block)
    (rows : list Block) : result pile_frame :=
  match rows with
  | [] => Ok []
  | row :: rows' =>
      r ← pile_row penetration previous row;
      rs ← pile_rows penetration (S i) row rows';
      Ok ((i, r) :: rs)
  end.

(** [reset_index(drop=True)]. *)
Definition reset_index (pile : pile_frame) : pile_frame :=
  combine (seq 0 (length pile)) (List.map snd pile).

Definition set_elevation_from (v : float64) (r : PileRow) : PileRow :=
  {| p_elevation_from := v;
     p_elevation_to := p_elevation_to r;
     p_material := p_material r;
     p_unit_weight := p_unit_weight r;
     p_wall_thickness := p_wall_thickness r;
     p_diameter := p_diameter r;
     p_youngs_modulus := p_youngs_modulus r;
     p_poissons_ratio := p_poissons_ratio r |}.

(** [pile.loc[0, "Elevation from [m]"] = v] on a frame labelled from 0:
    the first row is assigned, and a frame without rows gets one. *)
Definition loc_0_set_elevation_from (v : float64) (pile : pile_frame) : pile_frame :=
  match pile with
  | [] =>
      [(0%nat, {| p_elevation_from := v; p_elevation_to := NaN; p_material := None;
                  p_unit_weight := NaN; p_wall_thickness := NaN; p_diameter := NaN;
                  p_youngs_modulus := NaN; p_poissons_ratio := NaN |})]
  | (label, r) :: rest => (label, set_elevation_from v r) :: rest
  end.

(** [OWT.transform_monopile_geometry].  The method reads
    [sub_assemblies], [water_depth] and [mp_sub_assemblies], none of
    them behind the access guard, and assigns no attribute. *)
Definition transform_monopile_geometry (cutoff_point : float64) (s : OWT.t)
    : result pile_frame :=
  mp ← Dict.getitem "MP" (OWT.sub_assemblies s);
  let toe_depth_lat := sa_position_z mp in
  let penetration := fopp (fsub (fmul (Fin 1e-3) toe_depth_lat) (OWT.water_depth s)) in
  df ← match OWT.mp_sub_assemblies s with
       | Some df => Ok df
       | None => Raise (ValueError "Monopile subassembly data not found.")
       end;
  pile ← match List.map snd df with
         | [] => Ok []
         | first :: rows => pile_rows penetration 1 first rows
         end;
  if negb (isnan cutoff_point)
  then
    match pile with
    | [] => Raise (KeyError "Elevation to [m]")
    | _ :: _ =>
        let pile :=
          reset_index
            (List.filter (fun lr => fgtb (p_elevation_to (snd lr)) cutoff_point) pile) in
        Ok (loc_0_set_elevation_from cutoff_point pile)
    end
  else Ok pile.

End Transform.
End Pile.

(* ===================================================================== *)
(** ** geometry/processing.py and geometry/io.py: selection and the model guard *)
(* ===================================================================== *)

(** [OWTs.select_owt]. *)
Module Selection.

(** The argument [turbine]: an [int] (a [bool] is one), a [str], or
    anything else. *)
Inductive turbine_ref : Type :=
| IntRef (i : Z)
| StrRef (title : string)
| OtherRef.

(** [l[i]] on a list: a negative index counts from the end. *)
Definition list_getitem {A} (l : list A) (i : Z) : result A :=
  let n := Z.of_nat (length l) in
  let j := if (i <? 0)%Z then (i + n)%Z else i in
  if (j <? 0)%Z then Raise (IndexError "list index out of range")
  else match nth_error l (Z.to_nat j) with
       | Some a => Ok a
       | None => Raise (IndexError "list index out of range")
       end.

(** [OWTs.select_owt]; the attribute [owts] is not behind the access guard. *)
Definition select_owt (turbine : turbine_ref) (s : OWTs.t) : result OWT.t :=
  match turbine with
  | IntRef i =>
      k ← list_getitem (Dict.keys (OWTs.owts s)) i;
      Dict.getitem k (OWTs.owts s)
  | StrRef title => Dict.getitem title (OWTs.owts s)
  | OtherRef =>
      Raise (ValueError
        "You must specify a single turbine title or                 its index from the the get method input turbine list.")
  end.

End Selection.

(** [GeometryAPI._check_if_need_modeldef] of geometry/io.py, the guard
    [get_owt_geometry_processor] runs on the sub-assembly table before it
    builds an [OWT] from it. *)
Module GeometryIO.

(** [subassembly_types] is the column [subassemblies["subassembly_type"]]. *)
Definition _check_if_need_modeldef (subassembly_types : list string) (turbine : string)
    : result unit :=
  let sa_list_length := length subassembly_types in
  let sa_unique_list_length := size (list_to_set subassembly_types : gset string) in
  if (sa_unique_list_length <? sa_list_length)%nat
  then Raise (ValueError
         ("Multiple model definitions found for turbine " ++ turbine
          ++ ". Please specify which one to use."))
  else Ok tt.

End GeometryIO.

(* ===================================================================== *)
(** ** Notions used to state the further properties *)
(* ===================================================================== *)

(** What a method leaves behind and what it returns. *)
Module Triples.

(** [m] keeps the property [P] of the object, also when it raises. *)
Definition preserves {S A} (P : S -> Prop) (m : M S A) : Prop :=
  forall s, P s -> P (st (m s)).

(** Whatever [m] returns satisfies [P]. *)
Definition returns {S A} (P : A -> Prop) (m : M S A) : Prop :=
  forall s a, res (m s) = Ok a -> P a.

(** The result of a call and the state it leaves, warnings forgotten. *)
Definition run {S A} (m : M S A) (s : S) : result A * S := (res (m s), st (m s)).

End Triples.

(** Readings of the tables of a turbine. *)
Module Views.
Import OWT.
Local Open Scope method_scope.

(** No character of a string is the separator of an "OD" entry. *)
Fixpoint no_slash (s : string) : bool :=
  match s with
  | EmptyString => true
  | String c s' => negb (Ascii.eqb c "/"%char) && no_slash s'
  end.

(** The raw table a structural index stands for, and the titles
    [set_df_structure] selects in it. *)
Definition raw_table (idx : string) (s : t) : option (frame Block) :=
  if String.eqb idx "tw" then tw_sub_assemblies s
  else if String.eqb idx "tp" then tp_sub_assemblies s
  else if String.eqb idx "mp" then mp_sub_assemblies s
  else None.

Definition structural_title (idx : string) (title : string) : bool :=
  if String.eqb idx "tp"
  then contains idx title && negb (contains "grout" title)
  else contains idx title.

(** The body of the loop of [extend_dfs]. *)
Definition tag_table (attr : string) : M unit :=
  df <- __getattribute__ attr ;;
  match df, subassembly_tag attr with
  | VNone, _ | _, None => ret tt
  | _, Some tag => modify (tag_slot attr tag)
  end.

(** The state after the loop: every table of [ATTR_PROC] present is tagged. *)
Definition tagged (s : t) : t :=
  let cans tag := option_map (map_rows (set_subassembly tag)) in
  let lumped tag := option_map (map_rows (tag_lumped tag)) in
  let distributed tag := option_map (map_rows (tag_distributed tag)) in
  Build_t (_init_proc s) (_init_spec_part s) (_init_spec_full s) (sub_assemblies s)
    (tw_sub_assemblies s) (tp_sub_assemblies s) (mp_sub_assemblies s)
    (tower_base s) (pile_head s) (water_depth s) (pile_toe s)
    (option_map (map_rows (tag_rna "TW")) (rna s))
    (cans "TW" (tower s)) (cans "TP" (transition_piece s)) (cans "MP" (monopile s))
    (lumped "TW" (tw_lumped_mass s)) (lumped "TP" (tp_lumped_mass s))
    (lumped "MP" (mp_lumped_mass s))
    (distributed "TP" (tp_distributed_mass s)) (distributed "MP" (mp_distributed_mass s))
    (distributed "TP" (grout s))
    (full_structure s) (tp_skirt s) (substructure s).

(** What one turn of the loop does to the turbine. *)
Definition tag_effect (attr : string) (s : t) : t :=
  match subassembly_tag attr with
  | Some tag => tag_slot attr tag s
  | None => s
  end.

(** The tags of the rows of a frame of cans. *)
Definition tags (df : frame Can) : list (option string) :=
  List.map (fun lr => can_subassembly (snd lr)) df.

End Views.

(* ===================================================================== *)
(** ** Floating-point arithmetic with rounding *)
(* ===================================================================== *)

(** The operations of [Float64] compute on rationals without rounding.
    The numerical properties of the volumes and of the density are stated
    on the arithmetic of [numpy.float64] instead: IEEE 754 binary64, where
    the result of an operation is the float nearest to the exact result,
    ties going to the even significand.  A float is a rational of the form
    [n * 2^e] with [|n| < 2^53] and [-1074 <= e <= 971], or a special
    value; the sign of zero is not kept. *)

Module Binary64.

(** [2 ^ k] for an integer [k] of either sign. *)
Definition pow2 (k : Z) : Q := 2 ^ k.

(** The integer part of the binary logarithm of a positive rational. *)
Definition ilog2 (a : Q) : Z :=
  let k := (Z.log2 (Qnum a) - Z.log2 (Z.pos (Qden a)))%Z in
  if Qle_bool (pow2 k) a then k else (k - 1)%Z.

(** The exponent of the last bit of the 53-bit significand that holds
    a positive [a]; the subnormal numbers share the exponent -1074. *)
Definition exponent (a : Q) : Z := Z.max (ilog2 a - 52) (-1074).

(** The nearest multiple of the last bit, ties to the even significand. *)
Definition round_abs (a : Q) : Q :=
  let e := exponent a in
  inject_Z (round_half_even (a / pow2 e)) * pow2 e.

(** Rounding to binary64: round to nearest, ties to even; a result of
    size 2^1024 or more is an infinity. *)
Definition rnd (x : float64) : float64 :=
  match x with
  | Fin q =>
      if Qeq_bool q 0 then Fin 0
      else
        let r := round_abs (Qabs q) in
        if Qle_bool (pow2 1024) r
        then (if Qle_bool 0 q then PInf else NInf)
        else Fin (if Qle_bool 0 q then r else - r)
  | _ => x
  end.

(** The unit roundoff: half the distance from 1 to the next number. *)
Definition u : Q := pow2 (-53).

(** A rational is zero or at least the smallest normal number in size:
    rounding it loses no precision to the subnormal range. *)
Definition no_underflow (q : Q) : Prop := q == 0 \/ pow2 (-1022) <= Qabs q.

End Binary64.

(** The arithmetic a computation runs on: the four operations, the
    square and the reading of a literal.  The numerical methods of the
    two source files are written once more over it, operation by
    operation; on [exact] they are the definitions above. *)
Module Numeric.
Import Binary64.

Record arith : Type := {
  add : float64 -> float64 -> float64;
  sub : float64 -> float64 -> float64;
  mul : float64 -> float64 -> float64;
  div : float64 -> float64 -> float64;
  sqr : float64 -> float64;
  lit : Q -> float64
}.

(** Exact arithmetic, the one of the definitions above. *)
Definition exact : arith :=
  {| add := fadd; sub := fsub; mul := fmul; div := fdiv; sqr := fsqr; lit := Fin |}.

(** The arithmetic of [numpy.float64]: every operation is the exact one
    followed by rounding.  [x ** 2] is the power function of the C
    library, whose last bit IEEE 754 does not fix: it is a parameter. *)
Definition binary64 (power2 : float64 -> float64) : arith :=
  {| add := fun x y => rnd (fadd x y);
     sub := fun x y => rnd (fsub x y);
     mul := fun x y => rnd (fmul x y);
     div := fun x y => rnd (fdiv x y);
     sqr := power2;
     lit := fun q => rnd (Fin q) |}.

(** The correctly rounded square: what [x * x] gives. *)
Definition square (x : float64) : float64 := rnd (fsqr x).

(** What the properties of the volumes need of [x ** 2]: a finite square
    has a finite argument, and on the floats that are not negative the
    square keeps the order and is not negative. *)
Record monotone_square (power2 : float64 -> float64) : Prop := {
  power2_finite : forall (x : float64) (m : Q),
    power2 x = Fin m -> exists a, x = Fin a;
  power2_le : forall a a' m : Q,
    power2 (Fin a) = Fin m -> 0 <= a' -> a' <= a ->
    exists m', power2 (Fin a') = Fin m' /\ 0 <= m' /\ m' <= m
}.

Section Computations.
Variable A : arith.

(** [1 / 3 * np.pi * (r1**2 + r1 * r2 + r2**2) * height]. *)
Definition frustum (r1 r2 h : float64) : float64 :=
  mul A (mul A (mul A (div A (lit A 1) (lit A 3)) (lit A pi))
               (add A (add A (sqr A r1) (mul A r1 r2)) (sqr A r2)))
      h.

(** [OWT.can_adjust_properties]. *)
Definition can_adjust_properties (row : Can) : CanProperties :=
  let density := div A (mass_t row) (volume_m3 row) in
  let height := sub A (elevation_from row) (elevation_to row) in
  let r1 := div A (diameter_from row) (lit A 2) in
  let r2 := div A (diameter_to row) (lit A 2) in
  let volume_out := frustum r1 r2 height in
  let wall_thickness := mul A (wall_thickness_mm row) (lit A 1e-3) in
  let r1 := sub A r1 wall_thickness in
  let r2 := sub A r2 wall_thickness in
  let volume_in := frustum r1 r2 height in
  let volume := sub A volume_out volume_in in
  let mass := mul A volume density in
  let rho_m := div A mass height in
  {| cp_height := height; cp_volume := volume; cp_mass := mass; cp_rho := rho_m |}.

(** [OWT.can_modification]; the frame is the caller's private copy. *)
Definition can_modification `{Numpy} (df : frame Can)
    (altitude : option float64) (position : string) : result (frame Can) :=
  let '(ind, to_side) :=
    if String.eqb position "bottom" then (last_row, true) else (first_row, false) in
  let altitude_val := float_or_nan altitude in
  '(row_index, _) ← at_position ind df;
  let df := loc_set row_index (OWT.set_elevation to_side altitude_val) df in
  '(_, r) ← at_position ind df;
  let elevation := [elevation_from r; elevation_to r] in
  let diameters := [diameter_from r; diameter_to r] in
  let df :=
    loc_set row_index
      (OWT.set_diameter to_side (np_interp altitude_val elevation diameters)) df in
  '(label, r') ← at_position ind df;
  Ok (loc_set label (OWT.set_properties (can_adjust_properties r')) df).

(** [_calc_cone_volume]: [pi * height / 3 * (r_bottom**2 + r_bottom * r_top + r_top**2)]. *)
Definition _calc_cone_volume (r_bottom r_top h : float64) : float64 :=
  mul A (div A (mul A (lit A pi) h) (lit A 3))
        (add A (add A (sqr A r_bottom) (mul A r_bottom r_top)) (sqr A r_top)).

(** The two frustum volumes of a tubular section, outer then inner, mm3. *)
Definition cone_volumes (bb : Structures.BuildingBlock) : result (float64 * float64) :=
  let d := Structures.json bb in
  bod ← Structures.getitem d "bottom_outer_diameter" ≫= as_float;
  wt ← Structures.getitem d "wall_thickness" ≫= as_float;
  let r_bottom_inner := sub A (div A bod (lit A 2)) wt in
  bod' ← Structures.getitem d "bottom_outer_diameter" ≫= as_float;
  let r_bottom_outer := div A bod' (lit A 2) in
  tod ← Structures.getitem d "top_outer_diameter" ≫= as_float;
  wt' ← Structures.getitem d "wall_thickness" ≫= as_float;
  let r_top_inner := sub A (div A tod (lit A 2)) wt' in
  tod' ← Structures.getitem d "top_outer_diameter" ≫= as_float;
  let r_top_outer := div A tod' (lit A 2) in
  h ← Structures.getitem d "height" ≫= as_float;
  let volume_inner_cone := _calc_cone_volume r_bottom_inner r_top_inner h in
  let volume_outer_cone := _calc_cone_volume r_bottom_outer r_top_outer h in
  Ok (volume_outer_cone, volume_inner_cone).

(** [BuildingBlock.volume]; [Ok None] is Python's [None]. *)
Definition volume (bb : Structures.BuildingBlock) : result (option float64) :=
  t ← Structures.type bb;
  match t with
  | Structures.tubular_section =>
      if truthy (Structures.height bb)
      then
        '(volume_outer_cone, volume_inner_cone) ← cone_volumes bb;
        Ok (Some (div A (sub A volume_outer_cone volume_inner_cone) (lit A 1e9)))
      else Raise Structures.height_missing
  | Structures.distributed_mass =>
      if truthy (Structures.height bb)
      then
        vd ← Structures.getitem (Structures.json bb) "volume_distribution" ≫= as_float;
        h ← as_float (Structures.height bb);
        v ← Structures.py_round (div A (mul A vd h) (lit A 1000));
        Ok (Some v)
      else Raise Structures.height_missing
  | Structures.lumped_mass => Ok None
  end.

End Computations.

End Numeric.

(* ===================================================================== *)
(** ** Inputs on which the further properties are run *)
(* ===================================================================== *)

Module Samples.
Import Structures Examples.

Definition steel : Material :=
  {| mat_title := "Steel"; mat_description := ""; mat_density := Fin 7850;
     mat_poisson_ratio := Fin 0.3; mat_young_modulus := Fin 210000; mat_id := 1 |}.

Definition grout_material : Material :=
  {| mat_title := "Grout"; mat_description := ""; mat_density := Fin 2400;
     mat_poisson_ratio := Fin 0.2; mat_young_modulus := Fin 50000; mat_id := 2 |}.

(** The row of the cone in the table of [set_df_structure]. *)
Definition cone_row : Structure :=
  {| s_OD := "6500/6000"; s_height := Fin 8000; s_mass := Fin 62000;
     s_volume := Fin 7.9; s_wall_thickness := Fin 50;
     s_x := Fin 0; s_y := Fin 0; s_z := Fin 0;
     s_elevation_from := Fin 10; s_elevation_to := Fin 2 |}.

(** The integer part of a finite float, to run the constructor of a
    building block. *)
Definition integer_part (x : float64) : result Z :=
  match x with
  | Fin q => Ok (Qnum q ÷ Z.pos (Qden q))%Z
  | _ => Raise (OverflowError "cannot convert float to integer")
  end.

(** The record of a cone of steel, 6.5 m wide at its bottom and 6 m at
    its top, as the API lists it: its material by id. *)
Definition cone_record : Assembly.Json :=
  {| Assembly.j_id := 1; Assembly.j_title := "T01_tp_1";
     Assembly.j_description := None; Assembly.j_position := origin;
     Assembly.j_numbers :=
       list_to_map [ ("height", PyFloat (Fin 8000));
                     ("bottom_outer_diameter", PyFloat (Fin 6500));
                     ("top_outer_diameter", PyFloat (Fin 6000));
                     ("wall_thickness", PyFloat (Fin 50));
                     ("material", PyFloat (Fin 1));
                     ("mass", PyFloat NaN) ] |}.

(** A platform on the transition piece: a lumped mass without material. *)
Definition platform_record : Assembly.Json :=
  {| Assembly.j_id := 2; Assembly.j_title := "T01_TP_platform";
     Assembly.j_description := Some "Main platform"; Assembly.j_position := origin;
     Assembly.j_numbers :=
       list_to_map [ ("height", PyFloat NaN);
                     ("bottom_outer_diameter", PyFloat NaN);
                     ("top_outer_diameter", PyFloat NaN);
                     ("wall_thickness", PyFloat NaN);
                     ("material", PyFloat NaN);
                     ("mass", PyFloat (Fin 5000)) ] |}.

(** The building blocks made of the two records. *)
Definition cone_bb : BuildingBlock :=
  {| bb_id := 1; bb_title := "T01_tp_1"; bb_description := "";
     bb_position := origin; bb_material := Some steel;
     json := Assembly.j_numbers cone_record |}.

Definition platform_bb : BuildingBlock :=
  {| bb_id := 2; bb_title := "T01_TP_platform"; bb_description := "Main platform";
     bb_position := origin; bb_material := None;
     json := Assembly.j_numbers platform_record |}.

(** A sub-assembly that has not asked for its building blocks yet. *)
Definition fresh_assembly : Assembly.t :=
  {| Assembly.bb := None;
     Assembly.materials := [grout_material; steel];
     Assembly.api := Some (Ok (true, [cone_record; platform_record])) |}.

(** The turbine of the site, and the same after its processing. *)
Definition site_owt : OWT.t :=
  match site_turbine with
  | Ok s => s
  | Raise _ => scenario
  end.

Definition site_owt_processed : OWT.t :=
  st (@OWT.process_structure numpy_example "full" site_owt).

(** The fleet of the site as built, and after its processing. *)
Definition no_fleet : OWTs.t :=
  OWTs.Build_t [] [] [] [] [] None None None ∅ false.

Definition site_fleet_built : OWTs.t :=
  match OWTs.__init__ ["T01"] [site_owt] with
  | Ok fleet => fleet
  | Raise _ => no_fleet
  end.

Definition site_fleet : OWTs.t :=
  match site_fleet_processed with
  | Ok o => st o
  | Raise _ => no_fleet
  end.

End Samples.

(** Inputs given as floats. *)
Module RoundedSamples.
Import Binary64 Numeric Structures Examples.

(** The float a decimal literal denotes. *)
Definition b64 (q : Q) : float64 := rnd (Fin q).

(** The arithmetic the inputs are run on. *)
Definition float_arith : arith := binary64 square.

(** A conical can of 7.9 m3 and 10 t between 10 m and 0 m, 6.5 m wide at
    one end and 6 m at the other, with a wall of 70 mm. *)
Definition conical_can : Can :=
  {| elevation_from := b64 10; elevation_to := b64 0; height_m := b64 10;
     diameter_from := b64 6.5; diameter_to := b64 6.0;
     volume_m3 := b64 7.9; wall_thickness_mm := b64 70;
     youngs_modulus := b64 210; poissons_ratio := b64 0.3;
     mass_t := b64 10; rho_tm := b64 1;
     can_subassembly := None |}.

(** A tubular section from decimal literals, lengths in mm. *)
Definition tubular64 (bottom_od top_od wall h : Q) : BuildingBlock :=
  block [ ("height", PyFloat (b64 h));
          ("bottom_outer_diameter", PyFloat (b64 bottom_od));
          ("top_outer_diameter", PyFloat (b64 top_od));
          ("wall_thickness", PyFloat (b64 wall));
          ("mass", PyFloat NaN) ].

(** The row of the can of the examples in a table of cans: 6 m wide,
    between 10 m and 0 m, with a wall of 10 mm. *)
Definition can_row : Can :=
  {| elevation_from := b64 10; elevation_to := b64 0; height_m := b64 10;
     diameter_from := b64 6; diameter_to := b64 6;
     volume_m3 := b64 1.88; wall_thickness_mm := b64 10;
     youngs_modulus := b64 210; poissons_ratio := b64 0.3;
     mass_t := b64 14.8; rho_tm := b64 1.48;
     can_subassembly := None |}.

End RoundedSamples.

(* ===================================================================== *)
(** ** Properties of the building blocks *)
(* ===================================================================== *)

Module StructuresProps.
Import Structures Spec Examples.

Lemma pi_pos : 0 < pi.
Proof. reflexivity. Qed.

(** The test of [BuildingBlock.type] on a key is presence of the field. *)
Lemma populated_present (d : DataBB) (k : string) :
  populated d k = true <-> present d k.
Proof.
  unfold populated, present.
  destruct (d !! k) as [[|f]|] eqn:E.
  - split; [discriminate | intros (f & H & _); discriminate].
  - split.
    + intros H. exists f. split; [reflexivity|]. intros ->. discriminate.
    + intros (f' & H & Hn). injection H as <-.
      destruct f; try reflexivity. congruence.
  - split; [discriminate | intros (f & H & _); discriminate].
Qed.

Lemma populated_absent (d : DataBB) (k : string) :
  populated d k = false <-> ~ present d k.
Proof.
  rewrite <- populated_present. destruct (populated d k); split; congruence.
Qed.

(** The loop of [type] over [cond], unrolled. *)
Lemma type_unfold (bb : BuildingBlock) :
  type bb =
    if populated (json bb) "bottom_outer_diameter" then Ok tubular_section
    else if populated (json bb) "mass" then Ok lumped_mass
    else if populated (json bb) "mass_distribution" then Ok distributed_mass
    else Raise (ValueError "Could not find supported building block type.").
Proof. reflexivity. Qed.

(** C1.  [BuildingBlock.type] is total and deterministic.  When at least
    one of bottom_outer_diameter, mass, mass_distribution is present, it
    returns one kind, and only that one: tubular_section when
    bottom_outer_diameter is present; otherwise lumped_mass when mass is
    present; otherwise distributed_mass.  When none of the three is
    present it raises the classification error. *)
Theorem type_total_and_prioritised (bb : BuildingBlock) :
  let bod := present (json bb) "bottom_outer_diameter" in
  let mass := present (json bb) "mass" in
  let md := present (json bb) "mass_distribution" in
  (bod \/ mass \/ md ->
     exists t, type bb = Ok t /\
       (forall t', type bb = Ok t' -> t' = t) /\
       (bod -> t = tubular_section) /\
       (~ bod -> mass -> t = lumped_mass) /\
       (~ bod -> ~ mass -> t = distributed_mass)) /\
  (~ bod -> ~ mass -> ~ md ->
     type bb = Raise (ValueError "Could not find supported building block type.")).
Proof.
  intros bod mass md. subst bod mass md.
  rewrite type_unfold.
  destruct (populated (json bb) "bottom_outer_diameter") eqn:Eb;
    [apply populated_present in Eb | apply populated_absent in Eb].
  - split; [| tauto].
    intros _. exists tubular_section. repeat split; try tauto. congruence.
  - destruct (populated (json bb) "mass") eqn:Em;
      [apply populated_present in Em | apply populated_absent in Em].
    + split; [| tauto].
      intros _. exists lumped_mass. repeat split; try tauto. congruence.
    + destruct (populated (json bb) "mass_distribution") eqn:Ed;
        [apply populated_present in Ed | apply populated_absent in Ed].
      * split; [| tauto].
        intros _. exists distributed_mass. repeat split; try tauto. congruence.
      * split; [tauto | reflexivity].
Qed.

Lemma type_total_and_prioritised_witness :
  present (json lumped_bb) "mass" /\
  exists t, type lumped_bb = Ok t /\ t = lumped_mass.
Proof.
  assert (present (json lumped_bb) "mass") as Hm.
  { exists (Fin 100). split; [reflexivity | discriminate]. }
  assert (~ present (json lumped_bb) "bottom_outer_diameter") as Hb.
  { intros (f & H & Hn). vm_compute in H. injection H as <-. congruence. }
  split; [exact Hm|].
  destruct (type_total_and_prioritised lumped_bb) as [H _].
  destruct (H (or_intror (or_introl Hm))) as (t & Ht & _ & _ & Hl & _).
  exists t. split; [exact Ht | exact (Hl Hb Hm)].
Defined.

(** A tubular section has a number under bottom_outer_diameter. *)
Lemma type_tubular_inv (bb : BuildingBlock) :
  type bb = Ok tubular_section ->
  exists bod, json bb !! "bottom_outer_diameter" = Some (PyFloat bod) /\ bod <> NaN.
Proof.
  rewrite type_unfold.
  destruct (populated (json bb) "bottom_outer_diameter") eqn:Eb.
  - intros _. apply populated_present in Eb. exact Eb.
  - destruct (populated (json bb) "mass");
      [discriminate | destruct (populated (json bb) "mass_distribution"); discriminate].
Qed.

(** The tubular branch of [volume] on a record with its four numbers. *)
Lemma volume_tubular (bb : BuildingBlock) (bod tod wt h : float64) :
  type bb = Ok tubular_section ->
  json bb !! "bottom_outer_diameter" = Some (PyFloat bod) ->
  json bb !! "top_outer_diameter" = Some (PyFloat tod) ->
  json bb !! "wall_thickness" = Some (PyFloat wt) ->
  json bb !! "height" = Some (PyFloat h) ->
  ftruthy h = true ->
  cone_volumes bb =
    Ok (frustum_volume h (fdiv bod (Fin 2)) (fdiv tod (Fin 2)),
        frustum_volume h (fsub (fdiv bod (Fin 2)) wt) (fsub (fdiv tod (Fin 2)) wt)) /\
  volume bb = Ok (Some (tubular_volume bod tod wt h)).
Proof.
  intros Ht Hb Htop Hw Hh Htr.
  assert (cone_volumes bb =
    Ok (frustum_volume h (fdiv bod (Fin 2)) (fdiv tod (Fin 2)),
        frustum_volume h (fsub (fdiv bod (Fin 2)) wt) (fsub (fdiv tod (Fin 2)) wt)))
    as Hc.
  { unfold cone_volumes, getitem. rewrite Hb, Htop, Hw, Hh. reflexivity. }
  split; [exact Hc|].
  unfold volume. rewrite Ht. simpl. unfold height. rewrite Hh. simpl. rewrite Htr.
  rewrite Hc. reflexivity.
Qed.

Lemma height_falsy (bb : BuildingBlock) :
  height_missing_or_zero bb <-> truthy (height bb) = false.
Proof.
  unfold height_missing_or_zero, height.
  destruct (json bb !! "height") as [[|[q| | |]]|] eqn:E; simpl.
  - split; [reflexivity | intros _; right; left; reflexivity].
  - split.
    + intros [H|[H|(q' & H & Hq)]]; try discriminate.
      injection H as <-. apply Qeq_eq_bool in Hq. rewrite Hq. reflexivity.
    + intros H. right; right. exists q. split; [reflexivity|].
      apply Qeq_bool_eq. destruct (Qeq_bool q 0); [reflexivity | discriminate].
  - split; [intros [H|[H|(q' & H & _)]]; discriminate | discriminate].
  - split; [intros [H|[H|(q' & H & _)]]; discriminate | discriminate].
  - split; [intros [H|[H|(q' & H & _)]]; discriminate | discriminate].
  - split; [reflexivity | intros _; left; reflexivity].
Qed.

(** On finite numbers the specification's volume is the rational
    expression one expects. *)
Lemma tubular_volume_finite (bod tod wt h : Q) :
  exists v, tubular_volume (Fin bod) (Fin tod) (Fin wt) (Fin h) = Fin v /\
    v == (frustumQ h (bod / 2) (tod / 2)
          - frustumQ h (bod / 2 - wt) (tod / 2 - wt)) / 1e9.
Proof.
  eexists. split; [reflexivity|]. unfold frustumQ. field. discriminate.
Qed.

(** Whatever [cone_volumes] raises, it is not the height-missing error. *)
Lemma cone_volumes_other_error (bb : BuildingBlock) (e : exn) :
  cone_volumes bb = Raise e -> e <> height_missing.
Proof.
  unfold cone_volumes, getitem, height_missing.
  destruct (json bb !! "bottom_outer_diameter") as [[|bod]|]; simpl;
    try (intros [= <-]; discriminate).
  destruct (json bb !! "wall_thickness") as [[|wt]|]; simpl;
    try (intros [= <-]; discriminate).
  destruct (json bb !! "top_outer_diameter") as [[|tod]|]; simpl;
    try (intros [= <-]; discriminate).
  destruct (json bb !! "height") as [[|h]|]; simpl;
    intros [= <-]; discriminate.
Qed.

(** C4, as stated, fails: a record with a negative height is a tubular
    section whose height is not > 0, and [volume] returns a value for it
    instead of raising. *)
Lemma volume_negative_height_counterexample :
  ~ (forall bb : BuildingBlock,
       type bb = Ok tubular_section ->
       gt_zero (json bb) "height" = false ->
       volume bb = Raise height_missing).
Proof.
  intros H.
  assert (type upside_down_bb = Ok tubular_section) as Ht by (vm_compute; reflexivity).
  assert (gt_zero (json upside_down_bb) "height" = false) as Hh
    by (vm_compute; reflexivity).
  specialize (H upside_down_bb Ht Hh). vm_compute in H. discriminate.
Qed.

(** C4, amended.  For a building block of type tubular_section whose
    diameters, wall thickness and height are numbers, [volume] is the
    outer frustum volume minus the inner one, divided by 1e9, for every
    height that is not zero (a negative or NaN height included); it
    raises the height-missing error exactly when the height is absent,
    [None] or zero. *)
Theorem volume_tubular_section (bb : BuildingBlock) :
  type bb = Ok tubular_section ->
  (forall bod tod wt h : float64,
      json bb !! "bottom_outer_diameter" = Some (PyFloat bod) ->
      json bb !! "top_outer_diameter" = Some (PyFloat tod) ->
      json bb !! "wall_thickness" = Some (PyFloat wt) ->
      json bb !! "height" = Some (PyFloat h) ->
      ~ height_missing_or_zero bb ->
      volume bb = Ok (Some (tubular_volume bod tod wt h))) /\
  (height_missing_or_zero bb <-> volume bb = Raise height_missing).
Proof.
  intros Ht. split.
  - intros bod tod wt h Hb Htop Hw Hh Hnz.
    apply (volume_tubular bb bod tod wt h); try assumption.
    rewrite height_falsy in Hnz. unfold height in Hnz. rewrite Hh in Hnz.
    simpl in Hnz. destruct (ftruthy h); congruence.
  - rewrite height_falsy. unfold volume. rewrite Ht. simpl.
    destruct (truthy (height bb)).
    + split; [discriminate|].
      destruct (cone_volumes bb) as [[vo vi]|e] eqn:Ec; simpl; [discriminate|].
      intros [= He]. exfalso. exact (cone_volumes_other_error bb e Ec He).
    + split; reflexivity.
Qed.

Lemma volume_tubular_section_witness :
  type can_bb = Ok tubular_section /\
  ~ height_missing_or_zero can_bb /\
  volume can_bb = Ok (Some (tubular_volume (Fin 6000) (Fin 6000) (Fin 10) (Fin 10000))).
Proof.
  assert (type can_bb = Ok tubular_section) as Ht by (vm_compute; reflexivity).
  assert (~ height_missing_or_zero can_bb) as Hnz.
  { intros [H|[H|(q & H & Hq)]]; vm_compute in H; try discriminate.
    injection H as <-. discriminate Hq. }
  split; [exact Ht|]. split; [exact Hnz|].
  destruct (volume_tubular_section can_bb Ht) as [H _].
  apply H; try exact Hnz; vm_compute; reflexivity.
Defined.

Lemma Qeq_bool_pos (q : Q) : 0 < q -> Qeq_bool q 0 = false.
Proof.
  intros Hq. destruct (Qeq_bool q 0) eqn:E; [|reflexivity].
  apply Qeq_bool_eq in E. rewrite E in Hq. discriminate Hq.
Qed.


(** A height stored as NaN passes the guard of [volume] as well: the
    result is NaN, not the height-missing error. *)
Lemma volume_nan_height :
  type nan_height_bb = Ok tubular_section /\
  volume nan_height_bb = Ok (Some NaN).
Proof. split; vm_compute; reflexivity. Qed.

End StructuresProps.

(* ===================================================================== *)
(** ** Running a method step by step *)
(* ===================================================================== *)

Module MethodProps.
Section Steps.
Context {S : Type}.
Implicit Types s : S.

Lemma outcome_eta {A} (o : outcome S A) : Outcome (res o) (st o) (log o) = o.
Proof. destruct o; reflexivity. Qed.

Lemma bind_ret {A B} (a : A) (k : A -> M S B) s :
  Method.bind (Method.ret a) k s = k a s.
Proof. unfold Method.bind, Method.ret. simpl. apply outcome_eta. Qed.

Lemma bind_modify {B} (f : S -> S) (k : unit -> M S B) s :
  Method.bind (Method.modify f) k s = k tt (f s).
Proof. unfold Method.bind, Method.modify. simpl. apply outcome_eta. Qed.

Lemma bind_get {B} (k : S -> M S B) s :
  Method.bind Method.get k s = k s s.
Proof. unfold Method.bind, Method.get. simpl. apply outcome_eta. Qed.

Lemma bind_lift_ok {A B} (a : A) (k : A -> M S B) s :
  Method.bind (Method.lift (Ok a)) k s = k a s.
Proof. unfold Method.bind, Method.lift. simpl. apply outcome_eta. Qed.

Lemma bind_lift_raise {A B} (e : exn) (k : A -> M S B) s :
  Method.bind (Method.lift (Raise e)) k s = Outcome (Raise e) s [].
Proof. reflexivity. Qed.

Lemma bind_raise {A B} (e : exn) (k : A -> M S B) s :
  Method.bind (Method.raise e) k s = Outcome (Raise e) s [].
Proof. reflexivity. Qed.

Lemma bind_assoc {A B C} (m : M S A) (f : A -> M S B) (g : B -> M S C) s :
  Method.bind (Method.bind m f) g s
  = Method.bind m (fun a => Method.bind (f a) g) s.
Proof.
  unfold Method.bind. destruct (m s) as [[a|e] s1 l1]; simpl; [|reflexivity].
  destruct (f a s1) as [[b|e] s2 l2]; simpl; [|reflexivity].
  destruct (g b s2) as [r s3 l3]; simpl. rewrite app_assoc. reflexivity.
Qed.

(** A step that returns without warning can be run first. *)
Lemma bind_quiet {A B} (m : M S A) (k : A -> M S B) s (a : A) s' :
  m s = Outcome (Ok a) s' [] -> Method.bind m k s = k a s'.
Proof. intros E. unfold Method.bind. rewrite E. simpl. apply outcome_eta. Qed.

Lemma bind_fails {A B} (m : M S A) (k : A -> M S B) s (e : exn) s' l :
  m s = Outcome (Raise e) s' l -> Method.bind m k s = Outcome (Raise e) s' l.
Proof. intros E. unfold Method.bind. rewrite E. reflexivity. Qed.
End Steps.
End MethodProps.

(* ===================================================================== *)
(** ** Properties of the cans *)
(* ===================================================================== *)

Module CanProps.
Import Spec Examples.
Import OWT.

Lemma fdiv_finite (a b : Q) : ~ b == 0 -> fdiv (Fin a) (Fin b) = Fin (a / b).
Proof.
  intros Hb. simpl. destruct (Qeq_bool b 0) eqn:E; [|reflexivity].
  apply Qeq_bool_eq in E. contradiction.
Qed.

Lemma feqb_finite (a b : Q) : a == b -> feqb (Fin a) (Fin b) = true.
Proof. intros H. simpl. apply Qeq_eq_bool. exact H. Qed.

(** What [can_adjust_properties] returns, field by field. *)
Lemma cp_mass_eq (row : Can) :
  cp_mass (can_adjust_properties row)
  = fmul (cp_volume (can_adjust_properties row)) (fdiv (mass_t row) (volume_m3 row)).
Proof. reflexivity. Qed.

Lemma cp_rho_eq (row : Can) :
  cp_rho (can_adjust_properties row)
  = fdiv (cp_mass (can_adjust_properties row)) (cp_height (can_adjust_properties row)).
Proof. reflexivity. Qed.

Lemma cp_height_eq (row : Can) :
  cp_height (can_adjust_properties row) = fsub (elevation_from row) (elevation_to row).
Proof. reflexivity. Qed.

Lemma last_map {A B} (g : A -> B) (l : list A) (x : A) :
  List.last (List.map g l) (g x) = g (List.last l x).
Proof.
  revert x. induction l as [|y l IH]; intros x; [reflexivity|].
  destruct l as [|z l]; [reflexivity|]. exact (IH x).
Qed.

(** The row at the boundary carries the label the assignment targets. *)
Lemma at_position_loc_set {R} (ind : position) (df : frame R) (l : string) (r : R)
    (f : R -> R) :
  at_position ind df = Ok (l, r) ->
  at_position ind (loc_set l f df) = Ok (l, f r).
Proof.
  destruct df as [|[l0 r0] rest]; [destruct ind; discriminate|].
  destruct ind; simpl.
  - intros [= -> ->]. rewrite String.eqb_refl. reflexivity.
  - intros [= H]. unfold loc_set.
    set (g := fun lr : string * R =>
                if String.eqb (fst lr) l then (fst lr, f (snd lr)) else lr).
    change (Ok (List.last (List.map g rest) (g (l0, r0))) = Ok (l, f r)).
    rewrite last_map, H. unfold g. simpl. rewrite String.eqb_refl. reflexivity.
Qed.

(** The boundary row of the frame [can_modification] returns: the
    elevation and the diameter of the cut side are set, then the
    properties are recomputed from the row so obtained. *)
Lemma can_modification_boundary `{Numpy} (df df' : frame Can)
    (altitude : option float64) (position l : string) (r : Can) :
  can_modification df altitude position = Ok df' ->
  at_position (boundary position) df = Ok (l, r) ->
  exists r2,
    at_position (boundary position) df' = Ok (l, set_properties (can_adjust_properties r2) r2) /\
    mass_t r2 = mass_t r /\ volume_m3 r2 = volume_m3 r /\
    wall_thickness_mm r2 = wall_thickness_mm r /\
    (String.eqb position "bottom" = true ->
       elevation_to r2 = float_or_nan altitude /\ elevation_from r2 = elevation_from r) /\
    (String.eqb position "bottom" = false ->
       elevation_from r2 = float_or_nan altitude /\ elevation_to r2 = elevation_to r).
Proof.
  unfold can_modification, boundary.
  destruct (String.eqb position "bottom") eqn:Epos; intros Hrun Hat;
    rewrite Hat in Hrun; cbn [mbind result_bind] in Hrun;
    match type of Hrun with
    | context [loc_set l (set_elevation ?b ?a) df] =>
        pose proof (at_position_loc_set _ df l r (set_elevation b a) Hat) as H1
    end;
    rewrite H1 in Hrun; cbn [mbind result_bind] in Hrun;
    match type of Hrun with
    | context [loc_set l (set_diameter ?b ?d) ?df1] =>
        pose proof (at_position_loc_set _ df1 l _ (set_diameter b d) H1) as H2
    end;
    rewrite H2 in Hrun; cbn [mbind result_bind] in Hrun;
    injection Hrun as <-;
    match type of H2 with
    | _ = Ok (_, ?r2) =>
        exists r2; split;
          [ exact (at_position_loc_set _ _ l r2
                     (set_properties (can_adjust_properties r2)) H2)
          | repeat split; try reflexivity; intros; discriminate ]
    end.
Qed.

(** C3, as stated, fails: a can without wall has a non-zero stored
    volume and a non-zero recomputed height, its recomputed volume and
    mass are both zero, and zero divided by zero is NaN, which equals
    nothing. *)
Lemma hollow_can_counterexample :
  ~ (forall row : Can,
       let p := can_adjust_properties row in
       fneb (volume_m3 row) (Fin 0) = true ->
       fneb (cp_height p) (Fin 0) = true ->
       feqb (fdiv (cp_mass p) (cp_volume p)) (fdiv (mass_t row) (volume_m3 row)) = true /\
       feqb (cp_rho p) (fdiv (cp_mass p) (cp_height p)) = true).
Proof.
  intros H.
  destruct (H hollow_can) as [Hd _]; try (vm_compute; reflexivity).
  vm_compute in Hd. discriminate.
Qed.

End CanProps.

(* ===================================================================== *)
(** ** Properties of the rounding *)
(* ===================================================================== *)

Module Binary64Props.
Import Binary64.

(** *** Powers of two *)

Lemma pow2_pos (k : Z) : 0 < pow2 k.
Proof. apply Qpower_0_lt. reflexivity. Qed.

Lemma pow2_plus (a b : Z) : pow2 (a + b) == pow2 a * pow2 b.
Proof. apply Qpower_plus. discriminate. Qed.

Lemma pow2_le (a b : Z) : (a <= b)%Z -> pow2 a <= pow2 b.
Proof. intros H. apply Qpower_le_compat_l; [exact H | discriminate]. Qed.

Lemma pow2_lt (a b : Z) : (a < b)%Z -> pow2 a < pow2 b.
Proof. intros H. apply Qpower_lt_compat_l; [exact H | reflexivity]. Qed.

Lemma pow2_lt_inv (a b : Z) : pow2 a < pow2 b -> (a < b)%Z.
Proof. intros H. apply (Qpower_lt_compat_l_inv 2); [exact H | reflexivity]. Qed.

Lemma pow2_inject (n : Z) : (0 <= n)%Z -> pow2 n == inject_Z (2 ^ n).
Proof. intros H. unfold pow2. rewrite Zpower_Qpower by exact H. reflexivity. Qed.

Lemma pow2_succ (k : Z) : pow2 (k + 1) == 2 * pow2 k.
Proof. rewrite pow2_plus. change (pow2 1) with 2. ring. Qed.

(** *** Rounding to an integer *)

Lemma round_half_even_near (x : Q) :
  x - (1 # 2) <= inject_Z (round_half_even x) <= x + (1 # 2).
Proof.
  unfold round_half_even.
  pose proof (Qfloor_le x) as Hlo. pose proof (Qlt_floor x) as Hhi.
  set (f := Qfloor x) in *.
  rewrite inject_Z_plus in Hhi. change (inject_Z 1) with 1 in Hhi.
  destruct (Qeq_bool (x - inject_Z f) (1 # 2)) eqn:E.
  - apply Qeq_bool_eq in E.
    destruct (Z.even f); [|rewrite inject_Z_plus; change (inject_Z 1) with 1]; lra.
  - destruct (Qle_bool (x - inject_Z f) (1 # 2)) eqn:L.
    + apply Qle_bool_iff in L. lra.
    + assert (~ x - inject_Z f <= 1 # 2) as L'.
      { intros H. apply Qle_bool_iff in H. congruence. }
      rewrite inject_Z_plus. change (inject_Z 1) with 1. lra.
Qed.

Lemma round_half_even_eq (p q : Q) : p == q -> round_half_even p = round_half_even q.
Proof.
  intros H. unfold round_half_even.
  rewrite (Qfloor_comp _ _ H).
  set (f := Qfloor q).
  assert (p - inject_Z f == q - inject_Z f) as Hr by (rewrite H; reflexivity).
  assert (Qeq_bool (p - inject_Z f) (1 # 2) = Qeq_bool (q - inject_Z f) (1 # 2)) as E1.
  { destruct (Qeq_bool (q - inject_Z f) (1 # 2)) eqn:E.
    - apply Qeq_bool_iff in E. apply Qeq_bool_iff. rewrite Hr. exact E.
    - destruct (Qeq_bool (p - inject_Z f) (1 # 2)) eqn:E'; [|reflexivity].
      apply Qeq_bool_iff in E'. rewrite Hr in E'. apply Qeq_bool_iff in E'. congruence. }
  assert (Qle_bool (p - inject_Z f) (1 # 2) = Qle_bool (q - inject_Z f) (1 # 2)) as E2.
  { destruct (Qle_bool (q - inject_Z f) (1 # 2)) eqn:E.
    - apply Qle_bool_iff in E. apply Qle_bool_iff. rewrite Hr. exact E.
    - destruct (Qle_bool (p - inject_Z f) (1 # 2)) eqn:E'; [|reflexivity].
      apply Qle_bool_iff in E'. rewrite Hr in E'. apply Qle_bool_iff in E'. congruence. }
  rewrite E1, E2. reflexivity.
Qed.

Lemma round_half_even_mono (x y : Q) :
  x <= y -> (round_half_even x <= round_half_even y)%Z.
Proof.
  intros Hxy.
  destruct (Z_le_gt_dec (round_half_even x) (round_half_even y)) as [H|H]; [exact H|].
  exfalso.
  pose proof (round_half_even_near x) as [_ Hx].
  pose proof (round_half_even_near y) as [Hy _].
  assert (inject_Z (round_half_even y) + 1 <= inject_Z (round_half_even x)) as Hgap.
  { change 1 with (inject_Z 1). rewrite <- inject_Z_plus. rewrite <- Zle_Qle. lia. }
  assert (x == y) as E by lra.
  rewrite (round_half_even_eq x y E) in H. lia.
Qed.

Lemma round_half_even_int (n : Z) : round_half_even (inject_Z n) = n.
Proof.
  pose proof (round_half_even_near (inject_Z n)) as [Hlo Hhi].
  set (m := round_half_even (inject_Z n)) in *.
  destruct (Z.eq_dec m n) as [E|Hne]; [exact E|exfalso].
  destruct (Z_lt_le_dec m n) as [Hlt|Hge].
  - assert (inject_Z m + 1 <= inject_Z n).
    { change 1 with (inject_Z 1). rewrite <- inject_Z_plus. rewrite <- Zle_Qle. lia. }
    lra.
  - assert (inject_Z n + 1 <= inject_Z m).
    { change 1 with (inject_Z 1). rewrite <- inject_Z_plus. rewrite <- Zle_Qle. lia. }
    lra.
Qed.

(** *** The exponent *)

Lemma Qmake_split (n : Z) (d : positive) : n # d == inject_Z n / inject_Z (Z.pos d).
Proof. rewrite Qmake_Qdiv. reflexivity. Qed.

Lemma ilog2_spec (a : Q) :
  0 < a -> pow2 (ilog2 a) <= a /\ a < pow2 (ilog2 a + 1).
Proof.
  intros Ha. destruct a as [n d].
  assert (0 < n)%Z as Hn.
  { unfold Qlt in Ha. simpl in Ha. lia. }
  pose proof (Z.log2_spec n Hn) as [Hn1 Hn2].
  pose proof (Z.log2_spec (Z.pos d) (Pos2Z.is_pos d)) as [Hd1 Hd2].
  pose proof (Z.log2_nonneg n) as Hln. pose proof (Z.log2_nonneg (Z.pos d)) as Hld.
  set (ln := Z.log2 n) in *. set (ld := Z.log2 (Z.pos d)) in *.
  assert (pow2 ln <= inject_Z n) as Qn1.
  { rewrite pow2_inject by exact Hln. rewrite <- Zle_Qle. exact Hn1. }
  assert (inject_Z n < pow2 (ln + 1)) as Qn2.
  { rewrite pow2_inject by lia. rewrite <- Zlt_Qlt. unfold Z.succ in Hn2. exact Hn2. }
  assert (pow2 ld <= inject_Z (Z.pos d)) as Qd1.
  { rewrite pow2_inject by exact Hld. rewrite <- Zle_Qle. exact Hd1. }
  assert (inject_Z (Z.pos d) < pow2 (ld + 1)) as Qd2.
  { rewrite pow2_inject by lia. rewrite <- Zlt_Qlt. unfold Z.succ in Hd2. exact Hd2. }
  assert (0 < inject_Z (Z.pos d)) as Qd0.
  { change 0 with (inject_Z 0). rewrite <- Zlt_Qlt. lia. }
  assert ((n # d) * inject_Z (Z.pos d) == inject_Z n) as Ea.
  { rewrite Qmake_split. field. lra. }
  set (a := n # d) in *. set (D := inject_Z (Z.pos d)) in *. set (N := inject_Z n) in *.
  assert (forall k : Z, pow2 k * pow2 ld == pow2 (k + ld)) as Hk
    by (intros k; rewrite pow2_plus; reflexivity).
  pose proof (pow2_pos ld) as Pld.
  (* upper bound at ln - ld + 1, lower bound at ln - ld - 1 *)
  assert (a < pow2 (ln - ld + 1)) as Hup.
  { pose proof (Hk (ln - ld + 1)%Z) as E.
    replace (ln - ld + 1 + ld)%Z with (ln + 1)%Z in E by lia.
    pose proof (pow2_pos (ln - ld + 1)) as Pk.
    apply Qnot_le_lt. intros Hc.
    assert (pow2 (ln - ld + 1) * pow2 ld <= a * D) by nra.
    lra. }
  assert (pow2 (ln - ld - 1) <= a) as Hlow.
  { pose proof (pow2_plus (ln - ld - 1) (ld + 1)) as E.
    replace (ln - ld - 1 + (ld + 1))%Z with ln in E by lia.
    pose proof (pow2_pos (ln - ld - 1)) as Pk.
    apply Qnot_lt_le. intros Hc.
    assert (a * D < pow2 (ln - ld - 1) * pow2 (ld + 1)) by nra.
    lra. }
  assert (ilog2 a = if Qle_bool (pow2 (ln - ld)) a then (ln - ld)%Z else (ln - ld - 1)%Z)
    as Ei by reflexivity.
  rewrite Ei.
  destruct (Qle_bool (pow2 (ln - ld)) a) eqn:E.
  - apply Qle_bool_iff in E. split; [exact E | exact Hup].
  - assert (a < pow2 (ln - ld)) as Hlt.
    { apply Qnot_le_lt. intros Hc. apply Qle_bool_iff in Hc. congruence. }
    split; [exact Hlow|]. replace (ln - ld - 1 + 1)%Z with (ln - ld)%Z by lia. exact Hlt.
Qed.

Lemma ilog2_le (a : Q) (k : Z) : 0 < a -> pow2 k <= a -> (k <= ilog2 a)%Z.
Proof.
  intros Ha Hk. destruct (ilog2_spec a Ha) as [_ Hup].
  assert (pow2 k < pow2 (ilog2 a + 1)) as H by lra.
  apply pow2_lt_inv in H. lia.
Qed.

Lemma ilog2_lt (a : Q) (k : Z) : 0 < a -> a < pow2 k -> (ilog2 a < k)%Z.
Proof.
  intros Ha Hk. destruct (ilog2_spec a Ha) as [Hlo _].
  apply pow2_lt_inv. lra.
Qed.

Lemma ilog2_mono (a b : Q) : 0 < a -> a <= b -> (ilog2 a <= ilog2 b)%Z.
Proof.
  intros Ha Hab. apply ilog2_le; [lra|].
  destruct (ilog2_spec a Ha) as [Hlo _]. lra.
Qed.

Lemma exponent_mono (a b : Q) : 0 < a -> a <= b -> (exponent a <= exponent b)%Z.
Proof.
  intros Ha Hab. unfold exponent. pose proof (ilog2_mono a b Ha Hab). lia.
Qed.

(** Below the last bit of the next binade. *)
Lemma exponent_upper (a : Q) : 0 < a -> a < pow2 (exponent a + 53).
Proof.
  intros Ha. destruct (ilog2_spec a Ha) as [_ Hup].
  assert (pow2 (ilog2 a + 1) <= pow2 (exponent a + 53)) as H
    by (apply pow2_le; unfold exponent; lia).
  lra.
Qed.

(** Normal numbers have all their 53 bits. *)
Lemma exponent_lower (a : Q) :
  0 < a -> (-1074 < exponent a)%Z -> pow2 (exponent a + 52) <= a.
Proof.
  intros Ha He. destruct (ilog2_spec a Ha) as [Hlo _].
  replace (exponent a + 52)%Z with (ilog2 a) by (unfold exponent in *; lia).
  exact Hlo.
Qed.

Lemma exponent_normal (a : Q) :
  pow2 (-1022) <= a -> exponent a = (ilog2 a - 52)%Z.
Proof.
  intros Ha. pose proof (pow2_pos (-1022)) as P.
  pose proof (ilog2_le a (-1022) ltac:(lra) Ha). unfold exponent. lia.
Qed.

(** *** Rounding a positive rational *)

Lemma scaled_le (x y : Q) (e : Z) : x <= y -> x / pow2 e <= y / pow2 e.
Proof.
  intros H. pose proof (pow2_pos e) as P.
  apply Qle_shift_div_l; [exact P|].
  assert (x / pow2 e * pow2 e == x) as E by (field; lra).
  rewrite E. exact H.
Qed.

Lemma scaled_below (a : Q) (e k : Z) : a <= pow2 (e + k) -> a / pow2 e <= pow2 k.
Proof.
  intros H. pose proof (pow2_pos e) as P.
  apply Qle_shift_div_r; [exact P|]. rewrite pow2_plus in H. lra.
Qed.

Lemma scaled_above (a : Q) (e k : Z) : pow2 (e + k) <= a -> pow2 k <= a / pow2 e.
Proof.
  intros H. pose proof (pow2_pos e) as P.
  apply Qle_shift_div_l; [exact P|]. rewrite pow2_plus in H. lra.
Qed.

Lemma round_half_even_pow2_above (x : Q) (k : Z) :
  (0 <= k)%Z -> pow2 k <= x -> pow2 k <= inject_Z (round_half_even x).
Proof.
  intros Hk H. rewrite pow2_inject in H |- * by exact Hk.
  rewrite <- Zle_Qle. rewrite <- (round_half_even_int (2 ^ k)) at 1.
  apply round_half_even_mono. exact H.
Qed.

Lemma round_half_even_pow2_below (x : Q) (k : Z) :
  (0 <= k)%Z -> x <= pow2 k -> inject_Z (round_half_even x) <= pow2 k.
Proof.
  intros Hk H. rewrite pow2_inject in H |- * by exact Hk.
  rewrite <- Zle_Qle. rewrite <- (round_half_even_int (2 ^ k)) at 1.
  apply round_half_even_mono. exact H.
Qed.

Lemma round_abs_unfold (a : Q) :
  round_abs a = inject_Z (round_half_even (a / pow2 (exponent a))) * pow2 (exponent a).
Proof. reflexivity. Qed.

Lemma round_abs_nonneg (a : Q) : 0 < a -> 0 <= round_abs a.
Proof.
  intros Ha. rewrite round_abs_unfold. pose proof (pow2_pos (exponent a)) as P.
  assert (0 <= inject_Z (round_half_even (a / pow2 (exponent a)))) as H.
  { change 0 with (inject_Z 0). rewrite <- Zle_Qle.
    rewrite <- (round_half_even_int 0). apply round_half_even_mono.
    change (inject_Z 0) with 0. apply Qle_shift_div_l; [exact P | lra]. }
  nra.
Qed.

(** The result stays in the binade of the argument, ends included. *)
Lemma round_abs_below (a : Q) : 0 < a -> round_abs a <= pow2 (exponent a + 53).
Proof.
  intros Ha. rewrite round_abs_unfold. pose proof (pow2_pos (exponent a)) as P.
  pose proof (exponent_upper a Ha) as Hup.
  assert (inject_Z (round_half_even (a / pow2 (exponent a))) <= pow2 53) as H.
  { apply round_half_even_pow2_below; [lia|]. apply scaled_below. lra. }
  rewrite pow2_plus. nra.
Qed.

Lemma round_abs_above (a : Q) :
  0 < a -> (-1074 < exponent a)%Z -> pow2 (exponent a + 52) <= round_abs a.
Proof.
  intros Ha He. rewrite round_abs_unfold. pose proof (pow2_pos (exponent a)) as P.
  pose proof (exponent_lower a Ha He) as Hlo.
  assert (pow2 52 <= inject_Z (round_half_even (a / pow2 (exponent a)))) as H.
  { apply round_half_even_pow2_above; [lia|]. apply scaled_above. exact Hlo. }
  rewrite pow2_plus. nra.
Qed.

(** Rounding keeps the order. *)
Lemma round_abs_mono (a b : Q) : 0 < a -> a <= b -> round_abs a <= round_abs b.
Proof.
  intros Ha Hab. assert (0 < b) as Hb by lra.
  pose proof (exponent_mono a b Ha Hab) as He.
  destruct (Z.eq_dec (exponent a) (exponent b)) as [E|Hne].
  - rewrite !round_abs_unfold, E. pose proof (pow2_pos (exponent b)) as P.
    assert (inject_Z (round_half_even (a / pow2 (exponent b)))
            <= inject_Z (round_half_even (b / pow2 (exponent b)))) as H.
    { rewrite <- Zle_Qle. apply round_half_even_mono. apply scaled_le. exact Hab. }
    nra.
  - pose proof (round_abs_below a Ha) as H1.
    pose proof (round_abs_above b Hb) as H2.
    assert (-1074 <= exponent a)%Z as Hmin by (unfold exponent; lia).
    specialize (H2 ltac:(lia)).
    assert (pow2 (exponent a + 53) <= pow2 (exponent b + 52)) as H3
      by (apply pow2_le; lia).
    lra.
Qed.

(** Rounding is accurate to half a unit in the last place: a relative
    error of at most [2 ^ -53] on the normal numbers. *)
Lemma round_abs_accurate (a : Q) :
  pow2 (-1022) <= a -> Qabs (round_abs a - a) <= pow2 (-53) * a.
Proof.
  intros Hn. pose proof (pow2_pos (-1022)) as P0. assert (0 < a) as Ha by lra.
  pose proof (exponent_normal a Hn) as Ee.
  destruct (ilog2_spec a Ha) as [Hlo _].
  set (e := exponent a) in *. pose proof (pow2_pos e) as P.
  assert (pow2 (e + 52) <= a) as Hbig.
  { replace (e + 52)%Z with (ilog2 a) by lia. exact Hlo. }
  rewrite round_abs_unfold. fold e.
  pose proof (round_half_even_near (a / pow2 e)) as [L U].
  set (m := inject_Z (round_half_even (a / pow2 e))) in *.
  assert (a / pow2 e * pow2 e == a) as Ea by (field; lra).
  assert (pow2 e == pow2 (-53) * (2 * pow2 (e + 52))) as Eu.
  { rewrite <- pow2_succ, <- pow2_plus. replace (-53 + (e + 52 + 1))%Z with e by lia.
    reflexivity. }
  pose proof (pow2_pos (-53)) as Pu. pose proof (pow2_pos (e + 52)) as Pe.
  apply Qabs_Qle_condition. split; nra.
Qed.

(** *** Rounding a float *)

Lemma rnd_finite_inv (x : float64) (q : Q) : rnd x = Fin q -> exists q0, x = Fin q0.
Proof. destruct x as [q0| | |]; try discriminate. intros _. exists q0. reflexivity. Qed.

Lemma rnd_zero (q : Q) : q == 0 -> rnd (Fin q) = Fin 0.
Proof. intros H. unfold rnd. rewrite (Qeq_eq_bool _ _ H). reflexivity. Qed.

(** What [rnd] returns on a positive rational that does not overflow. *)
Lemma rnd_pos_inv (a a' : Q) :
  0 < a -> rnd (Fin a) = Fin a' -> a' = round_abs (Qabs a) /\ round_abs (Qabs a) < pow2 1024.
Proof.
  intros Ha. unfold rnd.
  destruct (Qeq_bool a 0) eqn:E0.
  { apply Qeq_bool_eq in E0. lra. }
  assert (Qle_bool 0 a = true) as E1 by (apply Qle_bool_iff; lra).
  rewrite E1.
  destruct (Qle_bool (pow2 1024) (round_abs (Qabs a))) eqn:E2; [discriminate|].
  intros [= <-]. split; [reflexivity|].
  apply Qnot_le_lt. intros Hc. apply Qle_bool_iff in Hc. congruence.
Qed.

Lemma rnd_pos (a : Q) :
  0 < a -> round_abs (Qabs a) < pow2 1024 -> rnd (Fin a) = Fin (round_abs (Qabs a)).
Proof.
  intros Ha Hr. unfold rnd.
  destruct (Qeq_bool a 0) eqn:E0.
  { apply Qeq_bool_eq in E0. lra. }
  assert (Qle_bool 0 a = true) as E1 by (apply Qle_bool_iff; lra).
  rewrite E1.
  destruct (Qle_bool (pow2 1024) (round_abs (Qabs a))) eqn:E2; [|reflexivity].
  apply Qle_bool_iff in E2. lra.
Qed.

Lemma round_abs_eq (a b : Q) : 0 < a -> a == b -> round_abs a == round_abs b.
Proof.
  intros Ha E. apply Qle_antisym; apply round_abs_mono; lra.
Qed.

Lemma Qabs_of_pos (a : Q) : 0 <= a -> Qabs a == a.
Proof. intros H. apply Qabs_pos. exact H. Qed.

(** Rounding keeps the sign and the order of non-negative numbers, and
    with them finiteness. *)
Lemma rnd_nonneg (a a' : Q) : 0 <= a -> rnd (Fin a) = Fin a' -> 0 <= a'.
Proof.
  intros Ha Hr. destruct (Qlt_le_dec 0 a) as [Hpos|Hz].
  - destruct (rnd_pos_inv a a' Hpos Hr) as [-> _].
    apply round_abs_nonneg. rewrite Qabs_of_pos; lra.
  - rewrite rnd_zero in Hr by lra. injection Hr as <-. lra.
Qed.

Lemma rnd_mono_fin (a b a' : Q) :
  0 <= b -> b <= a -> rnd (Fin a) = Fin a' ->
  exists b', rnd (Fin b) = Fin b' /\ 0 <= b' /\ b' <= a'.
Proof.
  intros Hb Hba Hr.
  destruct (Qlt_le_dec 0 b) as [Hpos|Hz].
  - assert (0 < a) as Ha by lra.
    destruct (rnd_pos_inv a a' Ha Hr) as [-> Hfin].
    assert (0 < Qabs b) as Hb' by (rewrite Qabs_of_pos; lra).
    assert (Qabs b <= Qabs a) as Hab by (rewrite !Qabs_of_pos; lra).
    pose proof (round_abs_mono (Qabs b) (Qabs a) Hb' Hab) as Hm.
    exists (round_abs (Qabs b)). split; [apply rnd_pos; lra|].
    split; [apply round_abs_nonneg; exact Hb' | exact Hm].
  - exists 0. split; [apply rnd_zero; lra|]. split; [lra|].
    exact (rnd_nonneg a a' ltac:(lra) Hr).
Qed.

Lemma rnd_accurate (q q' : Q) :
  no_underflow q -> rnd (Fin q) = Fin q' -> Qabs (q' - q) <= u * Qabs q.
Proof.
  intros [Hz|Hn] Hr.
  - rewrite rnd_zero in Hr by exact Hz. injection Hr as <-.
    rewrite Hz. vm_compute. discriminate.
  - pose proof (pow2_pos (-1022)) as P0.
    unfold rnd in Hr.
    destruct (Qeq_bool q 0) eqn:E0.
    { apply Qeq_bool_eq in E0. rewrite E0 in Hn. vm_compute in Hn. contradiction Hn.
      reflexivity. }
    destruct (Qle_bool (pow2 1024) (round_abs (Qabs q))); [destruct (Qle_bool 0 q); discriminate|].
    pose proof (round_abs_accurate (Qabs q) Hn) as Hacc.
    apply Qabs_Qle_condition in Hacc. destruct Hacc as [L U].
    destruct (Qle_bool 0 q) eqn:E1; injection Hr as <-.
    + apply Qle_bool_iff in E1. pose proof (Qabs_of_pos q E1) as Ea.
      apply Qabs_Qle_condition. unfold u. split; lra.
    + assert (q < 0) as Hneg.
      { apply Qnot_le_lt. intros Hc. apply Qle_bool_iff in Hc. congruence. }
      assert (Qabs q == - q) as Ea by (apply Qabs_neg; lra).
      apply Qabs_Qle_condition. unfold u. split; lra.
Qed.

(** A product rounded and divided again by one of its factors gives the
    other factor back within two roundings. *)
Lemma product_quotient (v d m r : Q) :
  ~ v == 0 ->
  rnd (Fin (v * d)) = Fin m -> rnd (Fin (m / v)) = Fin r ->
  no_underflow (v * d) -> no_underflow (m / v) ->
  Qabs (r - d) <= (2 * u + u * u) * Qabs d.
Proof.
  intros Hv Hm Hr N1 N2.
  pose proof (rnd_accurate _ _ N1 Hm) as A1.
  pose proof (rnd_accurate _ _ N2 Hr) as A2.
  assert (0 < u) as Pu by (apply pow2_pos).
  assert (0 < Qabs v) as Pv.
  { destruct (Qlt_le_dec 0 v) as [H|H].
    - rewrite Qabs_pos by lra. exact H.
    - rewrite Qabs_neg by exact H.
      destruct (Qeq_dec v 0) as [E|E]; [contradiction | lra]. }
  pose proof (Qabs_nonneg d) as Pd.
  rewrite Qabs_Qmult in A1.
  assert (Qabs (m / v - d) <= u * Qabs d) as B1.
  { assert (m / v - d == (m - v * d) * / v) as E by (field; exact Hv).
    rewrite E, Qabs_Qmult, Qabs_Qinv.
    apply Qle_shift_div_r; [exact Pv|]. lra. }
  assert (Qabs (m / v) <= (1 + u) * Qabs d) as B2.
  { assert (m / v == (m / v - d) + d) as E by ring.
    rewrite E. eapply Qle_trans; [apply Qabs_triangle|]. lra. }
  assert (r - d == (r - m / v) + (m / v - d)) as E by ring.
  rewrite E. eapply Qle_trans; [apply Qabs_triangle|]. nra.
Qed.

(** *** Representable numbers *)

Lemma ilog2_unique (a : Q) (k : Z) :
  pow2 k <= a -> a < pow2 (k + 1) -> ilog2 a = k.
Proof.
  intros Hlo Hup. pose proof (pow2_pos k) as P. assert (0 < a) as Ha by lra.
  pose proof (ilog2_le a k Ha Hlo). pose proof (ilog2_lt a (k + 1) Ha Hup). lia.
Qed.

(** A rounded number rounds to itself. *)
Lemma round_abs_fixed (a : Q) :
  0 < a -> round_abs (round_abs a) == round_abs a.
Proof.
  intros Ha.
  pose proof (round_abs_below a Ha) as Hup.
  pose proof (round_abs_nonneg a Ha) as H0.
  assert (-1074 <= exponent a)%Z as Hmin by (unfold exponent; lia).
  set (e := exponent a) in *. pose proof (pow2_pos e) as P.
  assert (round_abs a == inject_Z (round_half_even (a / pow2 e)) * pow2 e) as Ea
    by reflexivity.
  set (m := round_half_even (a / pow2 e)) in *.
  set (a' := round_abs a) in *.
  destruct (Qlt_le_dec 0 a') as [Hpos|Hz].
  - (* the exponent of the rounded number *)
    destruct (Qlt_le_dec a' (pow2 (e + 53))) as [Hlt|Hge].
    + assert (exponent a' = e) as Ee.
      { pose proof (ilog2_lt a' (e + 53) Hpos Hlt) as Hl.
        destruct (Z.eq_dec e (-1074)%Z) as [Esub|Enorm].
        - unfold exponent. lia.
        - pose proof (round_abs_above a Ha ltac:(fold e; lia)) as Hlo. fold e a' in Hlo.
          pose proof (ilog2_le a' (e + 52) Hpos Hlo). unfold exponent. lia. }
      rewrite (round_abs_unfold a'), Ee.
      assert (a' / pow2 e == inject_Z m) as Em by (rewrite Ea; field; lra).
      rewrite (round_half_even_eq _ _ Em), round_half_even_int. rewrite Ea. reflexivity.
    + assert (a' == pow2 (e + 53)) as Etop by lra.
      assert (exponent a' = (e + 1)%Z) as Ee.
      { assert (ilog2 a' = (e + 53)%Z) as El.
        { apply ilog2_unique; [lra|]. rewrite Etop. apply pow2_lt. lia. }
        unfold exponent. lia. }
      rewrite (round_abs_unfold a'), Ee.
      assert (a' / pow2 (e + 1) == inject_Z (2 ^ 52)) as Em.
      { rewrite <- pow2_inject by lia. rewrite Etop.
        replace (e + 53)%Z with (e + 1 + 52)%Z by lia. rewrite pow2_plus.
        pose proof (pow2_pos (e + 1)). field. lra. }
      rewrite (round_half_even_eq _ _ Em), round_half_even_int.
      rewrite Etop, <- (pow2_inject 52) by lia. rewrite <- pow2_plus.
      replace (52 + (e + 1))%Z with (e + 53)%Z by lia. reflexivity.
  - assert (a' == 0) as E0 by lra.
    rewrite (round_abs_unfold a').
    set (p := pow2 (exponent a')). assert (0 < p) as Pp by apply pow2_pos.
    assert (a' / p == inject_Z 0) as Em.
    { change (inject_Z 0) with 0. rewrite E0. field. lra. }
    rewrite (round_half_even_eq _ _ Em), round_half_even_int.
    change (inject_Z 0) with 0. transitivity 0; [ring | symmetry; exact E0].
Qed.

(** Below a float, rounding stays below it. *)
Lemma rnd_below_float (x : float64) (a b : Q) :
  rnd x = Fin a -> 0 <= b -> b <= a ->
  exists b', rnd (Fin b) = Fin b' /\ 0 <= b' /\ b' <= a.
Proof.
  intros Hx Hb Hba.
  destruct (Qlt_le_dec 0 b) as [Hpos|Hz].
  - destruct (rnd_finite_inv x a Hx) as [q ->].
    assert (0 < a) as Ha by lra.
    (* the float [a] is the rounding of a positive rational *)
    assert (0 < q) as Hq.
    { destruct (Qlt_le_dec 0 q) as [H|H]; [exact H|exfalso].
      unfold rnd in Hx. destruct (Qeq_bool q 0) eqn:E0.
      - injection Hx as <-. lra.
      - assert (Qle_bool 0 q = false) as E1.
        { destruct (Qle_bool 0 q) eqn:E; [|reflexivity].
          apply Qle_bool_iff in E. assert (q == 0) as Ez by lra.
          apply Qeq_eq_bool in Ez. congruence. }
        rewrite E1 in Hx.
        destruct (Qle_bool (pow2 1024) (round_abs (Qabs q))); [discriminate|].
        injection Hx as <-.
        assert (0 < Qabs q) as Hp.
        { rewrite Qabs_neg by exact H.
          destruct (Qeq_dec q 0) as [Ez|Ez]; [|lra].
          apply Qeq_eq_bool in Ez. congruence. }
        pose proof (round_abs_nonneg (Qabs q) Hp). lra. }
    destruct (rnd_pos_inv q a Hq Hx) as [Ea Hfin].
    assert (0 < Qabs q) as Hp by (rewrite Qabs_of_pos; lra).
    pose proof (round_abs_fixed (Qabs q) Hp) as Hfix. rewrite <- Ea in Hfix, Hfin.
    assert (0 < Qabs b) as Hb' by (rewrite Qabs_of_pos; lra).
    assert (Qabs b <= a) as Hab by (rewrite Qabs_of_pos; lra).
    pose proof (round_abs_mono (Qabs b) a Hb' Hab) as Hm.
    exists (round_abs (Qabs b)). split; [apply rnd_pos; [exact Hpos | lra]|].
    split; [apply round_abs_nonneg; exact Hb' | lra].
  - exists 0. split; [apply rnd_zero; lra|]. split; lra.
Qed.

End Binary64Props.

(* ===================================================================== *)
(** ** Properties of the rounded operations *)
(* ===================================================================== *)

Module RoundedOps.
Import Binary64 Numeric Binary64Props.

Section Operations.
Variable power2 : float64 -> float64.

Lemma rmul_finite (a b : Q) : mul (binary64 power2) (Fin a) (Fin b) = rnd (Fin (a * b)).
Proof. reflexivity. Qed.

Lemma rdiv_finite (a b : Q) : ~ b == 0 -> div (binary64 power2) (Fin a) (Fin b) = rnd (Fin (a / b)).
Proof.
  intros Hb. change (rnd (fdiv (Fin a) (Fin b)) = rnd (Fin (a / b))).
  rewrite (CanProps.fdiv_finite a b Hb). reflexivity.
Qed.

(** A finite result has finite operands. *)
Lemma rmul_inv (x y : float64) (m : Q) :
  mul (binary64 power2) x y = Fin m -> exists a b, x = Fin a /\ y = Fin b.
Proof.
  intros H. apply rnd_finite_inv in H. destruct H as [q H].
  destruct x as [a| | |], y as [b| | |]; simpl in H; try discriminate;
    try (destruct (Qeq_bool _ 0); [discriminate|]);
    try (destruct (Qle_bool 0 _); discriminate).
  exists a, b. split; reflexivity.
Qed.

Lemma radd_inv (x y : float64) (m : Q) :
  add (binary64 power2) x y = Fin m -> exists a b, x = Fin a /\ y = Fin b.
Proof.
  intros H. apply rnd_finite_inv in H. destruct H as [q H].
  destruct x as [a| | |], y as [b| | |]; simpl in H; try discriminate.
  exists a, b. split; reflexivity.
Qed.

Lemma rdiv_inv (x : float64) (b m : Q) :
  div (binary64 power2) x (Fin b) = Fin m -> exists a, x = Fin a.
Proof.
  intros H. apply rnd_finite_inv in H. destruct H as [q H].
  destruct x as [a| | |]; simpl in H; try discriminate;
    try (destruct (Qle_bool 0 b); discriminate).
  exists a. reflexivity.
Qed.

(** On numbers that are not negative the operations keep the order, and
    with it finiteness. *)
Lemma rmul_le (a b a' b' m : Q) :
  mul (binary64 power2) (Fin a) (Fin b) = Fin m ->
  0 <= a' -> a' <= a -> 0 <= b' -> b' <= b ->
  exists m', mul (binary64 power2) (Fin a') (Fin b') = Fin m' /\ 0 <= m' /\ m' <= m.
Proof.
  intros H Ha Ha' Hb Hb'. change (rnd (Fin (a * b)) = Fin m) in H.
  change (exists m', rnd (Fin (a' * b')) = Fin m' /\ 0 <= m' /\ m' <= m).
  apply (rnd_mono_fin (a * b)); [nra | nra | exact H].
Qed.

Lemma radd_le (a b a' b' m : Q) :
  add (binary64 power2) (Fin a) (Fin b) = Fin m ->
  0 <= a' -> a' <= a -> 0 <= b' -> b' <= b ->
  exists m', add (binary64 power2) (Fin a') (Fin b') = Fin m' /\ 0 <= m' /\ m' <= m.
Proof.
  intros H Ha Ha' Hb Hb'. change (rnd (Fin (a + b)) = Fin m) in H.
  change (exists m', rnd (Fin (a' + b')) = Fin m' /\ 0 <= m' /\ m' <= m).
  apply (rnd_mono_fin (a + b)); [lra | lra | exact H].
Qed.

(** A float minus a smaller float that is not negative. *)
Lemma rsub_below (x : float64) (a b : Q) :
  rnd x = Fin a -> 0 <= b -> b <= a ->
  exists c, sub (binary64 power2) (Fin a) (Fin b) = Fin c /\ 0 <= c /\ c <= a.
Proof.
  intros Hx Hb Hba.
  change (exists c, rnd (Fin (a + - b)) = Fin c /\ 0 <= c /\ c <= a).
  apply (rnd_below_float x); [exact Hx | lra | lra].
Qed.

(** The literals of the two volume formulas. *)
Lemma literals :
  exists p3 ppi p9 : Q,
    lit (binary64 power2) 3 = Fin p3 /\ 0 < p3 /\
    lit (binary64 power2) pi = Fin ppi /\ 0 < ppi /\
    lit (binary64 power2) 1e9 = Fin p9 /\ 1 <= p9.
Proof.
  change (exists p3 ppi p9 : Q,
    rnd (Fin 3) = Fin p3 /\ 0 < p3 /\
    rnd (Fin pi) = Fin ppi /\ 0 < ppi /\
    rnd (Fin 1e9) = Fin p9 /\ 1 <= p9).
  eexists. eexists. eexists.
  split; [vm_compute; reflexivity|]. split; [vm_compute; reflexivity|].
  split; [vm_compute; reflexivity|]. split; [vm_compute; reflexivity|].
  split; [vm_compute; reflexivity|]. vm_compute. discriminate.
Qed.

(** A rounded float is not NaN, so it equals itself. *)
Lemma feqb_rnd (q : Q) : feqb (rnd (Fin q)) (rnd (Fin q)) = true.
Proof.
  unfold rnd. destruct (Qeq_bool q 0); [reflexivity|].
  destruct (Qle_bool (pow2 1024) (round_abs (Qabs q)));
    [destruct (Qle_bool 0 q); reflexivity|].
  apply Qeq_bool_iff. reflexivity.
Qed.

Hypothesis Hsquare : monotone_square power2.

(** The frustum formula grows with its radii. *)
Lemma cone_volume_le (a b a' b' h vo : Q) :
  Numeric._calc_cone_volume (binary64 power2) (Fin a) (Fin b) (Fin h) = Fin vo ->
  0 < h -> 0 <= a' -> a' <= a -> 0 <= b' -> b' <= b ->
  exists vi, Numeric._calc_cone_volume (binary64 power2) (Fin a') (Fin b') (Fin h) = Fin vi /\
             0 <= vi /\ vi <= vo.
Proof.
  intros Hvo Hh Ha Ha' Hb Hb'. unfold Numeric._calc_cone_volume in *.
  destruct literals as (p3 & ppi & p9 & E3 & P3 & Epi & Ppi & _).
  rewrite E3, Epi in Hvo |- *.
  set (K := div (binary64 power2) (mul (binary64 power2) (Fin ppi) (Fin h)) (Fin p3)) in *.
  destruct (rmul_inv _ _ _ Hvo) as (f & so & EF & ES).
  (* the common factor is not negative *)
  assert (0 <= f) as Pf.
  { subst K. destruct (rdiv_inv _ _ _ EF) as [t Et]. rewrite Et in EF.
    change (rnd (Fin (ppi * h)) = Fin t) in Et.
    pose proof (rnd_nonneg (ppi * h) t ltac:(nra) Et) as Pt.
    assert (~ p3 == 0) as N3 by lra.
    rewrite (rdiv_finite t p3 N3) in EF.
    apply (rnd_nonneg (t / p3)); [|exact EF].
    apply Qle_shift_div_l; lra. }
  destruct (radd_inv _ _ _ ES) as (s12 & s3 & E12 & E3').
  destruct (radd_inv _ _ _ E12) as (s1 & s2 & E1 & E2).
  rewrite E1, E2 in E12, ES. rewrite E12, E3' in ES. rewrite EF, E1, E2, E12, E3', ES in Hvo.
  change (sqr (binary64 power2) (Fin a)) with (power2 (Fin a)) in E1.
  change (sqr (binary64 power2) (Fin b)) with (power2 (Fin b)) in E3'.
  change (sqr (binary64 power2) (Fin a')) with (power2 (Fin a')).
  change (sqr (binary64 power2) (Fin b')) with (power2 (Fin b')).
  destruct (power2_le _ Hsquare _ a' _ E1 Ha Ha') as (s1' & E1' & P1 & L1).
  destruct (rmul_le _ _ a' b' _ E2 Ha Ha' Hb Hb') as (s2' & E2' & P2 & L2).
  destruct (radd_le _ _ s1' s2' _ E12 P1 L1 P2 L2) as (s12' & E12' & P12 & L12).
  destruct (power2_le _ Hsquare _ b' _ E3' Hb Hb') as (s3' & E3'' & P3' & L3).
  destruct (radd_le _ _ s12' s3' _ ES P12 L12 P3' L3) as (so' & ES' & Pso & Lso).
  destruct (rmul_le _ _ f so' _ Hvo Pf ltac:(lra) Pso Lso) as (vi & Evi & Pvi & Lvi).
  exists vi. rewrite EF, E1', E2', E12', E3'', ES'. repeat split; assumption.
Qed.

End Operations.

(** The correctly rounded square is one such square. *)
Lemma square_monotone : monotone_square square.
Proof.
  split.
  - intros x m H. apply rnd_finite_inv in H. destruct H as [q H].
    destruct x as [a| | |]; simpl in H; try discriminate. exists a. reflexivity.
  - intros a a' m H Ha Ha'. change (rnd (Fin (a * a)) = Fin m) in H.
    change (exists m', rnd (Fin (a' * a')) = Fin m' /\ 0 <= m' /\ m' <= m).
    apply (rnd_mono_fin (a * a)); [nra | nra | exact H].
Qed.

End RoundedOps.

(* ===================================================================== *)
(** ** The arithmetic of the embedding and the rounded one *)
(* ===================================================================== *)

Module NumericProps.
Import Structures Spec Examples Binary64 Numeric RoundedSamples.

(** On exact arithmetic the computations are the ones of the embedding. *)
Lemma can_adjust_properties_exact (row : Can) :
  Numeric.can_adjust_properties exact row = OWT.can_adjust_properties row.
Proof. reflexivity. Qed.

Lemma can_modification_exact `{Numpy} (df : frame Can) (altitude : option float64)
    (position : string) :
  Numeric.can_modification exact df altitude position
  = OWT.can_modification df altitude position.
Proof. reflexivity. Qed.

Lemma volume_exact (bb : BuildingBlock) :
  Numeric.volume exact bb = Structures.volume bb.
Proof. reflexivity. Qed.

Lemma cone_volumes_exact (bb : BuildingBlock) :
  Numeric.cone_volumes exact bb = Structures.cone_volumes bb.
Proof. reflexivity. Qed.

(** The rounding on known numbers: 0.1 is the float 3602879701896397 / 2^55,
    0.1 + 0.2 is the float of 0.30000000000000004 and not that of 0.3, what
    exceeds the range is an infinity, half the smallest number is zero,
    and 3000 - 1e-13 is 3000. *)
Lemma rounding_samples :
  feqb (b64 0.1) (Fin (3602879701896397 # 36028797018963968)) = true /\
  feqb (add float_arith (b64 0.1) (b64 0.2)) (b64 0.30000000000000004) = true /\
  feqb (add float_arith (b64 0.1) (b64 0.2)) (b64 0.3) = false /\
  mul float_arith (b64 1e200) (b64 1e200) = PInf /\
  feqb (rnd (Fin (pow2 (-1075)))) (Fin 0) = true /\
  feqb (sub float_arith (b64 3000) (b64 1e-13)) (b64 3000) = true.
Proof. repeat split; vm_compute; reflexivity. Qed.

(** The conical can: the mass over the volume recomputed is the float of
    1.2658227848101267, the density of the row that of 1.2658227848101264. *)
Lemma conical_can_densities :
  let p := Numeric.can_adjust_properties float_arith conical_can in
  feqb (div float_arith (cp_mass p) (cp_volume p)) (b64 1.2658227848101267) = true /\
  feqb (div float_arith (mass_t conical_can) (volume_m3 conical_can))
       (b64 1.2658227848101264) = true.
Proof. split; vm_compute; reflexivity. Qed.

(** The can without wall divides zero by zero on floats as well. *)
Lemma hollow_can_rounded :
  let p := Numeric.can_adjust_properties float_arith hollow_can in
  cp_volume p = Fin 0 /\ div float_arith (cp_mass p) (cp_volume p) = NaN.
Proof. split; vm_compute; reflexivity. Qed.

(** The wall thicker than the section is wide: the volume is negative on
    floats as well. *)
Lemma thick_wall_rounded :
  exists v, Numeric.volume float_arith thick_wall_bb = Ok (Some (Fin v)) /\ v < 0.
Proof. eexists. split; [vm_compute; reflexivity|]. vm_compute. reflexivity. Qed.

End NumericProps.

(* ===================================================================== *)
(** ** The density of a truncated can, on floats *)
(* ===================================================================== *)

Module RoundedCanProps.
Import Spec Examples Binary64 Numeric Binary64Props RoundedOps RoundedSamples.

(** What [can_adjust_properties] returns, in any arithmetic. *)
Lemma mass_is_volume_times_density (A : arith) (row : Can) :
  cp_mass (Numeric.can_adjust_properties A row)
  = mul A (cp_volume (Numeric.can_adjust_properties A row))
          (div A (mass_t row) (volume_m3 row)).
Proof. reflexivity. Qed.

Lemma rho_is_mass_by_height (A : arith) (row : Can) :
  cp_rho (Numeric.can_adjust_properties A row)
  = div A (cp_mass (Numeric.can_adjust_properties A row))
          (cp_height (Numeric.can_adjust_properties A row)).
Proof. reflexivity. Qed.

Lemma set_properties_fields (p : CanProperties) (r : Can) :
  volume_m3 (OWT.set_properties p r) = cp_volume p /\
  mass_t (OWT.set_properties p r) = cp_mass p /\
  rho_tm (OWT.set_properties p r) = cp_rho p /\
  height_m (OWT.set_properties p r) = cp_height p.
Proof. repeat split. Qed.

Section Density.
Variable power2 : float64 -> float64.

(** The tolerance on one row. *)
Lemma adjust_keeps_density (row : Can) (d v m r : Q) :
  div (binary64 power2) (mass_t row) (volume_m3 row) = Fin d ->
  cp_volume (Numeric.can_adjust_properties (binary64 power2) row) = Fin v -> ~ v == 0 ->
  cp_mass (Numeric.can_adjust_properties (binary64 power2) row) = Fin m ->
  div (binary64 power2) (cp_mass (Numeric.can_adjust_properties (binary64 power2) row))
        (cp_volume (Numeric.can_adjust_properties (binary64 power2) row)) = Fin r ->
  no_underflow (v * d) -> no_underflow (m / v) ->
  finite_nonzero (cp_height (Numeric.can_adjust_properties (binary64 power2) row)) ->
  Qabs (r - d) <= (2 * u + u * u) * Qabs d /\
  feqb (cp_rho (Numeric.can_adjust_properties (binary64 power2) row))
       (div (binary64 power2) (cp_mass (Numeric.can_adjust_properties (binary64 power2) row))
              (cp_height (Numeric.can_adjust_properties (binary64 power2) row))) = true.
Proof.
  intros Hd Hv Hv0 Hm Hr N1 N2 (h & Hh & Hh0). split.
  - rewrite Hm, Hv, (rdiv_finite power2 m v Hv0) in Hr.
    rewrite mass_is_volume_times_density, Hv, Hd, rmul_finite in Hm.
    exact (product_quotient v d m r Hv0 Hm Hr N1 N2).
  - rewrite rho_is_mass_by_height, Hm, Hh, (rdiv_finite power2 m h Hh0).
    apply feqb_rnd.
Qed.

(** The boundary row of the frame [can_modification] returns: the
    properties are recomputed from the row with its cut side set. *)
Lemma can_modification_recomputes `{Numpy} (df df' : frame Can)
    (altitude : option float64) (position l : string) (r : Can) :
  Numeric.can_modification (binary64 power2) df altitude position = Ok df' ->
  at_position (boundary position) df = Ok (l, r) ->
  exists r2,
    at_position (boundary position) df'
      = Ok (l, OWT.set_properties (Numeric.can_adjust_properties (binary64 power2) r2) r2) /\
    mass_t r2 = mass_t r /\ volume_m3 r2 = volume_m3 r.
Proof.
  unfold Numeric.can_modification, boundary.
  destruct (String.eqb position "bottom") eqn:Epos; intros Hrun Hat;
    rewrite Hat in Hrun; cbn [mbind result_bind] in Hrun;
    match type of Hrun with
    | context [loc_set l (OWT.set_elevation ?b ?a) df] =>
        pose proof (CanProps.at_position_loc_set _ df l r (OWT.set_elevation b a) Hat) as H1
    end;
    rewrite H1 in Hrun; cbn [mbind result_bind] in Hrun;
    match type of Hrun with
    | context [loc_set l (OWT.set_diameter ?b ?d) ?df1] =>
        pose proof (CanProps.at_position_loc_set _ df1 l _ (OWT.set_diameter b d) H1) as H2
    end;
    rewrite H2 in Hrun; cbn [mbind result_bind] in Hrun;
    injection Hrun as <-;
    match type of H2 with
    | _ = Ok (_, ?r2) =>
        exists r2; split;
          [ exact (CanProps.at_position_loc_set _ _ l r2
                     (OWT.set_properties (Numeric.can_adjust_properties (binary64 power2) r2)) H2)
          | split; reflexivity ]
    end.
Qed.

End Density.

(** C3, amended.  On floats, with every operation rounded to the nearest
    float, take a can row whose mass over volume is a finite float [d],
    whose recomputed volume [v] is finite and not zero, whose recomputed
    mass [m] is finite and whose recomputed height is finite and not
    zero, and let neither the product [v * d] nor the quotient [m / v]
    fall below the normal range.  Then the new mass over the new volume,
    when finite, is within the relative tolerance 2u + u^2 of [d], with
    u = 2^-53, and the new rho equals the new mass divided by the new
    height.  The same holds between the boundary row [can_modification]
    returns and the row it started from.  The two densities need not be
    the same float. *)
Theorem truncation_preserves_density `{Numpy} (power2 : float64 -> float64) :
  (forall (row : Can) (d v m r : Q),
     let p := Numeric.can_adjust_properties (binary64 power2) row in
     div (binary64 power2) (mass_t row) (volume_m3 row) = Fin d ->
     cp_volume p = Fin v -> ~ v == 0 ->
     cp_mass p = Fin m ->
     div (binary64 power2) (cp_mass p) (cp_volume p) = Fin r ->
     no_underflow (v * d) -> no_underflow (m / v) ->
     finite_nonzero (cp_height p) ->
     Qabs (r - d) <= (2 * u + u * u) * Qabs d /\
     feqb (cp_rho p) (div (binary64 power2) (cp_mass p) (cp_height p)) = true) /\
  (forall (df df' : frame Can) (altitude : option float64) (position : string)
          (l l' : string) (r0 r' : Can) (d v m r : Q),
     Numeric.can_modification (binary64 power2) df altitude position = Ok df' ->
     at_position (boundary position) df = Ok (l, r0) ->
     at_position (boundary position) df' = Ok (l', r') ->
     div (binary64 power2) (mass_t r0) (volume_m3 r0) = Fin d ->
     volume_m3 r' = Fin v -> ~ v == 0 ->
     mass_t r' = Fin m ->
     div (binary64 power2) (mass_t r') (volume_m3 r') = Fin r ->
     no_underflow (v * d) -> no_underflow (m / v) ->
     finite_nonzero (height_m r') ->
     Qabs (r - d) <= (2 * u + u * u) * Qabs d /\
     feqb (rho_tm r') (div (binary64 power2) (mass_t r') (height_m r')) = true).
Proof.
  split.
  - intros row d v m r p. subst p. apply adjust_keeps_density.
  - intros df df' altitude position l l' r0 r' d v m r Hrun Hat Hat' Hd Hv Hv0 Hm Hr
      N1 N2 Hh.
    destruct (can_modification_recomputes power2 df df' altitude position l r0 Hrun Hat)
      as (r2 & Hr2 & Em & Ev).
    rewrite Hr2 in Hat'. injection Hat' as <- <-.
    destruct (set_properties_fields (Numeric.can_adjust_properties (binary64 power2) r2) r2)
      as (E1 & E2 & E3 & E4).
    rewrite E1 in Hv. rewrite E2 in Hm. rewrite E1, E2 in Hr. rewrite E4 in Hh.
    rewrite E2, E3, E4.
    rewrite <- Em, <- Ev in Hd.
    exact (adjust_keeps_density power2 r2 d v m r Hd Hv Hv0 Hm Hr N1 N2 Hh).
Qed.

(** The conical can: the two densities are within the tolerance, and
    they are two different floats. *)
Lemma truncation_preserves_density_witness :
  let p := Numeric.can_adjust_properties float_arith conical_can in
  exists d r : Q,
    div float_arith (mass_t conical_can) (volume_m3 conical_can) = Fin d /\
    div float_arith (cp_mass p) (cp_volume p) = Fin r /\
    (Qabs (r - d) <= (2 * u + u * u) * Qabs d /\
     feqb (cp_rho p) (div float_arith (cp_mass p) (cp_height p)) = true) /\
    ~ r == d.
Proof.
  intros p.
  destruct (@truncation_preserves_density numpy_example square) as [Hrow _].
  eexists. eexists.
  split; [vm_compute; reflexivity|]. split; [vm_compute; reflexivity|].
  split.
  - eapply (Hrow conical_can).
    + vm_compute. reflexivity.
    + vm_compute. reflexivity.
    + intros E. vm_compute in E. discriminate.
    + vm_compute. reflexivity.
    + vm_compute. reflexivity.
    + right. vm_compute. discriminate.
    + right. vm_compute. discriminate.
    + eexists. split; [vm_compute; reflexivity|].
      intros E. vm_compute in E. discriminate.
  - intros E. vm_compute in E. discriminate.
Defined.

End RoundedCanProps.

(* ===================================================================== *)
(** ** The volume of a tubular section, on floats *)
(* ===================================================================== *)

Module RoundedVolumeProps.
Import Structures Spec Examples Binary64 Numeric Binary64Props RoundedOps RoundedSamples.

(** The two frustum volumes and the volume of a tubular section, in any
    arithmetic. *)
Lemma cone_volumes_tubular (A : arith) (bb : BuildingBlock) (bod tod wt h : float64) :
  json bb !! "bottom_outer_diameter" = Some (PyFloat bod) ->
  json bb !! "top_outer_diameter" = Some (PyFloat tod) ->
  json bb !! "wall_thickness" = Some (PyFloat wt) ->
  json bb !! "height" = Some (PyFloat h) ->
  Numeric.cone_volumes A bb =
    Ok (Numeric._calc_cone_volume A (div A bod (lit A 2)) (div A tod (lit A 2)) h,
        Numeric._calc_cone_volume A (sub A (div A bod (lit A 2)) wt)
                                    (sub A (div A tod (lit A 2)) wt) h).
Proof.
  intros Hb Htop Hw Hh. unfold Numeric.cone_volumes, getitem.
  rewrite Hb, Htop, Hw, Hh. reflexivity.
Qed.

Lemma volume_of_cones (A : arith) (bb : BuildingBlock) (bod h vo vi : float64) :
  json bb !! "bottom_outer_diameter" = Some (PyFloat bod) -> bod <> NaN ->
  json bb !! "height" = Some (PyFloat h) -> ftruthy h = true ->
  Numeric.cone_volumes A bb = Ok (vo, vi) ->
  Numeric.volume A bb = Ok (Some (div A (sub A vo vi) (lit A 1e9))).
Proof.
  intros Hb Hn Hh Htr Hc. unfold Numeric.volume.
  rewrite StructuresProps.type_unfold. unfold populated. rewrite Hb.
  destruct bod; try contradiction; cbn [isnan negb mbind result_bind];
    unfold height; rewrite Hh; cbn [truthy]; rewrite Htr, Hc; reflexivity.
Qed.



(** The outer frustum need not exceed the inner one: a wall of 1e-13 mm
    on a radius of 3000 mm is lost in the subtraction, the two frustums
    are the same float and the volume is zero. *)
Lemma thin_wall_is_absorbed :
  exists vo : Q,
    Numeric.cone_volumes float_arith (tubular64 6000 6000 1e-13 1000)
    = Ok (Fin vo, Fin vo) /\
    Numeric.volume float_arith (tubular64 6000 6000 1e-13 1000) = Ok (Some (Fin 0)).
Proof. eexists. split; vm_compute; reflexivity. Qed.

(** A height of 1e308 mm: both frustums overflow, and the volume is the
    difference of two infinities. *)
Lemma huge_height_has_no_volume :
  Numeric.cone_volumes float_arith (tubular64 6000 6000 10 1e308) = Ok (PInf, PInf) /\
  Numeric.volume float_arith (tubular64 6000 6000 10 1e308) = Ok (Some NaN).
Proof. split; vm_compute; reflexivity. Qed.

End RoundedVolumeProps.

(* ===================================================================== *)
(** ** Properties of the single-turbine engine *)
(* ===================================================================== *)

Module OWTProps.
Import Spec Examples MethodProps.
Import OWT.

Lemma eqb_false (a b : string) : a <> b -> String.eqb a b = false.
Proof. intros H. apply String.eqb_neq. exact H. Qed.

(** C8.  [assembly_full_structure] with no substructure raises the
    sequencing error that names the substructure; with a substructure
    but no tower it raises the one that names the tower; in both cases
    full_structure keeps the value it had (unset stays unset) and only
    the stage flag is set.  With both tables it sets full_structure to
    the tower followed by the substructure. *)
Theorem assembly_full_structure_prerequisites (s : OWT.t) :
  let o := assembly_full_structure s in
  (substructure s = None ->
     res o = Raise (TypeError "Substructure needs to be processed before!") /\
     st o = set_init_spec_full true s /\
     full_structure (st o) = full_structure s) /\
  (forall sub, substructure s = Some sub -> tower s = None ->
     res o = Raise (TypeError "Tower needs to be processed before!") /\
     st o = set_init_spec_full true s /\
     full_structure (st o) = full_structure s) /\
  (forall sub tw, substructure s = Some sub -> tower s = Some tw ->
     res o = Ok tt /\
     full_structure (st o) = Some (tw ++ sub)%list).
Proof.
  unfold assembly_full_structure, Method.bind, Method.modify, read, Method.raise,
    Method.lift.
  cbn. split; [|split].
  - intros Hsub. rewrite Hsub. repeat split.
  - intros sub Hsub Htw. rewrite Hsub. cbn. rewrite Htw. repeat split.
  - intros sub tw Hsub Htw. rewrite Hsub. cbn. rewrite Htw. cbn.
    rewrite Hsub, Htw. cbn. rewrite app_nil_r. split; reflexivity.
Qed.

Lemma assembly_full_structure_prerequisites_witness :
  let o := assembly_full_structure scenario in
  res o = Raise (TypeError "Substructure needs to be processed before!") /\
  full_structure (st o) = None.
Proof.
  destruct (assembly_full_structure_prerequisites scenario) as [H _].
  destruct (H eq_refl) as (Hres & _ & Hfull).
  split; [exact Hres | exact Hfull].
Defined.

(** The two index-taking selections refuse an unknown index and leave
    the turbine as it was. *)
Lemma set_df_structure_unknown_index (idx : string) (s : OWT.t) :
  idx <> "tw" -> idx <> "tp" -> idx <> "mp" ->
  set_df_structure idx s = Outcome (Raise (ValueError "Unknown index.")) s [].
Proof.
  intros H1 H2 H3. unfold set_df_structure.
  rewrite (eqb_false _ _ H1), (eqb_false _ _ H2), (eqb_false _ _ H3). reflexivity.
Qed.

Lemma set_df_appurtenances_unknown_index (idx : string) (s : OWT.t) :
  idx <> "TW" -> idx <> "TP" -> idx <> "MP" ->
  set_df_appurtenances idx s = Outcome (Raise (ValueError "Unknown index.")) s [].
Proof.
  intros H1 H2 H3. unfold set_df_appurtenances.
  rewrite (eqb_false _ _ H1), (eqb_false _ _ H2), (eqb_false _ _ H3). reflexivity.
Qed.

(** [process_structure] has no such refusal: an option outside "full",
    "TW", "TP", "MP" marks the turbine as processed and returns. *)
Lemma process_structure_unknown_option `{Numpy} (option : string) (s : OWT.t) :
  option <> "full" -> option <> "TW" -> option <> "TP" -> option <> "MP" ->
  process_structure option s = Outcome (Ok tt) (set_init_proc true s) [].
Proof.
  intros H1 H2 H3 H4. unfold process_structure.
  rewrite (eqb_false _ _ H1), (eqb_false _ _ H2), (eqb_false _ _ H3),
    (eqb_false _ _ H4). reflexivity.
Qed.

(** C9 at its failing input.  The option "tower", which the docstring
    of [process_structure] lists, is not one the code recognises: the
    call raises nothing, processes nothing and sets [_init_proc], so
    that later reads of the empty tables no longer warn. *)
Theorem process_structure_tower_is_silent `{Numpy} (s : OWT.t) :
  let o := process_structure "tower" s in
  res o = Ok tt /\
  st o = set_init_proc true s /\
  tower (st o) = tower s /\
  access_warnings "tower" (st o) = [].
Proof.
  pose proof (process_structure_unknown_option "tower" s) as E.
  cbv zeta. rewrite E by discriminate. repeat split.
Qed.

Lemma none_or_zero_falsy (o : option float64) :
  none_or_zero o <-> truthy_opt o = false.
Proof.
  unfold none_or_zero. destruct o as [[q| | |]|]; simpl.
  - split.
    + intros [H|(q' & [= <-] & Hq)]; [discriminate|].
      apply Qeq_eq_bool in Hq. rewrite Hq. reflexivity.
    + intros H. right. exists q. split; [reflexivity|].
      apply Qeq_bool_eq. destruct (Qeq_bool q 0); [reflexivity | discriminate].
  - split; [intros [H|(q' & H & _)]; discriminate | discriminate].
  - split; [intros [H|(q' & H & _)]; discriminate | discriminate].
  - split; [intros [H|(q' & H & _)]; discriminate | discriminate].
  - split; [reflexivity | intros _; left; reflexivity].
Qed.

(** The branch the constructor takes on a falsy argument computes the
    derived elevations. *)
Lemma elevations_derived (subs : Dict.dict SubAssembly) (tb ph : option float64) :
  truthy_opt tb = false \/ truthy_opt ph = false ->
  elevations subs tb ph =
    (tb' ← derived_tower_base subs; ph' ← derived_pile_head subs; Ok (tb', ph')).
Proof.
  intros H. unfold elevations.
  assert (negb (truthy_opt tb) || negb (truthy_opt ph) = true) as ->.
  { destruct H as [-> | ->]; [reflexivity | apply orb_true_r]. }
  unfold derived_tower_base, derived_pile_head, Dict.mem, Dict.getitem.
  destruct (Dict.lookup "TW" subs) as [tw|]; cbn;
    [| destruct (Dict.lookup "TP" subs) as [tp|]; cbn];
    destruct (Dict.lookup "MP" subs) as [mp|]; reflexivity.
Qed.

(** C10.  The constructor tests its two elevation arguments for
    falsiness.  When either is [None] or 0.0, both are discarded: the
    turbine built is the one built with no elevation supplied, whose
    tower base is the absolute bottom of the TW sub-assembly, else the
    absolute top of the TP sub-assembly, else [None], and whose pile
    head is the absolute top of the MP sub-assembly, else [None]. *)
Theorem falsy_elevations_are_discarded (subassemblies : list (string * SubAssembly))
    (location : list float64) (tower_base pile_head : option float64) :
  none_or_zero tower_base \/ none_or_zero pile_head ->
  __init__ subassemblies location tower_base pile_head
    = __init__ subassemblies location None None /\
  elevations (Dict.of_list subassemblies) tower_base pile_head
    = (tb ← derived_tower_base (Dict.of_list subassemblies);
       ph ← derived_pile_head (Dict.of_list subassemblies);
       Ok (tb, ph)) /\
  forall s, __init__ subassemblies location tower_base pile_head = Ok s ->
    derived_tower_base (sub_assemblies s) = Ok (OWT.tower_base s) /\
    derived_pile_head (sub_assemblies s) = Ok (OWT.pile_head s).
Proof.
  intros H.
  assert (truthy_opt tower_base = false \/ truthy_opt pile_head = false) as Hf.
  { destruct H as [H|H]; apply none_or_zero_falsy in H; tauto. }
  pose proof (elevations_derived (Dict.of_list subassemblies) _ _ Hf) as He.
  pose proof (elevations_derived (Dict.of_list subassemblies) None None
                (or_introl eq_refl)) as He0.
  split; [| split; [exact He|]].
  - unfold __init__. rewrite He, He0. reflexivity.
  - intros s. unfold __init__. rewrite He.
    destruct (_set_members (Dict.of_list subassemblies)) as [[[tw tp] mp]|e];
      cbn; [|discriminate].
    destruct location as [|d location]; cbn; [discriminate|].
    destruct (derived_tower_base (Dict.of_list subassemblies)) as [tb|e] eqn:Etb;
      cbn; [|discriminate].
    destruct (derived_pile_head (Dict.of_list subassemblies)) as [ph|e] eqn:Eph;
      cbn; [|discriminate].
    intros [= <-]. split; [exact Etb | exact Eph].
Qed.

(** A tower base of 0.0 passed with a pile head of 7.5, on a turbine
    with its three structural items: both are replaced. *)
Lemma falsy_elevations_are_discarded_witness :
  exists s,
    __init__ three_items [Fin 30] (Some (Fin 0)) (Some (Fin 7.5)) = Ok s /\
    option_map (feqb (Fin 17)) (OWT.tower_base s) = Some true /\
    option_map (feqb (Fin 5)) (OWT.pile_head s) = Some true.
Proof.
  assert (none_or_zero (Some (Fin 0)) \/ none_or_zero (Some (Fin 7.5))) as H.
  { left. right. exists 0. split; reflexivity. }
  destruct (falsy_elevations_are_discarded three_items [Fin 30] _ _ H) as (E & _ & _).
  eexists. split; [rewrite E; vm_compute; reflexivity|].
  split; vm_compute; reflexivity.
Defined.

Lemma read_quiet {A} (name : string) (field : OWT.t -> A) (s : OWT.t) :
  access_warnings name s = [] ->
  read name field s = Outcome (Ok (field s)) s [].
Proof. intros E. unfold read. rewrite E. reflexivity. Qed.

(** Once [process_structure] has run, reading its tables is silent. *)
Lemma processed_quiet (name : string) (s : OWT.t) :
  _init_proc s = true -> mem name ATTR_SPEC = false -> access_warnings name s = [].
Proof.
  intros Hp Hs. unfold access_warnings. rewrite Hp, Hs, andb_false_r. reflexivity.
Qed.

(** What [assembly_tp_mp] does on a processed turbine whose two tables
    are populated: the cans starting above the pile head, with the last
    of them cut at the pile head unless the first of them ends on it,
    followed by the monopile, become the substructure; the cans ending
    below the pile head, with the first of them cut from the top, become
    the skirt. *)
Lemma assembly_tp_mp_populated `{Numpy} (s : OWT.t) (tp mp tp1 skirt : frame Can)
    (off : bool) :
  _init_proc s = true ->
  transition_piece s = Some tp ->
  monopile s = Some mp ->
  let head := pile_head s in
  let above := select (fun r => fgtb (elevation_from r) (float_or_nan head)) tp in
  let below := select (fun r => fltb (elevation_to r) (float_or_nan head)) tp in
  top_row_off_joint above head = Ok off ->
  (if off then can_modification above head "bottom" else Ok above) = Ok tp1 ->
  can_modification below head "top" = Ok skirt ->
  assembly_tp_mp s =
    Outcome (Ok tt)
      (set_tp_skirt (Some skirt)
         (set_substructure (Some (tp1 ++ mp)%list) (set_init_spec_part true s)))
      [].
Proof.
  intros Hproc Htp Hmp head above below Hoff Hcut Hskirt.
  unfold assembly_tp_mp.
  rewrite bind_modify.
  set (s1 := set_init_spec_part true s).
  assert (forall name, mem name ATTR_SPEC = false -> access_warnings name s1 = []) as Hq1.
  { intros name Hn. apply processed_quiet; [exact Hproc | exact Hn]. }
  rewrite (bind_quiet _ _ s1 (transition_piece s1) s1)
    by (apply read_quiet, Hq1; reflexivity).
  change (transition_piece s1) with (transition_piece s). rewrite Htp.
  rewrite bind_assoc.
  rewrite (bind_quiet _ _ s1 (monopile s1) s1)
    by (apply read_quiet, Hq1; reflexivity).
  change (monopile s1) with (monopile s). rewrite Hmp.
  rewrite bind_ret.
  rewrite (bind_quiet _ _ s1 (pile_head s1) s1)
    by (apply read_quiet, Hq1; reflexivity).
  change (pile_head s1) with head.
  rewrite (bind_quiet _ _ s1 (transition_piece s1) s1)
    by (apply read_quiet, Hq1; reflexivity).
  change (transition_piece s1) with (transition_piece s). rewrite Htp.
  unfold subscriptable. rewrite bind_lift_ok.
  fold above. fold below. rewrite Hoff, bind_lift_ok.
  destruct off.
  - rewrite bind_assoc, Hcut, bind_lift_ok, bind_assoc.
    rewrite (bind_quiet _ _ s1 (monopile s1) s1)
      by (apply read_quiet, Hq1; reflexivity).
    change (monopile s1) with (monopile s). rewrite Hmp.
    rewrite bind_assoc.
    change (pd_concat [Some tp1; Some mp]) with (Ok (tp1 ++ (mp ++ []))%list).
    rewrite bind_lift_ok, app_nil_r, bind_modify, Hskirt, bind_lift_ok.
    reflexivity.
  - injection Hcut as <-.
    rewrite bind_assoc.
    rewrite (bind_quiet _ _ s1 (monopile s1) s1)
      by (apply read_quiet, Hq1; reflexivity).
    change (monopile s1) with (monopile s). rewrite Hmp.
    rewrite bind_assoc.
    change (pd_concat [Some above; Some mp]) with (Ok (above ++ (mp ++ []))%list).
    rewrite bind_lift_ok, app_nil_r, bind_modify, Hskirt, bind_lift_ok.
    reflexivity.
Qed.

(** The elevations of a tubular table, row by row. *)
Lemma assembly_tp_mp_scenario `{Numpy} :
  let o := assembly_tp_mp scenario in
  let spans := option_map (List.map (fun lr : string * Can =>
                 (elevation_from (snd lr), elevation_to (snd lr)))) in
  res o = Ok tt /\
  spans (substructure (st o)) = Some [(Fin 6, Fin 5); (Fin 0, Fin (-10))] /\
  spans (tp_skirt (st o)) = Some [(Fin 5, Fin 4)].
Proof. vm_compute. repeat split. Qed.

(** Cutting a table that has a row never raises; cutting an empty one
    does. *)
Lemma can_modification_total `{Numpy} (df : frame Can) (altitude : option float64)
    (position : string) :
  df <> [] -> exists df', can_modification df altitude position = Ok df'.
Proof.
  intros Hne.
  assert (exists l r, at_position (boundary position) df = Ok (l, r)) as (l & r & Hat).
  { destruct df as [|[l0 r0] rest]; [contradiction|].
    destruct (boundary position); simpl.
    - eauto.
    - destruct (List.last rest (l0, r0)) as [l r]. eauto. }
  unfold can_modification. unfold boundary in Hat.
  destruct (String.eqb position "bottom"); rewrite Hat; cbn [mbind result_bind];
    match goal with
    | |- context [loc_set l (set_elevation ?b ?a) df] =>
        pose proof (CanProps.at_position_loc_set _ df l r (set_elevation b a) Hat) as H1
    end;
    rewrite H1; cbn [mbind result_bind];
    match goal with
    | |- context [loc_set l (set_diameter ?b ?d) ?df1] =>
        pose proof (CanProps.at_position_loc_set _ df1 l _ (set_diameter b d) H1) as H2
    end;
    rewrite H2; cbn [mbind result_bind]; eauto.
Qed.

Lemma can_modification_empty `{Numpy} (altitude : option float64) (position : string) :
  can_modification [] altitude position = Raise (IndexError "index out of bounds").
Proof. unfold can_modification. destruct (String.eqb position "bottom"); reflexivity. Qed.

(** When no can of the transition piece ends below the pile head, as at
    every bolted joint, [assembly_tp_mp] sets the substructure and then
    stops on an index error, leaving tp_skirt as it was. *)
Lemma assembly_tp_mp_no_skirt `{Numpy} (s : OWT.t) (tp mp tp1 : frame Can) (off : bool) :
  _init_proc s = true ->
  transition_piece s = Some tp ->
  monopile s = Some mp ->
  let head := pile_head s in
  let above := select (fun r => fgtb (elevation_from r) (float_or_nan head)) tp in
  let below := select (fun r => fltb (elevation_to r) (float_or_nan head)) tp in
  top_row_off_joint above head = Ok off ->
  (if off then can_modification above head "bottom" else Ok above) = Ok tp1 ->
  below = [] ->
  assembly_tp_mp s =
    Outcome (Raise (IndexError "index out of bounds"))
      (set_substructure (Some (tp1 ++ mp)%list) (set_init_spec_part true s))
      [].
Proof.
  intros Hproc Htp Hmp head above below Hoff Hcut Hskirt.
  unfold assembly_tp_mp.
  rewrite bind_modify.
  set (s1 := set_init_spec_part true s).
  assert (forall name, mem name ATTR_SPEC = false -> access_warnings name s1 = []) as Hq1.
  { intros name Hn. apply processed_quiet; [exact Hproc | exact Hn]. }
  rewrite (bind_quiet _ _ s1 (transition_piece s1) s1)
    by (apply read_quiet, Hq1; reflexivity).
  change (transition_piece s1) with (transition_piece s). rewrite Htp.
  rewrite bind_assoc.
  rewrite (bind_quiet _ _ s1 (monopile s1) s1)
    by (apply read_quiet, Hq1; reflexivity).
  change (monopile s1) with (monopile s). rewrite Hmp.
  rewrite bind_ret.
  rewrite (bind_quiet _ _ s1 (pile_head s1) s1)
    by (apply read_quiet, Hq1; reflexivity).
  change (pile_head s1) with head.
  rewrite (bind_quiet _ _ s1 (transition_piece s1) s1)
    by (apply read_quiet, Hq1; reflexivity).
  change (transition_piece s1) with (transition_piece s). rewrite Htp.
  unfold subscriptable. rewrite bind_lift_ok.
  fold above. fold below. rewrite Hoff, bind_lift_ok, Hskirt, can_modification_empty.
  destruct off.
  - rewrite bind_assoc, Hcut, bind_lift_ok, bind_assoc.
    rewrite (bind_quiet _ _ s1 (monopile s1) s1)
      by (apply read_quiet, Hq1; reflexivity).
    change (monopile s1) with (monopile s). rewrite Hmp.
    rewrite bind_assoc.
    change (pd_concat [Some tp1; Some mp]) with (Ok (tp1 ++ (mp ++ []))%list).
    rewrite bind_lift_ok, app_nil_r, bind_modify. reflexivity.
  - injection Hcut as <-.
    rewrite bind_assoc.
    rewrite (bind_quiet _ _ s1 (monopile s1) s1)
      by (apply read_quiet, Hq1; reflexivity).
    change (monopile s1) with (monopile s). rewrite Hmp.
    rewrite bind_assoc.
    change (pd_concat [Some above; Some mp]) with (Ok (above ++ (mp ++ []))%list).
    rewrite bind_lift_ok, app_nil_r, bind_modify. reflexivity.
Qed.

(** C2 at its failing input: a bolted joint, where the transition piece
    has two cans above the pile head at 5.0 and the lower one ends on
    it.  The test for a bolted joint reads the first can, which ends at
    7.0, so the joint is taken for a grouted one and the lower can goes
    through [can_modification]; then no can ends below the pile head,
    the skirt is cut out of an empty table, and the call stops on an
    index error with tp_skirt still unset. *)
Theorem assembly_tp_mp_bolted_joint `{Numpy} :
  let o := assembly_tp_mp bolted in
  res o = Raise (IndexError "index out of bounds") /\
  tp_skirt (st o) = None /\
  top_row_off_joint bolted_tp (Some (Fin 5)) = Ok true /\
  exists tp1,
    can_modification bolted_tp (Some (Fin 5)) "bottom" = Ok tp1 /\
    substructure (st o) = Some (tp1 ++ [("mp_1", can 5 (-10))])%list.
Proof.
  destruct (can_modification_total bolted_tp (Some (Fin 5)) "bottom") as [tp1 Hcut];
    [discriminate|].
  assert (top_row_off_joint bolted_tp (Some (Fin 5)) = Ok true) as Hoff
    by (vm_compute; reflexivity).
  pose proof (assembly_tp_mp_no_skirt bolted bolted_tp [("mp_1", can 5 (-10))] tp1 true
                eq_refl eq_refl eq_refl Hoff Hcut eq_refl) as E.
  cbv zeta. rewrite E. cbn [res st].
  split; [reflexivity|]. split; [reflexivity|]. split; [exact Hoff|].
  exists tp1. split; [exact Hcut | reflexivity].
Qed.

(** Where the first can above the pile head ends on it, the bolted
    branch is taken and the cans above go into the substructure as they
    are; the skirt is cut from the first can below. *)
Lemma assembly_tp_mp_flanged `{Numpy} :
  exists skirt,
    can_modification [("tp_2", can 4 2)] (Some (Fin 5)) "top" = Ok skirt /\
    assembly_tp_mp flanged =
      Outcome (Ok tt)
        (set_tp_skirt (Some skirt)
           (set_substructure (Some [("tp_1", can 10 5); ("mp_1", can 5 (-10))])
              (set_init_spec_part true flanged)))
        [].
Proof.
  destruct (can_modification_total [("tp_2", can 4 2)] (Some (Fin 5)) "top")
    as [skirt Hskirt]; [discriminate|].
  exists skirt. split; [exact Hskirt|].
  pose proof (assembly_tp_mp_populated flanged
                [("tp_1", can 10 5); ("tp_2", can 4 2)] [("mp_1", can 5 (-10))]
                [("tp_1", can 10 5)] skirt false eq_refl eq_refl eq_refl) as E.
  cbv zeta in E.
  assert (top_row_off_joint
            (select (fun r => fgtb (elevation_from r) (float_or_nan (pile_head flanged)))
               [("tp_1", can 10 5); ("tp_2", can 4 2)])
            (pile_head flanged) = Ok false) as H1 by (vm_compute; reflexivity).
  specialize (E H1).
  assert (Ok (select (fun r => fgtb (elevation_from r) (float_or_nan (pile_head flanged)))
                [("tp_1", can 10 5); ("tp_2", can 4 2)])
          = Ok [("tp_1", can 10 5)]) as H2 by (vm_compute; reflexivity).
  specialize (E H2).
  assert (select (fun r => fltb (elevation_to r) (float_or_nan (pile_head flanged)))
            [("tp_1", can 10 5); ("tp_2", can 4 2)]
          = [("tp_2", can 4 2)]) as H3 by (vm_compute; reflexivity).
  rewrite H3 in E. exact (E Hskirt).
Qed.

(** With a skirt can below the joint the call returns, and the lower
    can of the bolted joint has lost the volume it was stored with. *)
Lemma assembly_tp_mp_bolted_joint_recomputed :
  let o := @assembly_tp_mp numpy_example bolted_with_skirt in
  res o = Ok tt /\
  option_map (List.map (fun lr : string * Can =>
                (fst lr, feqb (volume_m3 (snd lr)) (Fin 5))))
    (substructure (st o))
  = Some [("tp_1", true); ("tp_2", false); ("mp_1", true)].
Proof. vm_compute. repeat split. Qed.

End OWTProps.

(* ===================================================================== *)
(** ** Properties of the fleet engine and of the attribute guards *)
(* ===================================================================== *)

Module OWTsProps.
Import Spec Examples MethodProps.
Import OWTs.

(** *** The flag [_init] survives everything but its own assignment *)

Lemma keeps_ret {A} (a : A) : keeps_init (Method.ret a).
Proof. intros s. reflexivity. Qed.

Lemma keeps_raise {A} (e : exn) : keeps_init (@Method.raise OWTs.t A e).
Proof. intros s. reflexivity. Qed.

Lemma keeps_lift {A} (r : result A) : keeps_init (Method.lift r).
Proof. intros s. reflexivity. Qed.

Lemma keeps_get : keeps_init (@Method.get OWTs.t).
Proof. intros s. reflexivity. Qed.

Lemma keeps_bind {A B} (m : M A) (k : A -> M B) :
  keeps_init m -> (forall a, keeps_init (k a)) -> keeps_init (Method.bind m k).
Proof.
  intros Hm Hk s. unfold Method.bind. specialize (Hm s).
  destruct (m s) as [[a|e] s1 l1]; simpl in *; [|exact Hm].
  rewrite (Hk a s1). exact Hm.
Qed.

Lemma keeps_for_each {A} (xs : list A) (body : A -> M unit) :
  (forall x, keeps_init (body x)) -> keeps_init (for_each xs body).
Proof.
  intros Hb. induction xs as [|x xs IH]; simpl.
  - apply keeps_ret.
  - apply keeps_bind; [apply Hb | intros _; exact IH].
Qed.

Lemma keeps_collect {A B} (xs : list A) (f : A -> M B) :
  (forall x, keeps_init (f x)) -> keeps_init (collect xs f).
Proof.
  intros Hf. induction xs as [|x xs IH]; simpl.
  - apply keeps_ret.
  - apply keeps_bind; [apply Hf | intros y].
    apply keeps_bind; [exact IH | intros ys; apply keeps_ret].
Qed.

Lemma keeps_setattr (attr : string) (v : value) : keeps_init (setattr attr v).
Proof. intros s. reflexivity. Qed.

Lemma keeps_getattribute (name : string) : keeps_init (__getattribute__ name).
Proof. intros s. reflexivity. Qed.

Lemma keeps_on_turbine {A} (k : string) (m : OWT.M A) : keeps_init (on_turbine k m).
Proof. intros s. unfold on_turbine. destruct (Dict.lookup k (owts s)); reflexivity. Qed.

Create HintDb keeps.
#[local] Hint Resolve keeps_ret keeps_raise keeps_lift keeps_get keeps_setattr
  keeps_getattribute keeps_on_turbine : keeps.

Ltac keeps :=
  repeat first
    [ progress intros
    | apply keeps_bind
    | apply keeps_for_each
    | apply keeps_collect
    | solve [auto with keeps]
    | match goal with
      | |- keeps_init (match ?x with _ => _ end) => destruct x
      | |- keeps_init (if ?b then _ else _) => destruct b
      end ].

Lemma keeps_extend (attr : string) (vs : M (list value)) :
  keeps_init vs -> keeps_init (extend attr vs).
Proof. intros Hvs. unfold extend. keeps. Qed.

Lemma keeps_accumulate (k attr : string) : keeps_init (accumulate k attr).
Proof. unfold accumulate. keeps; try (apply keeps_extend; keeps). Qed.

Lemma keeps_concat_list (attr_list : list string) : keeps_init (_concat_list attr_list).
Proof. unfold _concat_list. keeps. Qed.

Lemma keeps_summary_row (pile_toe_map : value) (turb : string) :
  keeps_init (summary_row pile_toe_map turb).
Proof. unfold summary_row. keeps. Qed.

Lemma keeps_assembly_turbine : keeps_init _assembly_turbine.
Proof. unfold _assembly_turbine. keeps. Qed.

#[local] Hint Resolve keeps_accumulate keeps_concat_list keeps_assembly_turbine : keeps.

(** After a call of [process_structures] the flag is set, whether the
    call returned or raised. *)
Lemma process_structures_sets_init `{Numpy} (s : OWTs.t) :
  _init (st (process_structures s)) = true.
Proof.
  unfold process_structures. rewrite bind_get.
  destruct (_init s) eqn:E; [exact E|].
  rewrite bind_modify.
  match goal with
  | |- _init (st (?m ?s0)) = true =>
      assert (keeps_init m) as K by keeps; rewrite (K s0)
  end.
  reflexivity.
Qed.

(** A call on a fleet whose flag is set returns at once. *)
Lemma process_structures_guard `{Numpy} (s : OWTs.t) :
  _init s = true -> process_structures s = Outcome (Ok tt) s [].
Proof.
  intros E. unfold process_structures. rewrite bind_get, E. reflexivity.
Qed.

(** C6.  [process_structures] is idempotent: after one call [_init] is
    true, and a second call returns immediately, without a warning and
    without touching the fleet: every slot of [attrs] (the fleet tables,
    the pile-toe map, the summary) and every turbine is what the first
    call left, so nothing is processed or appended twice. *)
Theorem process_structures_idempotent `{Numpy} (s : OWTs.t) :
  let first := process_structures s in
  _init (st first) = true /\
  process_structures (st first) = Outcome (Ok tt) (st first) [] /\
  attrs (st (process_structures (st first))) = attrs (st first) /\
  owts (st (process_structures (st first))) = owts (st first).
Proof.
  intros first.
  pose proof (process_structures_sets_init s) as Hinit. fold first in Hinit.
  pose proof (process_structures_guard (st first) Hinit) as Hguard.
  rewrite Hguard. repeat split. exact Hinit.
Qed.

(** One turbine with its three structural items: the first call
    returns and fills the fleet tables. *)
Lemma process_structures_first_run :
  (fun o => (res o,
             labels (attrs (st o) !! "all_tubular_structures"),
             labels (attrs (st o) !! "substructure"),
             labels (attrs (st o) !! "all_lumped_mass")))
    <$> site_fleet_processed
  = Ok (Ok tt,
        ["T01_tw_2"; "T01_tw_1"; "T01_tp_2"; "T01_tp_1"; "T01_mp_2"; "T01_mp_1"],
        ["T01_tp_2"; "T01_tp_1"; "T01_mp_2"; "T01_mp_1"],
        ["T01_RNA"; "T01_TW_flange"; "T01_TP_platform"]).
Proof. vm_compute. reflexivity. Qed.

(** *** The attribute guards *)

Lemma mem_In (name : string) (names : list string) :
  mem name names = true <-> In name names.
Proof.
  unfold mem. rewrite existsb_exists. split.
  - intros (x & Hx & E). apply String.eqb_eq in E. subst. exact Hx.
  - intros Hin. exists name. split; [exact Hin | apply String.eqb_refl].
Qed.

(** Every slot of a turbine holds a value. *)
Lemma slot_total (name : string) (s : OWT.t) :
  mem name (ATTR_PROC ++ ATTR_SPEC) = true -> exists v, OWT.slot name s = Ok v.
Proof.
  intros Hm. apply mem_In in Hm. simpl in Hm.
  repeat (destruct Hm as [<-|Hm]; [eexists; reflexivity|]).
  contradiction.
Qed.

Lemma spec_not_proc (name : string) :
  mem name ATTR_SPEC = true -> mem name ATTR_PROC = false.
Proof.
  intros Hm. apply mem_In in Hm. simpl in Hm.
  repeat (destruct Hm as [<-|Hm]; [reflexivity|]).
  contradiction.
Qed.

(** C7, as stated, fails: a stage sets its flag when it starts, and one
    flag guards all the slots of ATTR_PROC.  After [process_structure]
    on the tower alone the monopile has never been processed; reading it
    returns [None] and no warning is emitted. *)
Lemma read_after_other_stage_counterexample :
  let o := @OWT.process_structure numpy_example "TW" Samples.site_owt in
  res o = Ok tt /\
  OWT._init_proc (st o) = true /\
  OWT.monopile (st o) = None /\
  OWT.__getattribute__ "monopile" (st o) = Outcome (Ok VNone) (st o) [].
Proof. vm_compute. repeat split. Qed.

(** C7, amended.  Reading a derived table never raises, returns exactly
    the value its slot holds, possibly [None], and leaves the object as it
    was; it emits one warning while a flag that guards the slot is unset
    and none once the flags are set, whatever the slot holds.  For a
    turbine the slots are those of ATTR_PROC, guarded by [_init_proc], and
    those of ATTR_SPEC, guarded by [_init_spec_part] and
    [_init_spec_full]; the value read is the field of that name.  For a
    fleet every slot is guarded by [_init]; a fleet as constructed has
    [_init] unset and all its slots. *)
Theorem unprocessed_read_warns_and_returns :
  (List.map fst stored_slots = (ATTR_PROC ++ ATTR_SPEC)%list /\
   forall (name : string) (field : OWT.t -> value) (s : OWT.t),
     In (name, field) stored_slots ->
     res (OWT.__getattribute__ name s) = Ok (field s) /\
     st (OWT.__getattribute__ name s) = s /\
     (flag_unset name s = true ->
        exists advice, log (OWT.__getattribute__ name s) = [Warn name advice]) /\
     (flag_unset name s = false -> log (OWT.__getattribute__ name s) = [])) /\
  (forall (s : OWTs.t) (name : string) (v : value),
      mem name (ATTR_PROC ++ ATTR_SPEC ++ ATTR_FULL) = true ->
      attrs s !! name = Some v ->
      __getattribute__ name s
      = Outcome (Ok v) s (if _init s then [] else [Warn name "process_structures()"])) /\
  (forall (turbines : list string) (turbs : list OWT.t) (s : OWTs.t) (name : string),
      __init__ turbines turbs = Ok s ->
      mem name (ATTR_PROC ++ ATTR_SPEC ++ ATTR_FULL) = true ->
      _init s = false /\ attrs s !! name = Some (VList [])).
Proof.
  split; [|split].
  - split; [reflexivity|].
    intros name field s Hin. unfold stored_slots in Hin. cbn [In] in Hin.
    repeat (destruct Hin as [[= <- <-]|Hin];
            [ split; [reflexivity|]; split; [reflexivity|];
              unfold flag_unset, OWT.__getattribute__, OWT.access_warnings;
              cbn [log mem existsb String.eqb Ascii.eqb Bool.eqb ATTR_PROC ATTR_SPEC
                   orb andb];
              destruct (OWT._init_proc s), (OWT._init_spec_part s),
                (OWT._init_spec_full s); cbn [negb andb orb];
              (split; [intros; try discriminate; eexists; reflexivity
                      | intros; try discriminate; reflexivity]) |]).
    contradiction.
  - intros s name v Hm Hv.
    unfold __getattribute__, access_warnings. rewrite Hv, Hm.
    destruct (_init s); reflexivity.
  - intros turbines turbs s name Hs Hm. unfold __init__ in Hs.
    destruct turbines as [|t0 turbines]; [discriminate|].
    cbn [mbind result_bind] in Hs.
    destruct (Dict.getitem t0 _) as [o|e]; [|discriminate].
    cbn [mbind result_bind] in Hs. injection Hs as <-. split; [reflexivity|].
    apply mem_In in Hm. cbn [attrs]. simpl in Hm.
    repeat (destruct Hm as [<-|Hm]; [vm_compute; reflexivity|]).
    contradiction.
Qed.

(** The substructure of an assembled turbine, read before the full
    structure is assembled: the table stored, with the advice to run the
    last stage. *)
Lemma unprocessed_read_warns_and_returns_witness :
  let s := st (@OWT.assembly_tp_mp numpy_example scenario) in
  exists df : frame Can,
    OWT.substructure s = Some df /\
    res (OWT.__getattribute__ "substructure" s) = Ok (VCans df) /\
    st (OWT.__getattribute__ "substructure" s) = s /\
    log (OWT.__getattribute__ "substructure" s)
    = [Warn "substructure" "assembly_full_structure()"].
Proof.
  intros s.
  destruct unprocessed_read_warns_and_returns as [[_ H] _].
  destruct (H "substructure" (fun s => of_option VCans (OWT.substructure s)) s)
    as (Hres & Hst & Hwarn & _).
  { unfold stored_slots. cbn [In]. do 13 right. left. reflexivity. }
  assert (is_Some (OWT.substructure s)) as [df E] by (vm_compute; eexists; reflexivity).
  exists df. split; [exact E|].
  split; [rewrite Hres, E; reflexivity|]. split; [exact Hst|].
  assert (flag_unset "substructure" s = true) as Hf by (vm_compute; reflexivity).
  destruct (Hwarn Hf) as [advice Hlog].
  rewrite Hlog. f_equal.
  assert (log (OWT.__getattribute__ "substructure" s)
          = [Warn "substructure" "assembly_full_structure()"]) as Hl
    by (vm_compute; reflexivity).
  rewrite Hl in Hlog. injection Hlog as <-. reflexivity.
Defined.

End OWTsProps.

(* ===================================================================== *)
(** ** Properties of the remaining members *)
(* ===================================================================== *)

(** *** Properties of the other members of a building block *)

Module BlocksProps.
Import Structures Blocks Spec Examples Views Samples.

Lemma split_slash_plain (s : string) :
  no_slash s = true -> split_slash s = (s, None).
Proof.
  induction s as [|c s IH]; [reflexivity|]. simpl.
  destruct (Ascii.eqb c "/"%char); [discriminate|]. simpl.
  intros H. rewrite (IH H). reflexivity.
Qed.

Lemma split_slash_pair (a b : string) :
  no_slash a = true -> split_slash (a ++ String "/"%char b) = (a, Some b).
Proof.
  induction a as [|c a IH]; [reflexivity|]. simpl.
  destruct (Ascii.eqb c "/"%char); [discriminate|]. simpl.
  intros H. rewrite (IH H). reflexivity.
Qed.

Lemma no_slash_uint (d : Decimal.uint) : no_slash (NilEmpty.string_of_uint d) = true.
Proof. induction d; simpl; auto. Qed.

Lemma no_slash_str_int (n : Z) : no_slash (str_int n) = true.
Proof.
  unfold str_int, NilZero.string_of_int, NilZero.string_of_uint.
  destruct (Z.to_int n) as [d|d]; destruct d; simpl; auto using no_slash_uint;
    try (apply no_slash_uint).
Qed.

Lemma str_int_nonempty (n : Z) : str_int n <> "".
Proof.
  unfold str_int, NilZero.string_of_int, NilZero.string_of_uint.
  destruct (Z.to_int n) as [d|d]; destruct d; discriminate.
Qed.

Lemma round_half_even_comp (p q : Q) : p == q -> round_half_even p = round_half_even q.
Proof.
  intros H. unfold round_half_even.
  rewrite (Qfloor_comp _ _ H).
  set (f := Qfloor q).
  assert (p - inject_Z f == q - inject_Z f) as Hr by (rewrite H; reflexivity).
  assert (Qeq_bool (p - inject_Z f) (1 # 2) = Qeq_bool (q - inject_Z f) (1 # 2)) as E1.
  { destruct (Qeq_bool (q - inject_Z f) (1 # 2)) eqn:E.
    - apply Qeq_bool_iff in E. apply Qeq_bool_iff. rewrite Hr. exact E.
    - destruct (Qeq_bool (p - inject_Z f) (1 # 2)) eqn:E'; [|reflexivity].
      apply Qeq_bool_iff in E'. rewrite Hr in E'. apply Qeq_bool_iff in E'. congruence. }
  assert (Qle_bool (p - inject_Z f) (1 # 2) = Qle_bool (q - inject_Z f) (1 # 2)) as E2.
  { destruct (Qle_bool (q - inject_Z f) (1 # 2)) eqn:E.
    - apply Qle_bool_iff in E. apply Qle_bool_iff. rewrite Hr. exact E.
    - destruct (Qle_bool (p - inject_Z f) (1 # 2)) eqn:E'; [|reflexivity].
      apply Qle_bool_iff in E'. rewrite Hr in E'. apply Qle_bool_iff in E'. congruence. }
  rewrite E1, E2. reflexivity.
Qed.

(** X1.  [diameter_str] writes what the geometry reads back.  When
    [BuildingBlock.diameter_str] returns a non-empty text, both outer
    diameters of the record are numbers, and [process_structure_geometry]
    splits that text of the "OD" column into the bottom diameter rounded to
    an integer as the diameter at the lower end ([d_to]) and the top
    diameter rounded as the diameter at the upper end ([d_from]), also when
    the text holds a single number. *)
Theorem diameter_str_feeds_geometry (bb : BuildingBlock) (od : string) (row : Structure) :
  diameter_str bb = Ok od -> od <> "" -> s_OD row = od ->
  exists bod tod : float64,
    json bb !! "bottom_outer_diameter" = Some (PyFloat bod) /\
    json bb !! "top_outer_diameter" = Some (PyFloat tod) /\
    str_int <$> round_int bod = Ok (OWT.d_to row) /\
    str_int <$> round_int tod = Ok (OWT.d_from row).
Proof.
  intros Hrun Hne Hrow.
  unfold diameter_str, top_outer_diameter, bottom_outer_diameter, tubular_field in Hrun.
  destruct (type bb) as [[| |]|e]; simpl in Hrun; try congruence.
  unfold getitem in Hrun.
  destruct (json bb !! "top_outer_diameter") as [[|tod]|]; simpl in Hrun; try congruence.
  destruct (ftruthy tod); simpl in Hrun; try congruence.
  destruct (json bb !! "bottom_outer_diameter") as [[|bod]|]; simpl in Hrun; try congruence.
  destruct (ftruthy bod); simpl in Hrun; try congruence.
  destruct (isnan tod); simpl in Hrun; try congruence.
  destruct (isnan bod); simpl in Hrun; try congruence.
  exists bod, tod. split; [reflexivity|]. split; [reflexivity|].
  unfold OWT.d_to, OWT.d_from. rewrite Hrow.
  destruct (fneb tod bod) eqn:Eneq; unfold rounded in Hrun; simpl in Hrun.
  - destruct (round_int bod) as [b|]; simpl in Hrun; [|discriminate].
    destruct (round_int tod) as [t|]; simpl in Hrun; [|discriminate].
    injection Hrun as <-.
    change (str_int b +:+ "/" +:+ str_int t) with (str_int b ++ String "/"%char (str_int t)).
    rewrite (split_slash_pair _ _ (no_slash_str_int b)). split; reflexivity.
  - destruct bod as [q| | |]; simpl in Hrun; try discriminate.
    injection Hrun as <-.
    rewrite (split_slash_plain _ (no_slash_str_int _)). split; [reflexivity|].
    unfold fneb in Eneq. apply negb_false_iff in Eneq.
    destruct tod as [q'| | |]; simpl in Eneq; try discriminate.
    apply Qeq_bool_iff in Eneq. simpl.
    rewrite (round_half_even_comp _ _ Eneq). reflexivity.
Qed.

(** The cone of steel, 6500 mm at its bottom and 6000 mm at its top. *)
Lemma diameter_str_feeds_geometry_witness :
  diameter_str cone_bb = Ok "6500/6000" /\
  exists bod tod : float64,
    json cone_bb !! "bottom_outer_diameter" = Some (PyFloat bod) /\
    json cone_bb !! "top_outer_diameter" = Some (PyFloat tod) /\
    str_int <$> round_int bod = Ok (OWT.d_to cone_row) /\
    str_int <$> round_int tod = Ok (OWT.d_from cone_row).
Proof.
  assert (diameter_str cone_bb = Ok "6500/6000") as H by (vm_compute; reflexivity).
  split; [exact H|].
  apply (diameter_str_feeds_geometry cone_bb "6500/6000" cone_row H);
    [discriminate | reflexivity].
Defined.

(** X2.  For a tubular section, whenever [BuildingBlock.as_dict] returns,
    the block has a material whose density passes the truth test of
    Python, the entry "volume" is a float that passes it as well, and the
    entry "mass" is [fround 1] of that volume times the density.  The
    truth test of a float rules out zero and nothing else: a NaN volume or
    density passes it. *)
Theorem as_dict_tubular_mass (bb : BuildingBlock) (d : BlockDict) :
  type bb = Ok tubular_section -> as_dict bb = Ok d ->
  exists (material : Material) (v : float64),
    bb_material bb = Some material /\ d_volume d = Some v /\
    ftruthy (mat_density material) = true /\ ftruthy v = true /\
    d_mass d = PyFloat (fround 1 (fmul v (mat_density material))).
Proof.
  intros Ht Hrun. unfold as_dict in Hrun.
  destruct (diameter_str bb) as [od|]; simpl in Hrun; [|discriminate].
  destruct (wall_thickness bb) as [wt|]; simpl in Hrun; [|discriminate].
  destruct (volume bb) as [v|] eqn:Ev; simpl in Hrun; [|discriminate].
  destruct (mass bb) as [m|] eqn:Em; simpl in Hrun; [|discriminate].
  destruct (moment_of_inertia bb) as [mi|]; simpl in Hrun; [|discriminate].
  injection Hrun as <-. simpl.
  unfold mass in Em. rewrite Ht in Em. simpl in Em.
  destruct (bb_material bb) as [material|]; [|discriminate].
  destruct (ftruthy (mat_density material)) eqn:Ed; [|discriminate].
  rewrite Ev in Em. simpl in Em.
  destruct v as [v|]; simpl in Em; [|discriminate].
  destruct (ftruthy v) eqn:Etv; [|discriminate].
  injection Em as <-.
  exists material, v. repeat split; assumption || reflexivity.
Qed.

(** The dictionary of the cone of steel. *)
Lemma as_dict_tubular_mass_witness :
  exists d : BlockDict,
    as_dict cone_bb = Ok d /\
    exists (material : Material) (v : float64),
      bb_material cone_bb = Some material /\ d_volume d = Some v /\
      ftruthy (mat_density material) = true /\ ftruthy v = true /\
      d_mass d = PyFloat (fround 1 (fmul v (mat_density material))).
Proof.
  assert (type cone_bb = Ok tubular_section) as Ht by (vm_compute; reflexivity).
  eexists. split; [vm_compute; reflexivity|].
  apply (as_dict_tubular_mass cone_bb _ Ht). vm_compute. reflexivity.
Defined.


End BlocksProps.

(** *** States and results of methods *)

(** Reasoning on the state a method leaves behind, whatever it returns
    and whatever it warns about. *)
Module Hoare.
Import MethodProps Triples.
Section Hoare.
Context {S : Type}.
Implicit Types s : S.

Lemma bind_res_ok {A B} (m : M S A) (k : A -> M S B) s (b : B) :
  res (Method.bind m k s) = Ok b ->
  exists a, res (m s) = Ok a /\ res (k a (st (m s))) = Ok b.
Proof.
  unfold Method.bind. destruct (res (m s)) as [a|e]; simpl; [|discriminate].
  intros H. exists a. split; [reflexivity | exact H].
Qed.

Lemma bind_st_ok {A B} (m : M S A) (k : A -> M S B) s (a : A) :
  res (m s) = Ok a -> st (Method.bind m k s) = st (k a (st (m s))).
Proof. intros E. unfold Method.bind. rewrite E. reflexivity. Qed.

Lemma bind_res_raise {A B} (m : M S A) (k : A -> M S B) s (e : exn) :
  res (m s) = Raise e -> res (Method.bind m k s) = Raise e.
Proof. intros E. unfold Method.bind. rewrite E. reflexivity. Qed.

Lemma bind_st_raise {A B} (m : M S A) (k : A -> M S B) s (e : exn) :
  res (m s) = Raise e -> st (Method.bind m k s) = st (m s).
Proof. intros E. unfold Method.bind. rewrite E. reflexivity. Qed.

Lemma preserves_bind {A B} (P : S -> Prop) (m : M S A) (k : A -> M S B) :
  preserves P m -> (forall a, preserves P (k a)) -> preserves P (Method.bind m k).
Proof.
  intros Hm Hk s Hs. unfold Method.bind.
  destruct (res (m s)) as [a|e] eqn:E; simpl; [apply Hk|]; apply Hm; exact Hs.
Qed.

Lemma preserves_ret {A} (P : S -> Prop) (a : A) : preserves P (Method.ret a).
Proof. intros s Hs. exact Hs. Qed.

Lemma preserves_raise {A} (P : S -> Prop) (e : exn) : preserves P (@Method.raise S A e).
Proof. intros s Hs. exact Hs. Qed.

Lemma preserves_lift {A} (P : S -> Prop) (r : result A) : preserves P (Method.lift r).
Proof. intros s Hs. exact Hs. Qed.

Lemma preserves_get (P : S -> Prop) : preserves P (@Method.get S).
Proof. intros s Hs. exact Hs. Qed.

Lemma preserves_warn (P : S -> Prop) (ws : list warning) : preserves P (@Method.warn S ws).
Proof. intros s Hs. exact Hs. Qed.

Lemma preserves_modify (P : S -> Prop) (f : S -> S) :
  (forall s, P s -> P (f s)) -> preserves P (Method.modify f).
Proof. intros Hf s Hs. apply Hf. exact Hs. Qed.

Lemma preserves_for_each {A} (P : S -> Prop) (xs : list A) (body : A -> M S unit) :
  (forall x, preserves P (body x)) -> preserves P (Method.for_each xs body).
Proof.
  intros Hb. induction xs as [|x xs IH]; [apply preserves_ret|].
  apply preserves_bind; [apply Hb | intros _; exact IH].
Qed.

(** A step that sets [P] first and keeps it afterwards. *)
Lemma modify_then {B} (P : S -> Prop) (f : S -> S) (k : unit -> M S B) s :
  P (f s) -> preserves P (k tt) -> P (st (Method.bind (Method.modify f) k s)).
Proof. intros Hf Hk. rewrite bind_modify. apply Hk. exact Hf. Qed.

End Hoare.
End Hoare.

Module Returns.
Import Triples.
Section Returns.
Context {S : Type}.

Lemma returns_bind {A B} (P : B -> Prop) (m : M S A) (k : A -> M S B) :
  (forall a, returns P (k a)) -> returns P (Method.bind m k).
Proof.
  intros Hk s b. unfold Method.bind.
  destruct (res (m s)) as [a|e]; simpl; [apply Hk | discriminate].
Qed.

Lemma returns_ret {A} (P : A -> Prop) (a : A) :
  P a -> returns P (@Method.ret S A a).
Proof. intros Ha s a' [= <-]. exact Ha. Qed.

Lemma returns_collect {A B} (name : B -> A) (xs : list A) (f : A -> M S B) :
  (forall x, returns (fun b => name b = x) (f x)) ->
  returns (fun bs => List.map name bs = xs) (Method.collect xs f).
Proof.
  intros Hf. induction xs as [|x xs IH]; intros s bs.
  - intros [= <-]. reflexivity.
  - cbn [Method.collect]. unfold Method.bind at 1.
    destruct (res (f x s)) as [b|e] eqn:Eb; cbn [res]; [|discriminate].
    unfold Method.bind at 1.
    destruct (res (Method.collect xs f (st (f x s)))) as [bs'|e] eqn:Ebs; cbn [res];
      [|discriminate].
    intros [= <-]. cbn [List.map]. rewrite (Hf x s b Eb), (IH _ _ Ebs). reflexivity.
Qed.

Lemma bind_ok_inv {A B} (m : M S A) (k : A -> M S B) (s : S) (b : B) :
  res (Method.bind m k s) = Ok b ->
  exists a, res (m s) = Ok a /\ res (k a (st (m s))) = Ok b /\
            st (Method.bind m k s) = st (k a (st (m s))).
Proof.
  unfold Method.bind. destruct (res (m s)) as [a|e]; simpl; [|discriminate].
  intros Hk. exists a. repeat split. exact Hk.
Qed.

End Returns.
End Returns.

(** *** Properties of a sub-assembly and its building blocks *)

Module AssemblyProps.
Import Structures Blocks Assembly MethodProps Triples Hoare Samples.

Section Build.
Variable np_int64 : float64 -> result Z.

Lemma find_material_first (material_id : float64) (materials : list Material)
    (m : Material) :
  find_material np_int64 material_id materials = Ok (Some m) ->
  np_int64 material_id = Ok (mat_id m) /\
  exists before after : list Material,
    materials = (before ++ m :: after)%list /\
    Forall (fun m' => mat_id m' <> mat_id m) before.
Proof.
  induction materials as [|mat materials IH]; [discriminate|].
  cbn [find_material].
  destruct (np_int64 material_id) as [wanted|] eqn:Ew; [|discriminate].
  cbn [mbind result_bind].
  destruct (Z.eqb_spec (mat_id mat) wanted) as [E|Hne].
  - intros [= <-]. split; [congruence|]. exists [], materials. split; [reflexivity|].
    constructor.
  - intros Hrest. destruct (IH Hrest) as (Hid & before & after & -> & Hbefore).
    split; [exact Hid|]. exists (mat :: before), after. split; [reflexivity|].
    constructor; [|exact Hbefore]. injection Hid as <-. exact Hne.
Qed.

(** X4.  A building block built by [BuildingBlock.__init__] has a
    material only if its record has a "material" number that is neither
    zero nor NaN and a sub-assembly was passed; the material is then the
    first one of the sub-assembly whose id is [np.int64] of that
    number. *)
Theorem building_block_material_matches (record : Json) (subassembly : option (list Material))
    (b : BuildingBlock) (m : Material) :
  __init__ np_int64 record subassembly = Ok b ->
  bb_material b = Some m ->
  exists (material_id : float64) (before after : list Material),
    j_numbers record !! "material" = Some (PyFloat material_id) /\
    ftruthy material_id = true /\ isnan material_id = false /\
    np_int64 material_id = Ok (mat_id m) /\
    subassembly = Some (before ++ m :: after)%list /\
    Forall (fun m' => mat_id m' <> mat_id m) before.
Proof.
  unfold __init__. cbv zeta.
  destruct (j_numbers record !! "material") as [[|material_id]|] eqn:Eid;
    destruct subassembly as [materials|]; cbn [truthy mbind result_bind];
    try (intros [= <-]; cbn [bb_material]; discriminate).
  destruct (ftruthy material_id) eqn:Etr; cbn [np_isnan mbind result_bind];
    [|intros [= <-]; cbn [bb_material]; discriminate].
  destruct (isnan material_id) eqn:Enan; cbn [negb as_float mbind result_bind];
    [intros [= <-]; cbn [bb_material]; discriminate|].
  destruct (find_material np_int64 material_id materials) as [found|] eqn:Ef;
    cbn [mbind result_bind]; [|discriminate].
  intros [= <-]. cbn [bb_material]. intros ->.
  destruct (find_material_first _ _ _ Ef) as (Hid & before & after & -> & Hbefore).
  exists material_id, before, after. repeat split; assumption.
Qed.

Lemma building_blocks_fill (s : t) (blocks : list BuildingBlock) :
  res (building_blocks np_int64 s) = Ok blocks ->
  blocks <> [] ->
  bb (st (building_blocks np_int64 s)) = Some blocks.
Proof.
  intros Hrun Hne.
  unfold building_blocks in Hrun |- *. rewrite bind_get in Hrun |- *.
  destruct (bb s) as [[|b0 cached]|] eqn:Ebb.
  - destruct (api s) as [[[exists_ data]|e]|]; try discriminate.
    rewrite bind_lift_ok in Hrun |- *. cbn [fst snd] in Hrun |- *.
    destruct exists_; [|discriminate].
    destruct (traverse _ data) as [bs|]; [|discriminate].
    rewrite bind_lift_ok, bind_modify in Hrun |- *.
    injection Hrun as <-. reflexivity.
  - injection Hrun as <-. exact Ebb.
  - destruct (api s) as [[[exists_ data]|e]|]; try discriminate.
    rewrite bind_lift_ok in Hrun |- *. cbn [fst snd] in Hrun |- *.
    destruct exists_; [|discriminate].
    destruct (traverse _ data) as [bs|]; [|discriminate].
    rewrite bind_lift_ok, bind_modify in Hrun |- *.
    injection Hrun as <-. reflexivity.
Qed.

Lemma building_blocks_hit (s : t) (blocks : list BuildingBlock) :
  bb s = Some blocks -> blocks <> [] ->
  building_blocks np_int64 s = Outcome (Ok blocks) s [].
Proof.
  intros Hbb Hne. unfold building_blocks. rewrite bind_get. rewrite Hbb.
  destruct blocks as [|b0 blocks]; [contradiction | reflexivity].
Qed.

(** X5.  Once [SubAssembly.building_blocks] has returned a non-empty list,
    that list is stored on the sub-assembly, and every later read returns
    the same list without a warning and without changing the object,
    whatever the API would answer by then (also without an API). *)
Theorem building_blocks_are_cached (s : t) (blocks : list BuildingBlock) :
  res (building_blocks np_int64 s) = Ok blocks ->
  blocks <> [] ->
  let s' := st (building_blocks np_int64 s) in
  bb s' = Some blocks /\
  forall answer : option (result (bool * list Json)),
    let s'' := {| bb := bb s'; materials := materials s'; api := answer |} in
    building_blocks np_int64 s'' = Outcome (Ok blocks) s'' [].
Proof.
  intros Hrun Hne s'.
  pose proof (building_blocks_fill s blocks Hrun Hne) as Hbb. fold s' in Hbb.
  split; [exact Hbb|].
  intros answer s''. apply building_blocks_hit; [|exact Hne].
  subst s''. cbn [bb]. exact Hbb.
Qed.

Lemma sum_heights_structural (blocks : list BuildingBlock) :
  forall acc : float64,
    Forall (fun b => is_ok (type b) = true) blocks ->
    sum_heights acc blocks = sum_heights acc (List.filter structural blocks).
Proof.
  induction blocks as [|b blocks IH]; intros acc Hty; [reflexivity|].
  inversion Hty as [|x l Hb Hrest]; subst.
  cbn [sum_heights List.filter]. unfold structural, counts_for_height.
  destruct (type b) as [[| |]|e] eqn:Et; try discriminate; cbn [mbind result_bind];
    try (apply IH; exact Hrest).
  destruct (negb (contains "grout" (lower (bb_title b)))) eqn:Eg;
    [|apply IH; exact Hrest].
  cbn [sum_heights]. unfold counts_for_height. rewrite Et. cbn [mbind result_bind].
  rewrite Eg.
  destruct (truthy (Structures.height b)); cbn [mbind result_bind].
  - destruct (np_isnan (Structures.height b)) as [[|]|]; cbn [mbind result_bind negb];
      try reflexivity; [apply IH; exact Hrest|].
    destruct (as_float (Structures.height b)); cbn [mbind result_bind];
      [apply IH; exact Hrest | reflexivity].
  - apply IH. exact Hrest.
Qed.

Lemma sum_heights_types (blocks : list BuildingBlock) :
  forall acc h : float64,
    sum_heights acc blocks = Ok h ->
    Forall (fun b => is_ok (type b) = true) blocks.
Proof.
  induction blocks as [|b blocks IH]; intros acc h; [constructor|].
  cbn [sum_heights]. unfold counts_for_height at 1.
  destruct (type b) as [ty|e] eqn:Et; [|discriminate]. cbn [mbind result_bind].
  intros Hrun. constructor; [rewrite Et; reflexivity|].
  destruct (match ty with
            | tubular_section => _
            | _ => Ok false
            end) as [[|]|]; cbn [mbind result_bind] in Hrun; try discriminate.
  - destruct (as_float (Structures.height b)); cbn [mbind result_bind] in Hrun;
      [|discriminate].
    exact (IH _ _ Hrun).
  - exact (IH _ _ Hrun).
Qed.

Lemma twice_building_blocks {A} (k : list BuildingBlock -> result A) (s : t) (a : A) :
  res (Method.bind (building_blocks np_int64)
         (fun blocks =>
            match blocks with
            | _ :: _ =>
                Method.bind (building_blocks np_int64)
                  (fun blocks => Method.lift (k blocks))
            | [] => Method.raise (ValueError "No building blocks found")
            end) s) = Ok a ->
  exists blocks : list BuildingBlock,
    blocks <> [] /\
    res (building_blocks np_int64 s) = Ok blocks /\
    bb (st (building_blocks np_int64 s)) = Some blocks /\
    k blocks = Ok a /\
    st (Method.bind (building_blocks np_int64)
         (fun blocks =>
            match blocks with
            | _ :: _ =>
                Method.bind (building_blocks np_int64)
                  (fun blocks => Method.lift (k blocks))
            | [] => Method.raise (ValueError "No building blocks found")
            end) s) = st (building_blocks np_int64 s).
Proof.
  intros Hrun.
  destruct (bind_res_ok _ _ _ _ Hrun) as (blocks & Hfirst & Hrest).
  rewrite (bind_st_ok _ _ _ _ Hfirst).
  destruct blocks as [|b0 blocks]; [discriminate|].
  assert (b0 :: blocks <> []) as Hne by discriminate.
  pose proof (building_blocks_fill s _ Hfirst Hne) as Hbb.
  pose proof (building_blocks_hit _ _ Hbb Hne) as Hhit.
  unfold Method.bind in Hrest |- *. rewrite Hhit in Hrest |- *.
  cbn [res st Method.lift] in Hrest |- *.
  exists (b0 :: blocks). repeat split; assumption.
Qed.

(** X6.  When [SubAssembly.height] returns, the sub-assembly holds a
    non-empty list of building blocks, each of which has a type, and the
    height returned is the sum taken over the tubular sections without
    "grout" in their lower-cased title alone: lumped masses, distributed
    masses and grout add nothing. *)
Theorem height_counts_structural_blocks (s : t) (h : float64) :
  res (height np_int64 s) = Ok h ->
  exists blocks : list BuildingBlock,
    blocks <> [] /\
    bb (st (height np_int64 s)) = Some blocks /\
    Forall (fun b => is_ok (type b) = true) blocks /\
    sum_heights (Fin 0) (List.filter structural blocks) = Ok h.
Proof.
  unfold height. intros Hrun.
  destruct (twice_building_blocks _ _ _ Hrun)
    as (blocks & Hne & _ & Hbb & Hsum & ->).
  exists blocks. split; [exact Hne|]. split; [exact Hbb|].
  pose proof (sum_heights_types _ _ _ Hsum) as Hty.
  split; [exact Hty|]. rewrite <- sum_heights_structural; assumption.
Qed.

Lemma sum_masses_blocks (blocks : list BuildingBlock) :
  forall acc m : float64,
    sum_masses acc blocks = Ok m ->
    Forall (fun b => is_ok (Blocks.mass b) = true) blocks.
Proof.
  induction blocks as [|b blocks IH]; intros acc m; [constructor|].
  cbn [sum_masses].
  destruct (Blocks.mass b) as [mb|e] eqn:Em; [|discriminate]. cbn [mbind result_bind].
  intros Hrun. constructor; [rewrite Em; reflexivity|].
  destruct (if truthy mb then _ else _) as [[|]|]; cbn [mbind result_bind] in Hrun;
    try discriminate.
  - destruct (as_float mb); cbn [mbind result_bind] in Hrun; [|discriminate].
    exact (IH _ _ Hrun).
  - exact (IH _ _ Hrun).
Qed.

Lemma tubular_mass_needs_material (b : BuildingBlock) :
  is_ok (Blocks.mass b) = true ->
  type b = Ok tubular_section ->
  exists material : Material,
    bb_material b = Some material /\ ftruthy (mat_density material) = true.
Proof.
  unfold Blocks.mass. intros Hok Ht. rewrite Ht in Hok. cbn [mbind result_bind] in Hok.
  destruct (bb_material b) as [material|]; [|discriminate].
  exists material. split; [reflexivity|].
  destruct (ftruthy (mat_density material)); [reflexivity | discriminate].
Qed.

(** X7.  When [SubAssembly.mass] returns, the sub-assembly holds a
    non-empty list of building blocks, the mass of every one of them can be
    computed, and every tubular section among them has a material of
    non-zero density: one block without a mass makes the whole property
    raise. *)
Theorem mass_needs_every_block (s : t) (m : float64) :
  res (mass np_int64 s) = Ok m ->
  exists blocks : list BuildingBlock,
    blocks <> [] /\
    bb (st (mass np_int64 s)) = Some blocks /\
    sum_masses (Fin 0) blocks = Ok m /\
    Forall (fun b =>
              is_ok (Blocks.mass b) = true /\
              (type b = Ok tubular_section ->
               exists material : Material,
                 bb_material b = Some material /\
                 ftruthy (mat_density material) = true)) blocks.
Proof.
  unfold mass. intros Hrun.
  destruct (twice_building_blocks _ _ _ Hrun)
    as (blocks & Hne & _ & Hbb & Hsum & ->).
  exists blocks. split; [exact Hne|]. split; [exact Hbb|]. split; [exact Hsum|].
  pose proof (sum_masses_blocks _ _ _ Hsum) as Hall.
  apply List.Forall_forall. intros b Hin.
  rewrite List.Forall_forall in Hall. specialize (Hall b Hin).
  split; [exact Hall|]. apply tubular_mass_needs_material. exact Hall.
Qed.

End Build.

(** The record of the cone in a sub-assembly of grout and steel: steel
    is found behind grout. *)
Lemma building_block_material_matches_witness :
  __init__ integer_part cone_record (Some [grout_material; steel]) = Ok cone_bb /\
  exists (material_id : float64) (before after : list Material),
    j_numbers cone_record !! "material" = Some (PyFloat material_id) /\
    ftruthy material_id = true /\ isnan material_id = false /\
    integer_part material_id = Ok (mat_id steel) /\
    Some [grout_material; steel] = Some (before ++ steel :: after)%list /\
    Forall (fun m' => mat_id m' <> mat_id steel) before.
Proof.
  assert (__init__ integer_part cone_record (Some [grout_material; steel]) = Ok cone_bb)
    as H by (vm_compute; reflexivity).
  split; [exact H|].
  exact (building_block_material_matches integer_part cone_record
           (Some [grout_material; steel]) cone_bb steel H eq_refl).
Defined.

(** The first read of a sub-assembly with a cone and a platform. *)
Lemma building_blocks_are_cached_witness :
  res (building_blocks integer_part fresh_assembly) = Ok [cone_bb; platform_bb] /\
  let s' := st (building_blocks integer_part fresh_assembly) in
  bb s' = Some [cone_bb; platform_bb] /\
  forall answer : option (result (bool * list Json)),
    let s'' := {| bb := bb s'; materials := materials s'; api := answer |} in
    building_blocks integer_part s'' = Outcome (Ok [cone_bb; platform_bb]) s'' [].
Proof.
  assert (res (building_blocks integer_part fresh_assembly) = Ok [cone_bb; platform_bb])
    as H by (vm_compute; reflexivity).
  split; [exact H|].
  apply (building_blocks_are_cached integer_part fresh_assembly _ H). discriminate.
Defined.

(** The same sub-assembly is as high as its cone. *)
Lemma height_counts_structural_blocks_witness :
  res (height integer_part fresh_assembly) = Ok (Fin 8000) /\
  exists blocks : list BuildingBlock,
    blocks <> [] /\
    bb (st (height integer_part fresh_assembly)) = Some blocks /\
    Forall (fun b => is_ok (type b) = true) blocks /\
    sum_heights (Fin 0) (List.filter structural blocks) = Ok (Fin 8000).
Proof.
  assert (res (height integer_part fresh_assembly) = Ok (Fin 8000)) as H
    by (vm_compute; reflexivity).
  split; [exact H|].
  exact (height_counts_structural_blocks integer_part fresh_assembly (Fin 8000) H).
Defined.

(** The same sub-assembly: the mass of the cone and of the platform. *)
Lemma mass_needs_every_block_witness :
  res (mass integer_part fresh_assembly) = Ok (Fin 66160.5) /\
  exists blocks : list BuildingBlock,
    blocks <> [] /\
    bb (st (mass integer_part fresh_assembly)) = Some blocks /\
    sum_masses (Fin 0) blocks = Ok (Fin 66160.5) /\
    Forall (fun b =>
              is_ok (Blocks.mass b) = true /\
              (type b = Ok tubular_section ->
               exists material : Material,
                 bb_material b = Some material /\
                 ftruthy (mat_density material) = true)) blocks.
Proof.
  assert (res (mass integer_part fresh_assembly) = Ok (Fin 66160.5)) as H
    by (vm_compute; reflexivity).
  split; [exact H|].
  exact (mass_needs_every_block integer_part fresh_assembly (Fin 66160.5) H).
Defined.
End AssemblyProps.

(** *** Properties of the pile segments *)

Module PileProps.
Import Pile Examples Samples.

Section Props.
Variable float : string -> result float64.
Variable material : result Structures.Material.

Lemma pile_row_elevations (penetration : float64) (previous row : Block) (r : PileRow) :
  pile_row float material penetration previous row = Ok r ->
  p_elevation_from r = fsub penetration (fmul (Fin 1e-3) (b_z previous)) /\
  p_elevation_to r = fsub penetration (fmul (Fin 1e-3) (b_z row)).
Proof.
  unfold pile_row.
  destruct material as [m|]; simpl; [|discriminate].
  destruct (outer_diameters (b_OD row)) as [bot top].
  destruct (float bot); simpl; [|discriminate].
  destruct (float top); simpl; [|discriminate].
  intros [= <-]. split; reflexivity.
Qed.

(** The segments follow the rows of the table: one per row after the
    first, labelled from [i], each starting where the row before it
    stands and ending where its own row stands. *)
Lemma pile_rows_spec (penetration : float64) (rows : list Block) :
  forall (i : nat) (previous : Block) (pile : pile_frame),
    pile_rows float material penetration i previous rows = Ok pile ->
    List.map fst pile = seq i (length rows) /\
    List.map (fun lr => p_elevation_to (snd lr)) pile
      = List.map (fun b => fsub penetration (fmul (Fin 1e-3) (b_z b))) rows /\
    List.map (fun lr => p_elevation_from (snd lr)) pile
      = List.map (fun b => fsub penetration (fmul (Fin 1e-3) (b_z b)))
          (removelast (previous :: rows)).
Proof.
  induction rows as [|row rows IH]; intros i previous pile.
  - intros [= <-]. repeat split.
  - cbn [pile_rows].
    destruct (pile_row float material penetration previous row) as [r|] eqn:Er;
      [|discriminate].
    cbn [mbind result_bind].
    destruct (pile_rows float material penetration (S i) row rows) as [rs|] eqn:Ers;
      [|discriminate].
    cbn [mbind result_bind]. intros [= <-].
    destruct (IH _ _ _ Ers) as (Hl & Ht & Hf).
    destruct (pile_row_elevations _ _ _ _ Er) as [Efrom Eto].
    cbn [List.map fst snd length seq]. rewrite Hl, Ht, Hf, Efrom, Eto.
    repeat split.
Qed.

Lemma pile_rows_contiguous (penetration : float64) (rows : list Block) :
  forall (i : nat) (previous : Block) (pile : pile_frame),
    pile_rows float material penetration i previous rows = Ok pile ->
    (forall a, pile !! 0%nat = Some a ->
       p_elevation_from (snd a) = fsub penetration (fmul (Fin 1e-3) (b_z previous))) /\
    (forall (j : nat) (a b : nat * PileRow),
       pile !! j = Some a -> pile !! S j = Some b ->
       p_elevation_from (snd b) = p_elevation_to (snd a)).
Proof.
  induction rows as [|row rows IH]; intros i previous pile.
  - intros [= <-]. split; intros; discriminate.
  - cbn [pile_rows].
    destruct (pile_row float material penetration previous row) as [r|] eqn:Er;
      [|discriminate].
    cbn [mbind result_bind].
    destruct (pile_rows float material penetration (S i) row rows) as [rs|] eqn:Ers;
      [|discriminate].
    cbn [mbind result_bind]. intros [= <-].
    destruct (IH _ _ _ Ers) as (Hhead & Hnext).
    destruct (pile_row_elevations _ _ _ _ Er) as [Efrom Eto].
    split.
    + intros a [= <-]. exact Efrom.
    + intros [|j] a b; cbn [lookup list_lookup].
      * intros [= <-] Hb. cbn [snd]. rewrite Eto. exact (Hhead _ Hb).
      * exact (Hnext j a b).
Qed.

(** X8.  Without a cut-off, [transform_monopile_geometry] returns one
    segment per row of the monopile table after the first, labelled 1, 2,
    ..., and each segment starts at the elevation where the segment before
    it ends. *)
Theorem uncut_pile_is_contiguous (s : OWT.t) (pile : pile_frame) :
  transform_monopile_geometry float material NaN s = Ok pile ->
  exists df : frame Block,
    OWT.mp_sub_assemblies s = Some df /\
    List.map fst pile = seq 1 (length df - 1) /\
    forall (j : nat) (a b : nat * PileRow),
      pile !! j = Some a -> pile !! S j = Some b ->
      p_elevation_from (snd b) = p_elevation_to (snd a).
Proof.
  unfold transform_monopile_geometry.
  destruct (Dict.getitem "MP" (OWT.sub_assemblies s)) as [mp|]; [|discriminate].
  cbn [mbind result_bind].
  destruct (OWT.mp_sub_assemblies s) as [df|]; [|discriminate].
  cbn [mbind result_bind isnan negb].
  intros Hrun. exists df. split; [reflexivity|].
  destruct df as [|[l0 first] rows]; cbn [List.map snd] in Hrun.
  - injection Hrun as <-. split; [reflexivity|]. intros; discriminate.
  - match type of Hrun with
    | mbind _ ?m = _ => destruct m as [p|] eqn:Ep; [|discriminate]
    end.
    cbn [mbind result_bind] in Hrun. injection Hrun as <-.
    destruct (pile_rows_spec _ _ _ _ _ Ep) as (Hl & _).
    destruct (pile_rows_contiguous _ _ _ _ _ Ep) as (_ & Hnext).
    split; [|exact Hnext].
    rewrite Hl, length_map. f_equal. cbn [length]. lia.
Qed.

Lemma snd_combine_seq {A} (l : list A) (i : nat) :
  List.map snd (combine (seq i (length l)) l) = l.
Proof.
  revert i. induction l as [|x l IH]; intros i; [reflexivity|].
  cbn [length seq combine List.map snd]. rewrite IH. reflexivity.
Qed.

Lemma fst_combine_seq {A} (l : list A) (i : nat) :
  List.map fst (combine (seq i (length l)) l) = seq i (length l).
Proof.
  revert i. induction l as [|x l IH]; intros i; [reflexivity|].
  cbn [length seq combine List.map fst]. rewrite IH. reflexivity.
Qed.

(** X9.  With a cut-off that is not NaN, whenever
    [transform_monopile_geometry] returns, the table has a first row
    labelled 0 that starts at the cut-off, the labels are 0, 1, 2, ..., and
    every row ends below the cut-off, unless no segment does: the table is
    then that single row, with no material. *)
Theorem cut_pile_starts_at_cutoff (cutoff_point : float64) (s : OWT.t) (pile : pile_frame) :
  isnan cutoff_point = false ->
  transform_monopile_geometry float material cutoff_point s = Ok pile ->
  exists (r : PileRow) (rest : pile_frame),
    pile = (0%nat, r) :: rest /\
    p_elevation_from r = cutoff_point /\
    List.map fst pile = seq 0 (length pile) /\
    Forall (fun lr => fgtb (p_elevation_to (snd lr)) cutoff_point = true) rest /\
    (fgtb (p_elevation_to r) cutoff_point = true \/
     rest = [] /\ p_material r = None).
Proof.
  intros Hc. unfold transform_monopile_geometry.
  destruct (Dict.getitem "MP" (OWT.sub_assemblies s)) as [mp|]; [|discriminate].
  cbn [mbind result_bind].
  destruct (OWT.mp_sub_assemblies s) as [df|]; [|discriminate].
  cbn [mbind result_bind].
  match goal with
  | |- mbind _ ?m = _ -> _ =>
      destruct m as [[|p0 p]|]; cbn [mbind result_bind]; rewrite ?Hc; cbn [negb];
        try discriminate
  end.
  set (keep := fun lr : nat * PileRow => fgtb (p_elevation_to (snd lr)) cutoff_point).
  remember (List.filter keep (p0 :: p)) as kept0 eqn:Ek.
  assert (Forall (fun lr => keep lr = true) kept0) as Hkept.
  { subst kept0. apply List.Forall_forall. intros x Hx.
    apply List.filter_In in Hx. apply Hx. }
  clear Ek. intros [= <-].
  destruct kept0 as [|[l0 r0] kept].
  - eexists. exists []. cbn. repeat split; auto.
  - unfold reset_index. cbn [length seq List.map snd combine loc_0_set_elevation_from].
    inversion Hkept as [|x l Hr0 Hrest]; subst.
    eexists. eexists. split; [reflexivity|]. split; [reflexivity|].
    split.
    { cbn [List.map fst length]. rewrite length_combine, length_seq, length_map,
        Nat.min_id. f_equal.
      rewrite <- (length_map snd kept) at 1. rewrite fst_combine_seq, length_map.
      reflexivity. }
    split; [|left; exact Hr0].
    apply List.Forall_forall. intros [l x] Hin.
    assert (In x (List.map snd (combine (seq 1 (length kept)) (List.map snd kept)))) as Hx.
    { apply List.in_map_iff. exists (l, x). split; [reflexivity | exact Hin]. }
    rewrite <- (length_map snd kept) in Hx. rewrite snd_combine_seq in Hx.
    apply List.in_map_iff in Hx. destruct Hx as ([l' x'] & <- & Hin').
    rewrite List.Forall_forall in Hrest. exact (Hrest _ Hin').
Qed.

End Props.

(** The monopile of the site, of two building blocks. *)
Lemma uncut_pile_is_contiguous_witness :
  exists pile : pile_frame,
    transform_monopile_geometry decimal_integer (Ok steel) NaN site_owt = Ok pile /\
    exists df : frame Block,
      OWT.mp_sub_assemblies site_owt = Some df /\
      List.map fst pile = seq 1 (length df - 1) /\
      forall (j : nat) (a b : nat * PileRow),
        pile !! j = Some a -> pile !! S j = Some b ->
        p_elevation_from (snd b) = p_elevation_to (snd a).
Proof.
  eexists. split; [vm_compute; reflexivity|].
  apply (uncut_pile_is_contiguous decimal_integer (Ok steel) site_owt).
  vm_compute. reflexivity.
Defined.

(** The same monopile cut 20 m below the mudline. *)
Lemma cut_pile_starts_at_cutoff_witness :
  exists pile : pile_frame,
    transform_monopile_geometry decimal_integer (Ok steel) (Fin 20) site_owt = Ok pile /\
    exists (r : PileRow) (rest : pile_frame),
      pile = (0%nat, r) :: rest /\
      p_elevation_from r = Fin 20 /\
      List.map fst pile = seq 0 (length pile) /\
      Forall (fun lr => fgtb (p_elevation_to (snd lr)) (Fin 20) = true) rest /\
      (fgtb (p_elevation_to r) (Fin 20) = true \/
       rest = [] /\ p_material r = None).
Proof.
  eexists. split; [vm_compute; reflexivity|].
  apply (cut_pile_starts_at_cutoff decimal_integer (Ok steel) (Fin 20) site_owt);
    vm_compute; reflexivity.
Defined.
End PileProps.

(** *** Properties of the fleet dictionaries, the selection and the model guard *)

Module DictProps.

Lemma lookup_app_fresh {V} (k : string) (a b : Dict.dict V) :
  Dict.lookup k a = None -> Dict.lookup k (a ++ b)%list = Dict.lookup k b.
Proof.
  induction a as [|[k' v'] a IH]; [reflexivity|]. simpl.
  destruct (String.eqb k k'); [discriminate | exact IH].
Qed.

Lemma lookup_None {V} (k : string) (d : Dict.dict V) :
  Dict.lookup k d = None <-> ~ In k (List.map fst d).
Proof.
  induction d as [|[k' v'] d IH]; simpl.
  - split; [intros _ [] | reflexivity].
  - destruct (String.eqb_spec k k') as [->|Hne].
    + split; [discriminate | intros H; exfalso; apply H; left; reflexivity].
    + rewrite IH. split.
      * intros H [E|Hin]; [congruence | contradiction].
      * intros H Hin. apply H. right. exact Hin.
Qed.

Lemma insert_fresh {V} (k : string) (v : V) (d : Dict.dict V) :
  ~ In k (List.map fst d) -> Dict.insert k v d = (d ++ [(k, v)])%list.
Proof.
  induction d as [|[k' v'] d IH]; [reflexivity|]. simpl. intros H.
  destruct (String.eqb_spec k k') as [->|Hne].
  - exfalso. apply H. left. reflexivity.
  - rewrite IH; [reflexivity|]. intros Hin. apply H. right. exact Hin.
Qed.

(** [dict(zip(keys, values))] of distinct keys lists the pairs as given. *)
Lemma of_list_distinct {V} (kvs : list (string * V)) :
  List.NoDup (List.map fst kvs) -> Dict.of_list kvs = kvs.
Proof.
  unfold Dict.of_list.
  assert (forall acc : Dict.dict V,
            List.NoDup (List.map fst (acc ++ kvs)%list) ->
            fold_left (fun d kv => Dict.insert (fst kv) (snd kv) d) kvs acc
            = (acc ++ kvs)%list) as H.
  { induction kvs as [|[k v] kvs IH]; intros acc Hnd; simpl.
    - rewrite app_nil_r. reflexivity.
    - rewrite insert_fresh.
      + rewrite IH; rewrite <- app_assoc; [reflexivity | exact Hnd].
      + rewrite List.map_app in Hnd. apply List.NoDup_remove_2 in Hnd.
        intros Hin. apply Hnd. apply List.in_or_app. left. exact Hin. }
  intros Hnd. exact (H [] Hnd).
Qed.

Lemma lookup_In {V} (k : string) (v : V) (d : Dict.dict V) :
  List.NoDup (List.map fst d) -> In (k, v) d -> Dict.lookup k d = Some v.
Proof.
  induction d as [|[k' v'] d IH]; simpl; [intros _ []|].
  intros Hnd [E|Hin].
  - injection E as -> ->. rewrite String.eqb_refl. reflexivity.
  - inversion Hnd as [|x l Hx Hnd']; subst.
    destruct (String.eqb_spec k k') as [->|Hne].
    + exfalso. apply Hx. apply List.in_map_iff. exists (k', v). split; [reflexivity | exact Hin].
    + exact (IH Hnd' Hin).
Qed.

Lemma keys_combine_distinct {V} (ks : list string) (vs : list V) :
  List.NoDup ks -> List.NoDup (List.map fst (combine ks vs)).
Proof.
  revert vs. induction ks as [|k ks IH]; intros vs Hnd; [constructor|].
  destruct vs as [|v vs]; [constructor|]. simpl.
  inversion Hnd as [|x l Hx Hnd']; subst. constructor; [|exact (IH vs Hnd')].
  intros Hin. apply Hx. apply List.in_map_iff in Hin.
  destruct Hin as ([k' v'] & <- & Hin). exact (List.in_combine_l _ _ _ _ Hin).
Qed.

Lemma combine_lookup {A B} (l1 : list A) (l2 : list B) (i : nat) (a : A) (b : B) :
  l1 !! i = Some a -> l2 !! i = Some b -> combine l1 l2 !! i = Some (a, b).
Proof.
  revert l2 i. induction l1 as [|x l1 IH]; intros [|y l2] [|i]; simpl; try discriminate.
  - intros [= <-] [= <-]. reflexivity.
  - apply IH.
Qed.

Lemma lookup_nth_error {A} (l : list A) (i : nat) : nth_error l i = l !! i.
Proof. revert i. induction l as [|x l IH]; intros [|i]; simpl; auto. Qed.

Lemma lookup_In_list {A} (l : list A) (i : nat) (a : A) : l !! i = Some a -> In a l.
Proof. rewrite <- lookup_nth_error. apply List.nth_error_In. Qed.

End DictProps.

Module FleetProps.
Import Selection GeometryIO DictProps Examples Samples.

Lemma init_owts (turbines : list string) (owts : list OWT.t) (fleet : OWTs.t) :
  List.NoDup turbines ->
  OWTs.__init__ turbines owts = Ok fleet ->
  OWTs.owts fleet = combine turbines owts.
Proof.
  intros Hnd. unfold OWTs.__init__.
  rewrite (of_list_distinct (combine turbines owts))
    by (apply keys_combine_distinct; exact Hnd).
  match goal with
  | |- mbind _ ?m = _ -> _ => destruct m; [|discriminate]
  end.
  cbn [mbind result_bind]. intros [= <-]. reflexivity.
Qed.

(** X10.  In a fleet built by [OWTs.__init__] from distinct turbine
    titles, [select_owt] returns the i-th turbine passed both for the index
    i and for the i-th title. *)
Theorem select_owt_by_index_or_title (turbines : list string) (owts : list OWT.t)
    (fleet : OWTs.t) (i : nat) (title : string) (owt : OWT.t) :
  List.NoDup turbines ->
  OWTs.__init__ turbines owts = Ok fleet ->
  turbines !! i = Some title ->
  owts !! i = Some owt ->
  select_owt (IntRef (Z.of_nat i)) fleet = Ok owt /\
  select_owt (StrRef title) fleet = Ok owt.
Proof.
  intros Hnd Hinit Ht Ho.
  pose proof (init_owts _ _ _ Hnd Hinit) as Eo.
  pose proof (combine_lookup _ _ _ _ _ Ht Ho) as Hi.
  assert (Dict.getitem title (OWTs.owts fleet) = Ok owt) as Hget.
  { unfold Dict.getitem. rewrite Eo.
    rewrite (lookup_In title owt);
      [reflexivity | apply keys_combine_distinct; exact Hnd
       | exact (lookup_In_list _ _ _ Hi)]. }
  split; [|exact Hget].
  unfold select_owt, list_getitem.
  assert ((Z.of_nat i <? 0)%Z = false) as E by (apply Z.ltb_ge; lia).
  cbv zeta. rewrite E. cbv iota. rewrite E.
  rewrite Nat2Z.id, lookup_nth_error. unfold Dict.keys. rewrite Eo.
  rewrite list_lookup_fmap, Hi. cbn [fmap option_fmap option_map fst mbind result_bind].
  rewrite <- Eo. exact Hget.
Qed.

(** The fleet of the one turbine of the site. *)
Lemma select_owt_by_index_or_title_witness :
  OWTs.__init__ ["T01"] [site_owt] = Ok site_fleet_built /\
  select_owt (IntRef 0) site_fleet_built = Ok site_owt /\
  select_owt (StrRef "T01") site_fleet_built = Ok site_owt.
Proof.
  assert (OWTs.__init__ ["T01"] [site_owt] = Ok site_fleet_built) as H
    by (vm_compute; reflexivity).
  split; [exact H|].
  apply (select_owt_by_index_or_title ["T01"] [site_owt] site_fleet_built 0 "T01" site_owt);
    [ constructor; [intros [] | constructor] | exact H | reflexivity | reflexivity ].
Defined.

Lemma values_combine {V} (ks : list string) (vs : list V) (i : nat) (k : string) (v : V) :
  ks !! i = Some k -> vs !! i = Some v ->
  Dict.values (combine ks vs) !! i = Some v.
Proof.
  intros Hk Hv. unfold Dict.values.
  rewrite list_lookup_fmap, (combine_lookup _ _ _ _ _ Hk Hv). reflexivity.
Qed.

(** What [OWTs.__init__] stores under a turbine's title in one of its
    per-turbine dictionaries. *)
Lemma per_turbine_lookup {A} (field : OWT.t -> A) (turbines : list string)
    (owts : list OWT.t) (i : nat) (title : string) (owt : OWT.t) :
  List.NoDup turbines ->
  turbines !! i = Some title ->
  owts !! i = Some owt ->
  Dict.lookup title
    (Dict.of_list
       (combine turbines
          (List.map field (Dict.values (Dict.of_list (combine turbines owts))))))
  = Some (field owt).
Proof.
  intros Hnd Ht Ho.
  rewrite (of_list_distinct (combine turbines owts))
    by (apply keys_combine_distinct; exact Hnd).
  rewrite of_list_distinct by (apply keys_combine_distinct; exact Hnd).
  apply lookup_In; [apply keys_combine_distinct; exact Hnd|].
  apply (lookup_In_list _ i). apply combine_lookup; [exact Ht|].
  change (List.map field ?l !! i) with ((field <$> l) !! i).
  rewrite list_lookup_fmap, (values_combine _ _ _ _ _ Ht Ho). reflexivity.
Qed.

(** X11.  In a fleet built by [OWTs.__init__] from distinct turbine
    titles, the dictionaries [sub_assemblies], [tower_base], [pile_head] and
    [water_depth] hold under each title the attribute of the turbine passed
    at the same place. *)
Theorem fleet_dictionaries_follow_turbines (turbines : list string) (owts : list OWT.t)
    (fleet : OWTs.t) (i : nat) (title : string) (owt : OWT.t) :
  List.NoDup turbines ->
  OWTs.__init__ turbines owts = Ok fleet ->
  turbines !! i = Some title ->
  owts !! i = Some owt ->
  Dict.lookup title (OWTs.sub_assemblies fleet) = Some (OWT.sub_assemblies owt) /\
  Dict.lookup title (OWTs.tower_base fleet) = Some (OWT.tower_base owt) /\
  Dict.lookup title (OWTs.pile_head fleet) = Some (OWT.pile_head owt) /\
  Dict.lookup title (OWTs.water_depth fleet) = Some (OWT.water_depth owt).
Proof.
  intros Hnd Hinit Ht Ho. unfold OWTs.__init__ in Hinit.
  match type of Hinit with
  | mbind _ ?m = _ => destruct m; [|discriminate]
  end.
  cbn [mbind result_bind] in Hinit. injection Hinit as <-.
  cbn [OWTs.sub_assemblies OWTs.tower_base OWTs.pile_head OWTs.water_depth].
  repeat split; apply (per_turbine_lookup _ _ _ i); assumption.
Qed.

(** The dictionaries of the same fleet. *)
Lemma fleet_dictionaries_follow_turbines_witness :
  OWTs.__init__ ["T01"] [site_owt] = Ok site_fleet_built /\
  Dict.lookup "T01" (OWTs.sub_assemblies site_fleet_built)
    = Some (OWT.sub_assemblies site_owt) /\
  Dict.lookup "T01" (OWTs.tower_base site_fleet_built) = Some (OWT.tower_base site_owt) /\
  Dict.lookup "T01" (OWTs.pile_head site_fleet_built) = Some (OWT.pile_head site_owt) /\
  Dict.lookup "T01" (OWTs.water_depth site_fleet_built)
    = Some (OWT.water_depth site_owt).
Proof.
  assert (OWTs.__init__ ["T01"] [site_owt] = Ok site_fleet_built) as H
    by (vm_compute; reflexivity).
  split; [exact H|].
  apply (fleet_dictionaries_follow_turbines ["T01"] [site_owt] site_fleet_built 0 "T01"
           site_owt);
    [ constructor; [intros [] | constructor] | exact H | reflexivity | reflexivity ].
Defined.

(** The number of distinct entries of a list is its length exactly when
    no entry occurs twice. *)
Lemma size_list_to_set_le (l : list string) :
  (size (list_to_set l : gset string) <= length l)%nat.
Proof.
  induction l as [|x l IH]; [rewrite list_to_set_nil, size_empty; lia|].
  rewrite list_to_set_cons. cbn [length].
  pose proof (size_union_alt ({[x]} : gset string) (list_to_set l)) as H.
  rewrite H, size_singleton.
  pose proof (subseteq_size (list_to_set l ∖ {[x]} : gset string) (list_to_set l)) as H2.
  assert (size (list_to_set l ∖ {[x]} : gset string) <= size (list_to_set l : gset string))%nat
    by (apply H2, subseteq_difference_l; reflexivity).
  lia.
Qed.

Lemma size_list_to_set_distinct (l : list string) :
  size (list_to_set l : gset string) = length l <-> List.NoDup l.
Proof.
  split.
  - induction l as [|x l IH]; [constructor|].
    rewrite list_to_set_cons. cbn [length]. intros Hs.
    destruct (decide (x ∈ (list_to_set l : gset string))) as [Hin|Hnin].
    + exfalso.
      assert (({[x]} ∪ list_to_set l : gset string) = list_to_set l) as E
        by (apply subseteq_union_1_L, singleton_subseteq_l; exact Hin).
      rewrite E in Hs. pose proof (size_list_to_set_le l). lia.
    + rewrite size_union in Hs by (apply disjoint_singleton_l; exact Hnin).
      rewrite size_singleton in Hs.
      constructor; [|apply IH; lia].
      intros Hx. apply Hnin. apply elem_of_list_to_set, list_elem_of_In. exact Hx.
  - intros Hnd. apply size_list_to_set, NoDup_ListNoDup. exact Hnd.
Qed.

Lemma passed_check_distinct (subassembly_types : list string) (turbine : string) :
  _check_if_need_modeldef subassembly_types turbine = Ok tt ->
  List.NoDup subassembly_types.
Proof.
  unfold _check_if_need_modeldef. cbv zeta.
  rewrite <- size_list_to_set_distinct.
  pose proof (size_list_to_set_le subassembly_types) as Hle.
  destruct (Nat.ltb_spec (size (list_to_set subassembly_types : gset string))
              (length subassembly_types)) as [Hlt|Hge]; [discriminate | lia].
Qed.

(** X12.  [_check_if_need_modeldef] lets a sub-assembly table pass exactly
    when no sub-assembly type occurs twice in it; otherwise it raises. *)
Theorem model_definition_check_accepts_distinct_types (subassembly_types : list string)
    (turbine : string) :
  _check_if_need_modeldef subassembly_types turbine = Ok tt
  <-> List.NoDup subassembly_types.
Proof.
  split; [apply passed_check_distinct|].
  unfold _check_if_need_modeldef. cbv zeta.
  rewrite <- size_list_to_set_distinct. intros ->.
  rewrite Nat.ltb_irrefl. reflexivity.
Qed.

(** X13.  A sub-assembly table that passed [_check_if_need_modeldef] loses
    no row in [OWT.__init__]: the dictionary [sub_assemblies] of the turbine
    built lists every row, in the order of the table. *)
Theorem accepted_subassemblies_are_all_kept (subassemblies : list (string * SubAssembly))
    (turbine : string) (location : list float64) (tower_base pile_head : option float64)
    (owt : OWT.t) :
  _check_if_need_modeldef (List.map fst subassemblies) turbine = Ok tt ->
  OWT.__init__ subassemblies location tower_base pile_head = Ok owt ->
  OWT.sub_assemblies owt = subassemblies.
Proof.
  intros Hcheck Hinit.
  apply passed_check_distinct in Hcheck.
  unfold OWT.__init__ in Hinit. cbv zeta in Hinit.
  rewrite (of_list_distinct subassemblies Hcheck) in Hinit.
  destruct (OWT._set_members subassemblies) as [[[tw tp] mp]|]; [|discriminate].
  cbn [mbind result_bind] in Hinit.
  destruct location as [|d location]; [discriminate|].
  cbn [mbind result_bind] in Hinit.
  destruct (OWT.elevations subassemblies tower_base pile_head) as [[tb ph]|];
    [|discriminate].
  cbn [mbind result_bind] in Hinit. injection Hinit as <-. reflexivity.
Qed.

(** The three sub-assemblies of the site. *)
Lemma accepted_subassemblies_are_all_kept_witness :
  _check_if_need_modeldef (List.map fst site_items) "T01" = Ok tt /\
  OWT.__init__ site_items [Fin 30] None None = Ok site_owt /\
  OWT.sub_assemblies site_owt = site_items.
Proof.
  assert (_check_if_need_modeldef (List.map fst site_items) "T01" = Ok tt) as Hc
    by (vm_compute; reflexivity).
  assert (OWT.__init__ site_items [Fin 30] None None = Ok site_owt) as Hi
    by (vm_compute; reflexivity).
  split; [exact Hc|]. split; [exact Hi|].
  exact (accepted_subassemblies_are_all_kept site_items "T01" [Fin 30] None None
           site_owt Hc Hi).
Defined.

End FleetProps.

(** *** What the processing of a turbine keeps *)

Module EngineProps.
Import Spec Examples MethodProps Triples Hoare.
Import OWT.

Lemma preserves_read {A} (P : t -> Prop) (name : string) (field : t -> A) :
  preserves P (read name field).
Proof. intros s Hs. exact Hs. Qed.

Lemma preserves_getattribute (P : t -> Prop) (name : string) :
  preserves P (__getattribute__ name).
Proof. intros s Hs. exact Hs. Qed.

Lemma read_res {A} (name : string) (field : t -> A) (s : t) :
  res (read name field s) = Ok (field s).
Proof. reflexivity. Qed.

Lemma read_st {A} (name : string) (field : t -> A) (s : t) :
  st (read name field s) = s.
Proof. reflexivity. Qed.

(** One step of a proof that a method keeps a property of the turbine
    that its assignments do not touch. *)
Ltac keep_step :=
  match goal with
  | |- preserves _ (Method.bind _ _) => apply preserves_bind; [|intro]
  | |- preserves _ (Method.ret _) => apply preserves_ret
  | |- preserves _ (Method.raise _) => apply preserves_raise
  | |- preserves _ (Method.lift _) => apply preserves_lift
  | |- preserves _ (read _ _) => apply preserves_read
  | |- preserves _ (__getattribute__ _) => apply preserves_getattribute
  | |- preserves _ (Method.modify _) =>
      apply preserves_modify; let s := fresh "s" in let H := fresh "H" in
      intros s H; exact H
  | |- preserves _ (Method.for_each _ _) => apply preserves_for_each; intro
  | |- preserves _ (if ?b then _ else _) => destruct b
  | |- preserves _ (match ?o with _ => _ end) => destruct o
  end.

Ltac keeps := repeat keep_step.

Section Kept.
Context `{Numpy}.

(** A property of the turbine that depends on attributes no processing
    step assigns: the raw inputs and a stage flag already set. *)
Variable P : t -> Prop.
Hypothesis P_rna : forall v s, P s -> P (set_rna v s).
Hypothesis P_pile_toe : forall v s, P s -> P (set_pile_toe v s).
Hypothesis P_tower : forall v s, P s -> P (set_tower v s).
Hypothesis P_transition_piece : forall v s, P s -> P (set_transition_piece v s).
Hypothesis P_monopile : forall v s, P s -> P (set_monopile v s).
Hypothesis P_tw_lumped_mass : forall v s, P s -> P (set_tw_lumped_mass v s).
Hypothesis P_tp_lumped_mass : forall v s, P s -> P (set_tp_lumped_mass v s).
Hypothesis P_mp_lumped_mass : forall v s, P s -> P (set_mp_lumped_mass v s).
Hypothesis P_tp_distributed_mass : forall v s, P s -> P (set_tp_distributed_mass v s).
Hypothesis P_mp_distributed_mass : forall v s, P s -> P (set_mp_distributed_mass v s).
Hypothesis P_grout : forall v s, P s -> P (set_grout v s).

Ltac kept_step :=
  match goal with
  | |- preserves _ (Method.bind _ _) => apply preserves_bind; [|intro]
  | |- preserves _ (Method.ret _) => apply preserves_ret
  | |- preserves _ (Method.raise _) => apply preserves_raise
  | |- preserves _ (Method.lift _) => apply preserves_lift
  | |- preserves _ (read _ _) => apply preserves_read
  | |- preserves _ (__getattribute__ _) => apply preserves_getattribute
  | |- preserves _ (Method.modify _) => apply preserves_modify; auto
  | |- preserves _ (if ?b then _ else _) => destruct b
  | |- preserves _ (match ?o with _ => _ end) => destruct o
  end.

Lemma kept_set_df_structure (idx : string) : preserves P (set_df_structure idx).
Proof. unfold set_df_structure. repeat kept_step. Qed.

Lemma kept_process_structure_geometry (idx : string) :
  preserves P (process_structure_geometry idx).
Proof.
  unfold process_structure_geometry.
  apply preserves_bind; [apply kept_set_df_structure | intro].
  repeat kept_step.
Qed.

Lemma kept_process_rna : preserves P process_rna.
Proof. unfold process_rna. repeat kept_step. Qed.

Lemma kept_set_df_appurtenances (idx : string) : preserves P (set_df_appurtenances idx).
Proof. unfold set_df_appurtenances. repeat kept_step. Qed.

Lemma kept_process_lumped_masses (idx : string) : preserves P (process_lumped_masses idx).
Proof.
  unfold process_lumped_masses.
  apply preserves_bind; [apply kept_set_df_appurtenances | intro]. repeat kept_step.
Qed.

Lemma kept_set_df_distributed_appurtenances (idx : string) :
  preserves P (set_df_distributed_appurtenances idx).
Proof. unfold set_df_distributed_appurtenances, distributed_on_tp. repeat kept_step. Qed.

Lemma kept_process_distributed_lumped_masses (idx : string) :
  preserves P (process_distributed_lumped_masses idx).
Proof.
  unfold process_distributed_lumped_masses.
  apply preserves_bind; [apply kept_set_df_distributed_appurtenances | intro].
  repeat kept_step.
Qed.

Ltac kept_method :=
  first
    [ apply kept_process_rna
    | apply kept_process_structure_geometry
    | apply kept_process_lumped_masses
    | apply kept_process_distributed_lumped_masses
    | kept_step ].

(** [process_structure] from the assignment of [_init_proc] on. *)
Lemma kept_process_structure (option : string) (s : t) :
  P (set_init_proc true s) -> P (st (process_structure option s)).
Proof.
  intros Hs. unfold process_structure. apply modify_then; [exact Hs|].
  repeat kept_method.
Qed.

End Kept.

(** X14.  After [process_structure], whatever the option and whether it
    returned or raised, the turbine is marked as processed. *)
Theorem process_structure_marks_processed `{Numpy} (option : string) (s : t) :
  _init_proc (st (process_structure option s)) = true.
Proof.
  apply (kept_process_structure (fun s => _init_proc s = true)); auto.
Qed.

(** X15.  [process_structure], returning or raising, changes neither the
    inputs of the turbine (sub-assemblies, the three raw tables, tower base,
    pile head, water depth) nor what the assembly step owns (the full
    structure, the skirt, the substructure and the two assembly
    flags). *)
Theorem process_structure_keeps_inputs `{Numpy} (option : string) (s : t) :
  let s' := st (process_structure option s) in
  sub_assemblies s' = sub_assemblies s /\
  tw_sub_assemblies s' = tw_sub_assemblies s /\
  tp_sub_assemblies s' = tp_sub_assemblies s /\
  mp_sub_assemblies s' = mp_sub_assemblies s /\
  tower_base s' = tower_base s /\
  pile_head s' = pile_head s /\
  water_depth s' = water_depth s /\
  full_structure s' = full_structure s /\
  tp_skirt s' = tp_skirt s /\
  substructure s' = substructure s /\
  _init_spec_part s' = _init_spec_part s /\
  _init_spec_full s' = _init_spec_full s.
Proof.
  cbv zeta.
  repeat split;
    match goal with
    | |- ?f (st _) = ?f s =>
        apply (kept_process_structure (fun s' => f s' = f s)); auto
    end.
Qed.

End EngineProps.

(** *** Labels of the processed tables *)

Module FrameProps.

Lemma loc_set_labels {R} (l : string) (f : R -> R) (df : frame R) :
  List.map fst (loc_set l f df) = List.map fst df.
Proof.
  unfold loc_set. rewrite List.map_map. apply List.map_ext.
  intros [l' r]. simpl. destruct (String.eqb l' l); reflexivity.
Qed.

Lemma loc_set_other {R} (l : string) (f : R -> R) (df : frame R) (i : nat)
    (l' : string) (r : R) :
  df !! i = Some (l', r) -> l' <> l -> loc_set l f df !! i = Some (l', r).
Proof.
  unfold frame in *. intros Hi Hne. unfold loc_set.
  change (List.map ?g df !! i) with ((g <$> df) !! i).
  rewrite list_lookup_fmap, Hi. simpl.
  apply String.eqb_neq in Hne. rewrite Hne. reflexivity.
Qed.

Lemma map_rows_labels {R R'} (f : R -> R') (df : frame R) :
  List.map fst (map_rows f df) = List.map fst df.
Proof. unfold map_rows. rewrite List.map_map. reflexivity. Qed.

Lemma add_to_column_length {R} (o : option float64) (f : R -> float64) (df : frame R)
    (col : list float64) :
  add_to_column o f df = Ok col -> length col = length df.
Proof.
  unfold add_to_column. destruct o as [base|].
  - intros [= <-]. apply length_map.
  - destruct df; [intros [= <-]; reflexivity | discriminate].
Qed.

Lemma with_column_labels {R R'} (g : R -> float64 -> R') (df : frame R)
    (col : list float64) :
  length col = length df -> List.map fst (with_column g df col) = List.map fst df.
Proof.
  unfold with_column. revert col.
  induction df as [|[l r] df IH]; intros [|c col]; simpl; try discriminate;
    [reflexivity|].
  intros [= Hlen]. rewrite (IH col Hlen). reflexivity.
Qed.

(** The rows a test keeps and the rows it rejects are the rows. *)
Lemma filter_partition {A} (p : A -> bool) (l : list A) :
  Permutation (List.filter p l ++ List.filter (fun a => negb (p a)) l)%list l.
Proof.
  induction l as [|a l IH]; [constructor|]. simpl.
  destruct (p a); simpl.
  - constructor. exact IH.
  - apply Permutation_sym, Permutation_cons_app, Permutation_sym. exact IH.
Qed.

End FrameProps.

Module CanModProps.
Import Spec Examples MethodProps Triples Samples Hoare FrameProps.
Import OWT.

(** X16.  When [can_modification] returns, the table has the same labels in
    the same order, and every row whose label is not that of the boundary
    row (the last row for "bottom", the first one otherwise) is
    unchanged. *)
Theorem can_modification_rewrites_one_label `{Numpy} (df df' : frame Can)
    (altitude : option float64) (position : string) :
  can_modification df altitude position = Ok df' ->
  exists (label : string) (row : Can),
    at_position (boundary position) df = Ok (label, row) /\
    List.map fst df' = List.map fst df /\
    forall (i : nat) (l : string) (r : Can),
      df !! i = Some (l, r) -> l <> label -> df' !! i = Some (l, r).
Proof.
  unfold can_modification, boundary.
  destruct (String.eqb position "bottom");
    (destruct (at_position _ df) as [[label row]|] eqn:Hat; [|discriminate]);
    cbn [mbind result_bind];
    match goal with
    | |- context [loc_set label (set_elevation ?b ?a) df] =>
        pose proof (CanProps.at_position_loc_set _ df label row (set_elevation b a) Hat)
          as H1
    end;
    rewrite H1; cbn [mbind result_bind];
    match goal with
    | |- context [loc_set label (set_diameter ?b ?d) ?df1] =>
        pose proof (CanProps.at_position_loc_set _ df1 label _ (set_diameter b d) H1)
          as H2
    end;
    rewrite H2; cbn [mbind result_bind];
    intros [= <-]; exists label, row; (split; [reflexivity|]);
    (split; [rewrite !loc_set_labels; reflexivity|]);
    intros i l r Hi Hne; repeat apply loc_set_other; assumption.
Qed.

(** The bolted transition piece, its last can cut at 6 m. *)
Lemma can_modification_rewrites_one_label_witness :
  exists df' : frame Can,
    @can_modification numpy_example bolted_tp (Some (Fin 6)) "bottom" = Ok df' /\
    exists (label : string) (row : Can),
      at_position (boundary "bottom") bolted_tp = Ok (label, row) /\
      List.map fst df' = List.map fst bolted_tp /\
      forall (i : nat) (l : string) (r : Can),
        bolted_tp !! i = Some (l, r) -> l <> label -> df' !! i = Some (l, r).
Proof.
  eexists. split; [vm_compute; reflexivity|].
  apply (@can_modification_rewrites_one_label numpy_example bolted_tp _
           (Some (Fin 6)) "bottom").
  vm_compute. reflexivity.
Defined.

End CanModProps.

Module GeometryProps.
Import Spec Examples MethodProps Triples Views Samples Hoare FrameProps EngineProps.
Import OWT.

Lemma traverse_length {A B} (f : A -> result B) (xs : list A) (ys : list B) :
  traverse f xs = Ok ys -> length ys = length xs.
Proof.
  revert ys. induction xs as [|x xs IH]; intros ys; cbn [traverse].
  - intros [= <-]. reflexivity.
  - destruct (f x) as [y|]; cbn [mbind result_bind]; [|discriminate].
    destruct (traverse f xs) as [ys'|]; cbn [mbind result_bind]; [|discriminate].
    intros [= <-]. cbn [length]. rewrite (IH ys' eq_refl). reflexivity.
Qed.

Lemma combine_labels {R A} (df : frame R) (l : list A) :
  length l = length df ->
  List.map (fun p : (string * R) * A => fst (fst p)) (combine df l) = List.map fst df.
Proof.
  revert l. induction df as [|lr df IH]; intros [|a l]; cbn; try discriminate;
    [reflexivity|].
  intros [= Hlen]. rewrite (IH l Hlen). reflexivity.
Qed.

Lemma set_df_structure_labels (idx : string) (s : t) (df : frame Structure) :
  res (set_df_structure idx s) = Ok df ->
  exists sa : frame Block,
    raw_table idx s = Some sa /\
    List.map fst df = List.map fst (select_index (structural_title idx) sa).
Proof.
  unfold set_df_structure, raw_table, structural_title.
  destruct (String.eqb idx "tw") eqn:Etw; [|destruct (String.eqb idx "tp") eqn:Etp;
    [|destruct (String.eqb idx "mp") eqn:Emp; [|discriminate]]].
  - apply String.eqb_eq in Etw. subst idx. cbn [String.eqb Ascii.eqb Bool.eqb].
    unfold Method.bind at 1. rewrite read_res, read_st. cbn [res st].
    destruct (tw_sub_assemblies s) as [sa|]; [|discriminate].
    unfold Method.bind, read, Method.lift, Method.ret. cbn [res st].
    match goal with
    | |- context [add_to_column ?o ?f ?d] =>
        destruct (add_to_column o f d) as [z|] eqn:Ez; [|discriminate]
    end.
    cbn [res]. intros [= <-]. exists sa. split; [reflexivity|].
    apply with_column_labels. exact (add_to_column_length _ _ _ _ Ez).
  - apply String.eqb_eq in Etp. subst idx.
    unfold Method.bind at 1. rewrite read_res, read_st. cbn [res st].
    destruct (tp_sub_assemblies s) as [sa|]; [|discriminate].
    unfold Method.bind, read, Method.lift, Method.ret. cbn [res st].
    match goal with
    | |- context [below ?b ?d] => destruct (below b d) as [bottom|]; [|discriminate]
    end.
    cbn [res st add_to_column]. intros [= <-]. exists sa. split; [reflexivity|].
    apply with_column_labels. apply length_map.
  - apply String.eqb_eq in Emp. subst idx. cbn [String.eqb Ascii.eqb Bool.eqb].
    unfold Method.bind at 1. rewrite read_res, read_st. cbn [res st].
    destruct (mp_sub_assemblies s) as [sa|]; [|discriminate].
    unfold Method.bind, read, Method.lift, Method.modify, Method.ret. cbn [res st].
    match goal with
    | |- context [below ?b ?d] => destruct (below b d) as [toe|]; [|discriminate]
    end.
    cbn [res st add_to_column]. intros [= <-]. exists sa. split; [reflexivity|].
    apply with_column_labels. apply length_map.
Qed.

(** X17.  When [process_structure_geometry] returns, the raw table of its
    index exists and the table returned has one row per building block
    selected from it, under the same labels in the same order; for the
    transition piece no label contains "grout". *)
Theorem geometry_rows_follow_blocks `{Numpy} (idx : string) (s : t) (df : frame Can) :
  res (process_structure_geometry idx s) = Ok df ->
  exists sa : frame Block,
    raw_table idx s = Some sa /\
    List.map fst df = List.map fst (select_index (structural_title idx) sa) /\
    (idx = "tp" -> Forall (fun title => contains "grout" title = false) (List.map fst df)).
Proof.
  unfold process_structure_geometry. intros Hrun.
  apply bind_res_ok in Hrun. destruct Hrun as (d0 & Hd0 & Hrun).
  apply bind_res_ok in Hrun. destruct Hrun as (diam_from & Hfrom & Hrun).
  apply bind_res_ok in Hrun. destruct Hrun as (diam_to & Hto & Hrun).
  cbn [Method.lift res st] in Hfrom, Hto, Hrun. injection Hrun as <-.
  destruct (set_df_structure_labels idx s d0 Hd0) as (sa & Hsa & Hlabels).
  exists sa. split; [exact Hsa|].
  assert (List.map fst
            (List.map
               (fun '(lr, (f, t)) =>
                  (fst lr,
                   {| elevation_from := s_elevation_from (snd lr);
                      elevation_to := s_elevation_to (snd lr);
                      height_m := fmul (s_height (snd lr)) (Fin 1e-3);
                      diameter_from := fmul f (Fin 1e-3);
                      diameter_to := fmul t (Fin 1e-3);
                      volume_m3 := s_volume (snd lr);
                      wall_thickness_mm := s_wall_thickness (snd lr);
                      youngs_modulus := Fin 210;
                      poissons_ratio := Fin 0.3;
                      mass_t := fmul (s_mass (snd lr)) (Fin 1e-3);
                      rho_tm := fdiv (s_mass (snd lr)) (s_height (snd lr));
                      can_subassembly := None |}))
               (combine d0 (combine diam_from diam_to)))
          = List.map fst (select_index (structural_title idx) sa)) as E.
  { rewrite List.map_map. rewrite <- Hlabels.
    rewrite <- (combine_labels d0 (combine diam_from diam_to)).
    - apply List.map_ext. intros [[l r] [f t]]. reflexivity.
    - rewrite length_combine.
      apply traverse_length in Hfrom, Hto. rewrite length_map in Hfrom, Hto.
      rewrite Hfrom, Hto. apply Nat.min_id. }
  split; [exact E|].
  intros ->. rewrite E. apply List.Forall_forall. intros title Hin.
  apply List.in_map_iff in Hin. destruct Hin as ([l b] & <- & Hin).
  unfold select_index in Hin. apply List.filter_In in Hin. destruct Hin as [_ Hsel].
  unfold structural_title in Hsel. cbn [String.eqb Ascii.eqb Bool.eqb fst] in Hsel.
  apply andb_true_iff in Hsel. destruct Hsel as [_ Hg].
  apply negb_true_iff in Hg. exact Hg.
Qed.

(** The transition piece of the site, which has a grout block. *)
Lemma geometry_rows_follow_blocks_witness :
  exists df : frame Can,
    res (@process_structure_geometry numpy_example "tp" site_owt) = Ok df /\
    exists sa : frame Block,
      raw_table "tp" site_owt = Some sa /\
      List.map fst df = List.map fst (select_index (structural_title "tp") sa) /\
      ("tp" = "tp" ->
       Forall (fun title => contains "grout" title = false) (List.map fst df)).
Proof.
  eexists. split; [vm_compute; reflexivity|].
  apply (@geometry_rows_follow_blocks numpy_example "tp" site_owt).
  vm_compute. reflexivity.
Defined.

End GeometryProps.

(** *** Lumped and distributed masses *)

Module MassProps.
Import Spec Examples MethodProps Triples Views Samples Hoare FrameProps EngineProps.
Import OWT.

(** The labels of the table [set_df_appurtenances] returns for the
    transition piece or the monopile: the selected rows without height. *)
Lemma set_df_appurtenances_labels (idx : string) (s : t) (sa : frame Block)
    (df : frame Appurtenance) :
  idx = "TP" /\ tp_sub_assemblies s = Some sa \/
  idx = "MP" /\ mp_sub_assemblies s = Some sa ->
  res (set_df_appurtenances idx s) = Ok df ->
  List.map fst df
  = List.map fst (select (fun b => isnan (b_height b)) (select_index (contains idx) sa)).
Proof.
  intros [[-> Hsa]|[-> Hsa]]; unfold set_df_appurtenances;
    cbn [String.eqb Ascii.eqb Bool.eqb];
    unfold Method.bind at 1; rewrite read_res, read_st, Hsa; cbn [res st].
  - unfold Method.bind at 1. rewrite read_res, read_st. cbn [res st].
    unfold Method.bind at 1. unfold Method.lift at 1. cbn [res st].
    destruct (Dict.getitem "TP" (sub_assemblies s)) as [tp|]; [|discriminate].
    unfold Method.bind, Method.lift, Method.ret. cbn [res st].
    match goal with
    | |- context [add_to_column ?o ?f ?d] =>
        destruct (add_to_column o f d) as [z|] eqn:Ez; [|discriminate]
    end.
    cbn [res]. intros [= <-].
    apply with_column_labels. exact (add_to_column_length _ _ _ _ Ez).
  - unfold Method.bind at 1. rewrite read_res, read_st. cbn [res st].
    unfold Method.bind, Method.lift, Method.ret. cbn [res st].
    match goal with
    | |- context [add_to_column ?o ?f ?d] =>
        destruct (add_to_column o f d) as [z|] eqn:Ez; [|discriminate]
    end.
    cbn [res]. intros [= <-].
    apply with_column_labels. exact (add_to_column_length _ _ _ _ Ez).
Qed.

(** Likewise for [set_df_distributed_appurtenances]: the selected rows
    with a height. *)
Lemma set_df_distributed_appurtenances_labels (idx : string) (s : t) (sa : frame Block)
    (df : frame Appurtenance) :
  idx = "TP" /\ tp_sub_assemblies s = Some sa \/
  idx = "MP" /\ mp_sub_assemblies s = Some sa ->
  res (set_df_distributed_appurtenances idx s) = Ok df ->
  List.map fst df
  = List.map fst (select (fun b => negb (isnan (b_height b)))
                    (select_index (contains idx) sa)).
Proof.
  intros [[-> Hsa]|[-> Hsa]]; unfold set_df_distributed_appurtenances, distributed_on_tp;
    cbn [String.eqb Ascii.eqb Bool.eqb];
    unfold Method.bind at 1; rewrite read_res, read_st, Hsa; cbn [res st].
  - unfold Method.bind at 1. rewrite read_res, read_st. cbn [res st].
    unfold Method.bind at 1. unfold Method.lift at 1. cbn [res st].
    destruct (bottom_of_tp (tower_base s) sa) as [bottom|]; [|discriminate].
    unfold Method.bind, Method.lift, Method.ret. cbn [res st].
    match goal with
    | |- context [add_to_column ?o ?f ?d] =>
        destruct (add_to_column o f d) as [z|] eqn:Ez; [|discriminate]
    end.
    cbn [res]. intros [= <-].
    apply with_column_labels. exact (add_to_column_length _ _ _ _ Ez).
  - unfold Method.bind at 1. rewrite read_res, read_st. cbn [res st].
    unfold Method.bind, Method.lift, Method.ret. cbn [res st].
    match goal with
    | |- context [add_to_column ?o ?f ?d] =>
        destruct (add_to_column o f d) as [z|] eqn:Ez; [|discriminate]
    end.
    cbn [res]. intros [= <-].
    apply with_column_labels. exact (add_to_column_length _ _ _ _ Ez).
Qed.

Lemma process_lumped_masses_labels (idx : string) (s : t) (lumped : frame Lumped) :
  res (process_lumped_masses idx s) = Ok lumped ->
  exists df, res (set_df_appurtenances idx s) = Ok df /\
             List.map fst lumped = List.map fst df.
Proof.
  unfold process_lumped_masses. intros Hrun.
  apply bind_res_ok in Hrun. destruct Hrun as (df & Hdf & Hret).
  exists df. split; [exact Hdf|]. injection Hret as <-. apply map_rows_labels.
Qed.

Lemma process_distributed_lumped_masses_labels (idx : string) (s : t)
    (distributed : frame Distributed) :
  res (process_distributed_lumped_masses idx s) = Ok distributed ->
  exists df, res (set_df_distributed_appurtenances idx s) = Ok df /\
             List.map fst distributed = List.map fst df.
Proof.
  unfold process_distributed_lumped_masses. intros Hrun.
  apply bind_res_ok in Hrun. destruct Hrun as (df & Hdf & Hret).
  exists df. split; [exact Hdf|]. injection Hret as <-. apply map_rows_labels.
Qed.

(** X18.  For the transition piece and the monopile, the rows of
    [process_lumped_masses] are the building blocks selected by title
    that have no height and the rows of [process_distributed_lumped_masses]
    those that have one: every selected block is in exactly one of the two
    tables. *)
Theorem masses_are_lumped_or_distributed (idx : string) (s : t) (sa : frame Block)
    (lumped : frame Lumped) (distributed : frame Distributed) :
  idx = "TP" /\ tp_sub_assemblies s = Some sa \/
  idx = "MP" /\ mp_sub_assemblies s = Some sa ->
  res (process_lumped_masses idx s) = Ok lumped ->
  res (process_distributed_lumped_masses idx s) = Ok distributed ->
  let selected := select_index (contains idx) sa in
  List.map fst lumped
    = List.map fst (select (fun b => isnan (b_height b)) selected) /\
  List.map fst distributed
    = List.map fst (select (fun b => negb (isnan (b_height b))) selected) /\
  Permutation (List.map fst lumped ++ List.map fst distributed)%list
              (List.map fst selected).
Proof.
  intros Hidx Hl Hd selected.
  destruct (process_lumped_masses_labels _ _ _ Hl) as (dl & Hdl & El).
  destruct (process_distributed_lumped_masses_labels _ _ _ Hd) as (dd & Hdd & Ed).
  rewrite El, Ed.
  rewrite (set_df_appurtenances_labels idx s sa dl Hidx Hdl).
  rewrite (set_df_distributed_appurtenances_labels idx s sa dd Hidx Hdd).
  fold selected. split; [reflexivity|]. split; [reflexivity|].
  rewrite <- List.map_app. apply Permutation_map. unfold select.
  apply (filter_partition (fun lr : string * Block => isnan (b_height (snd lr)))).
Qed.

(** The transition piece of the site. *)
Lemma masses_are_lumped_or_distributed_witness :
  exists (sa : frame Block) (lumped : frame Lumped) (distributed : frame Distributed),
    tp_sub_assemblies site_owt = Some sa /\
    res (process_lumped_masses "TP" site_owt) = Ok lumped /\
    res (process_distributed_lumped_masses "TP" site_owt) = Ok distributed /\
    let selected := select_index (contains "TP") sa in
    List.map fst lumped
      = List.map fst (select (fun b => isnan (b_height b)) selected) /\
    List.map fst distributed
      = List.map fst (select (fun b => negb (isnan (b_height b))) selected) /\
    Permutation (List.map fst lumped ++ List.map fst distributed)%list
                (List.map fst selected).
Proof.
  eexists. eexists. eexists.
  split; [vm_compute; reflexivity|].
  split; [vm_compute; reflexivity|].
  split; [vm_compute; reflexivity|].
  apply (masses_are_lumped_or_distributed "TP" site_owt).
  - left. split; [reflexivity | vm_compute; reflexivity].
  - vm_compute. reflexivity.
  - vm_compute. reflexivity.
Defined.

(** What [set_df_structure "mp"] leaves behind when it returns. *)
Lemma set_df_structure_mp (s : t) (df : frame Structure) :
  res (set_df_structure "mp" s) = Ok df ->
  exists (sa : frame Block) (head : float64),
    mp_sub_assemblies s = Some sa /\ pile_head s = Some head /\
    st (set_df_structure "mp" s)
    = set_pile_toe
        (Some (fround 3 (fsub head
                 (fmul (nansum (column b_height (select_index (contains "mp") sa)))
                       (Fin 1e-3))))) s.
Proof.
  destruct (mp_sub_assemblies s) as [sa|] eqn:Hsa;
    destruct (pile_head s) as [head|] eqn:Hh;
    unfold set_df_structure, Method.bind, read, Method.lift, Method.modify,
      Method.ret, Method.raise;
    cbn [String.eqb Ascii.eqb Bool.eqb res st]; rewrite ?Hsa; cbn [res st];
    rewrite ?Hh; cbn [res st below scalar mbind result_bind add_to_column];
    try discriminate.
  intros _. exists sa, head. repeat split.
Qed.

(** X19.  Once [process_structure_geometry] has returned for the monopile,
    the pile toe of the turbine is set, and the lumped and the distributed
    masses of the monopile can be processed without an error. *)
Theorem monopile_geometry_sets_pile_toe `{Numpy} (s : t) (df : frame Can) :
  res (process_structure_geometry "mp" s) = Ok df ->
  let s' := st (process_structure_geometry "mp" s) in
  (exists toe, pile_toe s' = Some toe) /\
  is_ok (res (process_lumped_masses "MP" s')) = true /\
  is_ok (res (process_distributed_lumped_masses "MP" s')) = true.
Proof.
  intros Hrun s'.
  unfold process_structure_geometry in Hrun, s'.
  apply bind_res_ok in Hrun. destruct Hrun as (d0 & Hd0 & Hrest).
  destruct (set_df_structure_mp s d0 Hd0) as (sa & head & Hsa & Hhead & Hst).
  assert (st (process_structure_geometry "mp" s) = st (set_df_structure "mp" s)) as Est.
  { unfold process_structure_geometry. rewrite (bind_st_ok _ _ _ _ Hd0).
    apply bind_res_ok in Hrest. destruct Hrest as (a & Ha & Hrest).
    rewrite (bind_st_ok _ _ _ _ Ha).
    apply bind_res_ok in Hrest. destruct Hrest as (b & Hb & Hrest).
    rewrite (bind_st_ok _ _ _ _ Hb). reflexivity. }
  fold (process_structure_geometry "mp") in s'. subst s'. rewrite Est, Hst.
  split; [eexists; reflexivity|].
  unfold process_lumped_masses, process_distributed_lumped_masses,
    set_df_appurtenances, set_df_distributed_appurtenances.
  cbn [String.eqb Ascii.eqb Bool.eqb].
  unfold Method.bind, read, Method.lift, Method.ret. cbn [res st mp_sub_assemblies
    set_pile_toe pile_toe]. rewrite Hsa. cbn [res st add_to_column]. split; reflexivity.
Qed.

(** The monopile of the site. *)
Lemma monopile_geometry_sets_pile_toe_witness :
  exists df : frame Can,
    res (@process_structure_geometry numpy_example "mp" site_owt) = Ok df /\
    let s' := st (@process_structure_geometry numpy_example "mp" site_owt) in
    (exists toe, pile_toe s' = Some toe) /\
    is_ok (res (process_lumped_masses "MP" s')) = true /\
    is_ok (res (process_distributed_lumped_masses "MP" s')) = true.
Proof.
  eexists. split; [vm_compute; reflexivity|].
  eapply (@monopile_geometry_sets_pile_toe numpy_example site_owt).
  vm_compute. reflexivity.
Defined.

End MassProps.

(** *** The tags set by [extend_dfs] *)

Module TagProps.
Import Spec Examples MethodProps Triples Views Samples Hoare FrameProps EngineProps.
Import OWT.
Local Open Scope method_scope.

Lemma tag_table_run (attr : string) (s : t) :
  In attr ATTR_PROC ->
  res (tag_table attr s) = Ok tt /\ st (tag_table attr s) = tag_effect attr s.
Proof.
  intros Hin.
  destruct s as [ip isp isf subs tw_sa tp_sa mp_sa tb ph wd toe
                 rna tw tp mp twl tpl mpl tpd mpd grout full skirt sub].
  unfold ATTR_PROC in Hin. cbn [In] in Hin.
  repeat (destruct Hin as [<-|Hin];
          [ vm_compute;
            repeat match goal with
                   | |- context [match ?x with Some _ => _ | None => _ end] => destruct x
                   end;
            split; reflexivity |]).
  contradiction.
Qed.

Lemma for_each_cons {A} (x : A) (xs : list A) (body : A -> M unit) (s : t) :
  res (body x s) = Ok tt ->
  res (for_each (x :: xs) body s) = res (for_each xs body (st (body x s))) /\
  st (for_each (x :: xs) body s) = st (for_each xs body (st (body x s))).
Proof.
  intros E. cbn [for_each]. unfold Method.bind. rewrite E. split; reflexivity.
Qed.

Lemma tagging_loop (s : t) :
  res (for_each ATTR_PROC tag_table s) = Ok tt /\
  st (for_each ATTR_PROC tag_table s) = tagged s.
Proof.
  assert (forall attrs s0,
            (forall a, In a attrs -> In a ATTR_PROC) ->
            res (for_each attrs tag_table s0) = Ok tt /\
            st (for_each attrs tag_table s0) = fold_left (fun s a => tag_effect a s) attrs s0)
    as Hloop.
  { induction attrs as [|a attrs IH]; intros s0 Hin; [split; reflexivity|].
    destruct (tag_table_run a s0 (Hin a (or_introl eq_refl))) as [Hr Hs].
    destruct (for_each_cons a attrs tag_table s0 Hr) as [Er Es].
    rewrite Er, Es, Hs. cbn [fold_left].
    apply IH. intros b Hb. apply Hin. right. exact Hb. }
  destruct (Hloop ATTR_PROC s (fun a H => H)) as [Hr Hs].
  split; [exact Hr|]. rewrite Hs.
  destruct s. reflexivity.
Qed.

Lemma run_assoc {A B C} (m : M A) (f : A -> M B) (g : B -> M C) (s : t) :
  run (Method.bind (Method.bind m f) g) s
  = run (Method.bind m (fun a => Method.bind (f a) g)) s.
Proof. unfold run. rewrite bind_assoc. reflexivity. Qed.

Lemma run_bind {A B} (m : M A) (k : A -> M B) (s : t) :
  run (Method.bind m k) s
  = match res (m s) with
    | Ok a => run (k a) (st (m s))
    | Raise e => (Raise e, st (m s))
    end.
Proof. unfold run, Method.bind. destruct (res (m s)); reflexivity. Qed.

Lemma run_read {A B} (name : string) (field : t -> A) (k : A -> M B) (s : t) :
  run (Method.bind (read name field) k) s = run (k (field s)) s.
Proof. rewrite run_bind. reflexivity. Qed.

Lemma run_getattribute {B} (name : string) (k : value -> M B) (s : t) :
  run (Method.bind (__getattribute__ name) k) s
  = match slot name s with
    | Ok v => run (k v) s
    | Raise e => (Raise e, s)
    end.
Proof. rewrite run_bind. reflexivity. Qed.

Lemma run_modify {B} (f : t -> t) (k : unit -> M B) (s : t) :
  run (Method.bind (Method.modify f) k) s = run (k tt) (f s).
Proof. rewrite run_bind. reflexivity. Qed.

Lemma run_ret {A B} (a : A) (k : A -> M B) (s : t) :
  run (Method.bind (Method.ret a) k) s = run (k a) s.
Proof. rewrite run_bind. reflexivity. Qed.

Lemma run_lift {A B} (r : result A) (k : A -> M B) (s : t) :
  run (Method.bind (Method.lift r) k) s
  = match r with
    | Ok a => run (k a) s
    | Raise e => (Raise e, s)
    end.
Proof. rewrite run_bind. reflexivity. Qed.

Lemma run_raise {A B} (e : exn) (k : A -> M B) (s : t) :
  run (Method.bind (Method.raise e) k) s = (Raise e, s).
Proof. rewrite run_bind. reflexivity. Qed.

Ltac run_in H :=
  repeat first
    [ rewrite run_assoc in H
    | rewrite run_read in H
    | rewrite run_modify in H
    | rewrite run_ret in H
    | rewrite run_raise in H ].

Lemma loc_set_tags (l : string) (f : Can -> Can) (df : frame Can) :
  (forall r, can_subassembly (f r) = can_subassembly r) ->
  tags (loc_set l f df) = tags df.
Proof.
  intros Hf. unfold tags, loc_set. rewrite List.map_map. apply List.map_ext.
  intros [l' r]. simpl. destruct (String.eqb l' l); [apply Hf | reflexivity].
Qed.

Lemma can_modification_tags `{Numpy} (df df' : frame Can) (altitude : option float64)
    (position : string) :
  can_modification df altitude position = Ok df' -> tags df' = tags df.
Proof.
  unfold can_modification.
  destruct (String.eqb position "bottom");
    (destruct (at_position _ df) as [[label row]|]; [|discriminate]);
    cbn [mbind result_bind];
    (destruct (at_position _ _) as [[l1 r1]|]; [|discriminate]);
    cbn [mbind result_bind];
    (destruct (at_position _ _) as [[l2 r2]|]; [|discriminate]);
    cbn [mbind result_bind];
    intros [= <-]; rewrite !loc_set_tags; try reflexivity;
    intros r; reflexivity.
Qed.

Lemma select_tags (p : Can -> bool) (df : frame Can) (tag : option string) :
  In tag (tags (select p df)) -> In tag (tags df).
Proof.
  unfold tags, select. rewrite !List.in_map_iff.
  intros (lr & E & Hin). apply List.filter_In in Hin.
  exists lr. split; [exact E | apply Hin].
Qed.

Lemma tags_app (a b : frame Can) : tags (a ++ b)%list = (tags a ++ tags b)%list.
Proof. apply List.map_app. Qed.

(** [assembly_tp_mp], when it returns: the tags of the substructure are
    tags of the transition piece or of the monopile. *)
Lemma assembly_tp_mp_ok `{Numpy} (s : t) :
  res (assembly_tp_mp s) = Ok tt ->
  exists (tp mp sub skirt : frame Can),
    transition_piece s = Some tp /\ monopile s = Some mp /\
    st (assembly_tp_mp s)
    = set_tp_skirt (Some skirt) (set_substructure (Some sub) (set_init_spec_part true s)) /\
    forall tag, In tag (tags sub) -> In tag (tags tp) \/ In tag (tags mp).
Proof.
  intros Hrun.
  remember (res (assembly_tp_mp s)) as r eqn:Er.
  remember (st (assembly_tp_mp s)) as s' eqn:Es.
  assert (run assembly_tp_mp s = (r, s')) as Hr by (subst; reflexivity).
  clear Er Es. subst r.
  unfold assembly_tp_mp in Hr. rewrite run_modify in Hr.
  set (s1 := set_init_spec_part true s) in *.
  rewrite run_read in Hr. change (transition_piece s1) with (transition_piece s) in Hr.
  destruct (transition_piece s) as [tp|] eqn:Htp.
  2:{ rewrite run_ret in Hr. unfold run in Hr. discriminate. }
  rewrite run_assoc, run_read in Hr. change (monopile s1) with (monopile s) in Hr.
  destruct (monopile s) as [mp|] eqn:Hmp.
  2:{ rewrite run_ret in Hr. unfold run in Hr. discriminate. }
  rewrite !run_ret, !run_read in Hr.
  change (transition_piece s1) with (transition_piece s) in Hr. rewrite Htp in Hr.
  cbn [subscriptable] in Hr. rewrite run_lift in Hr.
  rewrite run_lift in Hr.
  set (head := pile_head s1) in *.
  destruct (top_row_off_joint _ head) as [off|]; [|discriminate].
  exists tp, mp.
  destruct off.
  - rewrite !run_assoc, run_lift in Hr.
    destruct (can_modification _ head "bottom") as [tp1|] eqn:Ecut; [|discriminate].
    rewrite !run_assoc, run_read in Hr. change (monopile s1) with (monopile s) in Hr.
    rewrite Hmp in Hr. rewrite !run_assoc in Hr.
    change (pd_concat [Some tp1; Some mp]) with (Ok (tp1 ++ (mp ++ []))%list) in Hr.
    rewrite run_lift, app_nil_r, run_modify, run_lift in Hr.
    destruct (can_modification _ head "top") as [skirt|]; [|discriminate].
    apply (f_equal snd) in Hr. cbn [snd run st Method.modify] in Hr. subst s'.
    exists (tp1 ++ mp)%list, skirt. repeat split.
    intros tag. rewrite tags_app, List.in_app_iff.
    intros [Hin|Hin]; [left | right; exact Hin].
    rewrite (can_modification_tags _ _ _ _ Ecut) in Hin.
    exact (select_tags _ _ _ Hin).
  - rewrite !run_assoc, run_read in Hr. change (monopile s1) with (monopile s) in Hr.
    rewrite Hmp in Hr. rewrite !run_assoc in Hr.
    match type of Hr with
    | context [pd_concat [Some ?above; Some mp]] =>
        change (pd_concat [Some above; Some mp]) with (Ok (above ++ (mp ++ []))%list) in Hr
    end.
    rewrite run_lift, app_nil_r, run_modify, run_lift in Hr.
    destruct (can_modification _ head "top") as [skirt|]; [|discriminate].
    apply (f_equal snd) in Hr. cbn [snd run st Method.modify] in Hr. subst s'.
    eexists. exists skirt. repeat split.
    intros tag. rewrite tags_app, List.in_app_iff.
    intros [Hin|Hin]; [left | right; exact Hin].
    exact (select_tags _ _ _ Hin).
Qed.

Lemma assembly_full_structure_ok (s : t) :
  res (assembly_full_structure s) = Ok tt ->
  exists tw sub : frame Can,
    tower s = Some tw /\ substructure s = Some sub /\
    st (assembly_full_structure s)
    = set_full_structure (Some (tw ++ sub)%list) (set_init_spec_full true s).
Proof.
  intros Hrun.
  remember (res (assembly_full_structure s)) as r eqn:Er.
  remember (st (assembly_full_structure s)) as s' eqn:Es.
  assert (run assembly_full_structure s = (r, s')) as Hr by (subst; reflexivity).
  clear Er Es. subst r.
  unfold assembly_full_structure in Hr. rewrite run_modify, run_read in Hr.
  set (s1 := set_init_spec_full true s) in *.
  change (substructure s1) with (substructure s) in Hr.
  destruct (substructure s) as [sub|] eqn:Hsub; [|discriminate].
  rewrite run_read in Hr. change (tower s1) with (tower s) in Hr.
  destruct (tower s) as [tw|] eqn:Htw; [|discriminate].
  rewrite !run_read in Hr.
  change (tower s1) with (tower s) in Hr.
  change (substructure s1) with (substructure s) in Hr.
  rewrite Htw, Hsub in Hr.
  change (pd_concat [Some tw; Some sub]) with (Ok (tw ++ (sub ++ []))%list) in Hr.
  rewrite run_lift, app_nil_r in Hr.
  apply (f_equal snd) in Hr. cbn [snd run st Method.modify] in Hr. subst s'.
  exists tw, sub. repeat split.
Qed.

Lemma tags_tagged (tag : string) (df : frame Can) :
  Forall (eq (Some tag)) (tags (map_rows (set_subassembly tag) df)).
Proof.
  unfold tags, map_rows. rewrite List.map_map. apply List.Forall_forall.
  intros x Hx. apply List.in_map_iff in Hx. destruct Hx as (lr & <- & _). reflexivity.
Qed.

(** X20.  When [extend_dfs] returns on a turbine without substructure, both
    assembly flags are set, every row of the tower, the transition piece
    and the monopile carries the tag of its table ("TW", "TP", "MP"), and
    every row of the full structure carries one of the three. *)
Theorem extend_dfs_completes `{Numpy} (s : t) :
  substructure s = None ->
  res (extend_dfs s) = Ok tt ->
  let s' := st (extend_dfs s) in
  _init_spec_part s' = true /\ _init_spec_full s' = true /\
  (forall df, tower s' = Some df -> Forall (eq (Some "TW")) (tags df)) /\
  (forall df, transition_piece s' = Some df -> Forall (eq (Some "TP")) (tags df)) /\
  (forall df, monopile s' = Some df -> Forall (eq (Some "MP")) (tags df)) /\
  (forall df, full_structure s' = Some df ->
     Forall (fun tag => tag = Some "TW" \/ tag = Some "TP" \/ tag = Some "MP") (tags df)).
Proof.
  intros Hsub0 Hrun s'. subst s'.
  remember (res (extend_dfs s)) as r eqn:Er.
  remember (st (extend_dfs s)) as s' eqn:Es.
  assert (run extend_dfs s = (r, s')) as Hr by (subst; reflexivity).
  clear Er Es. subst r.
  unfold extend_dfs in Hr.
  rewrite run_bind in Hr.
  destruct (tagging_loop s) as [Hloop_res Hloop_st].
  change (for_each ATTR_PROC _) with (for_each ATTR_PROC tag_table) in Hr.
  rewrite Hloop_res, Hloop_st in Hr.
  set (s1 := tagged s) in *.
  assert (forall df, tower s1 = Some df -> Forall (eq (Some "TW")) (tags df)) as Htw.
  { intros df. unfold s1, tagged. cbn [tower]. destruct (tower s); [|discriminate].
    intros [= <-]. apply tags_tagged. }
  assert (forall df, transition_piece s1 = Some df -> Forall (eq (Some "TP")) (tags df))
    as Htp.
  { intros df. unfold s1, tagged. cbn [transition_piece].
    destruct (transition_piece s); [|discriminate]. intros [= <-]. apply tags_tagged. }
  assert (forall df, monopile s1 = Some df -> Forall (eq (Some "MP")) (tags df)) as Hmp.
  { intros df. unfold s1, tagged. cbn [monopile].
    destruct (monopile s); [|discriminate]. intros [= <-]. apply tags_tagged. }
  assert (substructure s1 = None) as Hsub1 by exact Hsub0.
  clearbody s1. clear Hloop_res Hloop_st.
  rewrite run_read, run_bind in Hr.
  (* the transition piece on the monopile *)
  assert (exists s2,
            run (subs <- read "sub_assemblies" sub_assemblies ;;
                 if Dict.mem "TW" subs
                 then
                   modify (set_init_spec_full true) ;;
                   sub <- read "substructure" substructure ;;
                   (if sub is Some _
                    then assembly_full_structure
                    else modify (set_full_structure None))
                 else modify (set_full_structure None) ;;
                      modify (set_init_spec_full true)) s2 = (Ok tt, s') /\
            _init_spec_part s2 = true /\
            tower s2 = tower s1 /\ transition_piece s2 = transition_piece s1 /\
            monopile s2 = monopile s1 /\
            (forall sub, substructure s2 = Some sub ->
               Forall (fun tag => tag = Some "TP" \/ tag = Some "MP") (tags sub)))
    as (s2 & Hr2 & Hpart & Etw & Etp & Emp & Hsub2).
  { destruct (Dict.mem "TP" (sub_assemblies s1) && Dict.mem "MP" (sub_assemblies s1)).
    - destruct (res (assembly_tp_mp s1)) as [[]|e] eqn:Eres; [|discriminate].
      destruct (assembly_tp_mp_ok s1 Eres) as (tp & mp & sub & skirt & Htp1 & Hmp1 & Est & Hin).
      rewrite Est in Hr. eexists. split; [exact Hr|].
      repeat split.
      cbn [substructure set_tp_skirt set_substructure]. intros sub' [= <-].
      apply List.Forall_forall. intros tag Htag.
      destruct (Hin tag Htag) as [Ht|Ht].
      + left. pose proof (Htp tp Htp1) as F. rewrite List.Forall_forall in F.
        symmetry. exact (F tag Ht).
      + right. pose proof (Hmp mp Hmp1) as F. rewrite List.Forall_forall in F.
        symmetry. exact (F tag Ht).
    - cbn [Method.bind Method.modify res st] in Hr.
      eexists. split; [exact Hr|]. repeat split.
      cbn [substructure set_tp_skirt set_init_spec_part]. rewrite Hsub1. discriminate. }
  clear Hr. rewrite run_read in Hr2.
  destruct (Dict.mem "TW" (sub_assemblies s2)).
  - rewrite run_modify, run_read in Hr2.
    set (s3 := set_init_spec_full true s2) in *.
    change (substructure s3) with (substructure s2) in Hr2.
    destruct (substructure s2) as [sub|] eqn:Hs2.
    + pose proof (f_equal fst Hr2) as Hres. pose proof (f_equal snd Hr2) as Hst.
      cbn [fst snd run] in Hres, Hst. clear Hr2.
      destruct (assembly_full_structure_ok s3 Hres) as (tw & sub' & Htw3 & Hsub3 & Est).
      rewrite Est in Hst. subst s'.
      cbn [_init_spec_part _init_spec_full tower transition_piece monopile full_structure
           set_full_structure set_init_spec_full s3].
      rewrite Etw, Etp, Emp. repeat split; auto.
      intros df [= <-]. change (substructure s3) with (substructure s2) in Hsub3.
      rewrite Hs2 in Hsub3. injection Hsub3 as <-.
      change (tower s3) with (tower s2) in Htw3. rewrite Etw in Htw3.
      rewrite tags_app. apply List.Forall_app. split.
      * pose proof (Htw tw Htw3) as F. eapply List.Forall_impl; [|exact F].
        intros tag <-. left. reflexivity.
      * pose proof (Hsub2 sub eq_refl) as F. eapply List.Forall_impl; [|exact F].
        intros tag [->| ->]; auto.
    + unfold run in Hr2. cbn [Method.modify res st] in Hr2. injection Hr2 as <-.
      cbn [_init_spec_part _init_spec_full tower transition_piece monopile full_structure
           set_full_structure set_init_spec_full s3].
      rewrite Etw, Etp, Emp. repeat split; auto. discriminate.
  - unfold run in Hr2. cbn [Method.bind Method.modify res st] in Hr2. injection Hr2 as <-.
    cbn [_init_spec_part _init_spec_full tower transition_piece monopile full_structure
         set_full_structure set_init_spec_full].
    rewrite Etw, Etp, Emp. repeat split; auto. discriminate.
Qed.

(** The turbine of the site after its processing. *)
Lemma extend_dfs_completes_witness :
  substructure site_owt_processed = None /\
  res (@extend_dfs numpy_example site_owt_processed) = Ok tt /\
  let s' := st (@extend_dfs numpy_example site_owt_processed) in
  _init_spec_part s' = true /\ _init_spec_full s' = true /\
  (forall df, tower s' = Some df -> Forall (eq (Some "TW")) (tags df)) /\
  (forall df, transition_piece s' = Some df -> Forall (eq (Some "TP")) (tags df)) /\
  (forall df, monopile s' = Some df -> Forall (eq (Some "MP")) (tags df)) /\
  (forall df, full_structure s' = Some df ->
     Forall (fun tag => tag = Some "TW" \/ tag = Some "TP" \/ tag = Some "MP") (tags df)).
Proof.
  assert (substructure site_owt_processed = None) as H0 by (vm_compute; reflexivity).
  assert (res (@extend_dfs numpy_example site_owt_processed) = Ok tt) as H1
    by (vm_compute; reflexivity).
  split; [exact H0|]. split; [exact H1|].
  exact (@extend_dfs_completes numpy_example site_owt_processed H0 H1).
Defined.

End TagProps.

(** *** The summary table of a fleet *)

Module SummaryProps.
Import Spec Examples MethodProps Triples Samples Hoare Returns.
Import OWTs.

Lemma summary_row_name (pile_toe_map : value) (turb : string) :
  returns (fun r => turbine_name r = turb) (summary_row pile_toe_map turb).
Proof.
  unfold summary_row.
  repeat (apply returns_bind; intro).
  apply returns_ret. reflexivity.
Qed.

Lemma getattribute_st (name : string) (s : t) : st (__getattribute__ name s) = s.
Proof. reflexivity. Qed.

Lemma reading_loop_st (names : list string) (s : t) :
  st (for_each names (fun attr => Method.bind (__getattribute__ attr)
                                    (fun _ => Method.ret tt)) s) = s.
Proof.
  apply (preserves_for_each (fun s' => s' = s)); [|reflexivity].
  intros attr s0 ->. unfold Method.bind. cbn [__getattribute__ res st].
  destruct (attrs s !! attr); reflexivity.
Qed.

(** X21.  When [OWTs._assembly_turbine] returns, the slot [all_turbines]
    holds a table with one row per turbine of the fleet, named after the
    turbines in their order. *)
Theorem summary_has_one_row_per_turbine (s : t) :
  res (_assembly_turbine s) = Ok tt ->
  exists rows : list Turbine,
    attrs (st (_assembly_turbine s)) !! "all_turbines" = Some (VSummary rows) /\
    List.map turbine_name rows = Dict.keys (owts s).
Proof.
  unfold _assembly_turbine. intros Hrun.
  destruct (bind_ok_inv _ _ _ _ Hrun) as ([] & _ & Hrun1 & ->).
  rewrite reading_loop_st in Hrun1 |- *.
  destruct (bind_ok_inv _ _ _ _ Hrun1) as (pile_toe_map & _ & Hrun2 & ->).
  rewrite getattribute_st in Hrun2 |- *.
  destruct (bind_ok_inv _ _ _ _ Hrun2) as (s0 & Hs0 & Hrun3 & ->).
  injection Hs0 as <-. cbn [Method.get st] in Hrun3 |- *.
  destruct (bind_ok_inv _ _ _ _ Hrun3) as (rows & Hrows & _ & ->).
  exists rows. split.
  - unfold setattr. cbn [Method.modify st attrs set_attrs]. apply lookup_insert_eq.
  - exact (returns_collect turbine_name _ _ (summary_row_name pile_toe_map) _ _ Hrows).
Qed.

(** The fleet of the site after its processing. *)
Lemma summary_has_one_row_per_turbine_witness :
  res (_assembly_turbine site_fleet) = Ok tt /\
  exists rows : list Turbine,
    attrs (st (_assembly_turbine site_fleet)) !! "all_turbines" = Some (VSummary rows) /\
    List.map turbine_name rows = Dict.keys (owts site_fleet).
Proof.
  assert (res (_assembly_turbine site_fleet) = Ok tt) as H by (vm_compute; reflexivity).
  split; [exact H|].
  exact (summary_has_one_row_per_turbine site_fleet H).
Defined.

End SummaryProps.
